(** Verification of the MKWLog record store and its CSV codec.

    The development is a shallow embedding of the script of the
    application's page component: the time format codec, the time
    ledger, the ranking computation, the CSV import and export and the
    localStorage adapter.

    Modelling conventions.
    - A JS string is a [string]: a sequence of 8-bit code units.  The code
      only ever inspects ASCII characters (digits, comma, double quote,
      colon, dot, newline, white space), so wider code units behave like
      any other ordinary character.
    - A JS number is a [number]: an exact rational, the two infinities or
      NaN.  Rounding to binary64 is not modelled; on the times the
      application writes (minutes, two digits of seconds, three digits of
      milliseconds) the double arithmetic of the source orders values
      exactly as the rationals do, since distinct values differ by at
      least one millisecond.
    - The reactive [ref]s of the component are the fields of one [Store]
      record that every operation threads explicitly; [localStorage] is
      one of them.
    - [new Date().toISOString()], [Date.now()] and [Math.random()] are
      inputs of the operations that read them.
    - An operation that can throw returns an [outcome]. *)

From Stdlib Require Import ZArith QArith Lqa Ascii String List Bool Lia Permutation Sorted.
From stdpp Require Import gmap strings list sorting.

Close Scope Q_scope.
Local Open Scope Z_scope.

(** * JavaScript strings *)

Definition code (c : ascii) : N := N_of_ascii c.

(** [\d] *)
Definition isDigit (c : ascii) : bool := (48 <=? code c)%N && (code c <=? 57)%N.

(** [[0-5]] *)
Definition isDigit05 (c : ascii) : bool := (48 <=? code c)%N && (code c <=? 53)%N.

(** White space and line terminators, as [trim], [parseInt] and
    [parseFloat] skip them (code units below 256). *)
Definition isWhitespace (c : ascii) : bool :=
  (code c =? 9)%N || (code c =? 10)%N || (code c =? 11)%N || (code c =? 12)%N
  || (code c =? 13)%N || (code c =? 32)%N || (code c =? 160)%N.

Definition quoteChar : ascii := "034"%char.
Definition commaChar : ascii := ","%char.
Definition newlineChar : ascii := "010"%char.
Definition colonChar : ascii := ":"%char.
Definition dotChar : ascii := "."%char.

(** A string is truthy exactly when it is not empty. *)
Definition truthy (s : string) : bool :=
  match s with EmptyString => false | String _ _ => true end.

Fixpoint trimStart (s : string) : string :=
  match s with
  | EmptyString => EmptyString
  | String c s' => if isWhitespace c then trimStart s' else s
  end.

Fixpoint trimEnd (s : string) : string :=
  match s with
  | EmptyString => EmptyString
  | String c s' =>
      match trimEnd s' with
      | EmptyString => if isWhitespace c then EmptyString else String c EmptyString
      | t => String c t
      end
  end.

(** [s.trim()] *)
Definition trim (s : string) : string := trimEnd (trimStart s).

(** [s.includes(c)] for a one character needle. *)
Fixpoint includes (c : ascii) (s : string) : bool :=
  match s with
  | EmptyString => false
  | String d s' => Ascii.eqb d c || includes c s'
  end.

(** [s.replace(/c/g, '')] *)
Fixpoint removeAll (c : ascii) (s : string) : string :=
  match s with
  | EmptyString => EmptyString
  | String d s' => if Ascii.eqb d c then removeAll c s' else String d (removeAll c s')
  end.

(** [s.replace(/\x22/g, '\x22\x22')]: every double quote is doubled. *)
Fixpoint doubleQuotes (s : string) : string :=
  match s with
  | EmptyString => EmptyString
  | String d s' =>
      if Ascii.eqb d quoteChar then String quoteChar (String quoteChar (doubleQuotes s'))
      else String d (doubleQuotes s')
  end.

(** [s.replace(/\D/g, '')] *)
Fixpoint digitsOnly (s : string) : string :=
  match s with
  | EmptyString => EmptyString
  | String d s' => if isDigit d then String d (digitsOnly s') else digitsOnly s'
  end.

(** [s.split(sep)] for a one character separator: never the empty list. *)
Fixpoint split (sep : ascii) (s : string) : list string :=
  match s with
  | EmptyString => [EmptyString]
  | String c s' =>
      if Ascii.eqb c sep then EmptyString :: split sep s'
      else match split sep s' with
           | [] => [String c EmptyString]
           | h :: t => String c h :: t
           end
  end.

(** [l.join(sep)] *)
Definition join (sep : string) (l : list string) : string := String.concat sep l.

(** [s.slice(start, stop)], negative indices counting from the end. *)
Definition slice (s : string) (start : Z) (stop : option Z) : string :=
  let len := Z.of_nat (String.length s) in
  let clamp i := if i <? 0 then Z.max (len + i) 0 else Z.min i len in
  let from := clamp start in
  let to := match stop with Some e => clamp e | None => len end in
  substring (Z.to_nat from) (Z.to_nat (to - from)) s.

(** * JavaScript numbers *)

Inductive number : Type :=
  | NaN
  | NegInf
  | Fin (q : Q)
  | PosInf.

Definition Qltb (a b : Q) : bool := negb (Qle_bool b a).

Definition ofZ (z : Z) : number := Fin (inject_Z z).

(** [a < b] *)
Definition lt (a b : number) : bool :=
  match a, b with
  | NaN, _ | _, NaN => false
  | NegInf, NegInf => false
  | NegInf, _ => true
  | Fin _, NegInf => false
  | Fin x, Fin y => Qltb x y
  | Fin _, PosInf => true
  | PosInf, _ => false
  end.

(** [a <= b] *)
Definition le (a b : number) : bool :=
  match a, b with
  | NaN, _ | _, NaN => false
  | NegInf, _ => true
  | Fin _, NegInf => false
  | Fin x, Fin y => Qle_bool x y
  | Fin _, PosInf => true
  | PosInf, PosInf => true
  | PosInf, _ => false
  end.

Definition gt (a b : number) : bool := lt b a.
Definition ge (a b : number) : bool := le b a.

Definition neg (a : number) : number :=
  match a with
  | NaN => NaN
  | NegInf => PosInf
  | Fin q => Fin (Qopp q)
  | PosInf => NegInf
  end.

(** [a + b] *)
Definition add (a b : number) : number :=
  match a, b with
  | NaN, _ | _, NaN => NaN
  | Fin x, Fin y => Fin (Qplus x y)
  | PosInf, NegInf | NegInf, PosInf => NaN
  | PosInf, _ | _, PosInf => PosInf
  | NegInf, _ | _, NegInf => NegInf
  end.

(** [a - b] *)
Definition sub (a b : number) : number := add a (neg b).

Definition signOf (q : Q) : comparison := Z.compare (Qnum q) 0.

Definition scaleInf (positive : bool) (q : Q) : number :=
  match signOf q with
  | Eq => NaN
  | Gt => if positive then PosInf else NegInf
  | Lt => if positive then NegInf else PosInf
  end.

(** [a * b] *)
Definition mul (a b : number) : number :=
  match a, b with
  | NaN, _ | _, NaN => NaN
  | Fin x, Fin y => Fin (Qmult x y)
  | PosInf, Fin y => scaleInf true y
  | NegInf, Fin y => scaleInf false y
  | Fin x, PosInf => scaleInf true x
  | Fin x, NegInf => scaleInf false x
  | PosInf, PosInf | NegInf, NegInf => PosInf
  | PosInf, NegInf | NegInf, PosInf => NaN
  end.

(** [Math.min(a, b)] and [Math.min(...l)]: NaN is contagious, the minimum
    of no argument is [Infinity]. *)
Definition min2 (a b : number) : number :=
  match a, b with
  | NaN, _ | _, NaN => NaN
  | _, _ => if lt b a then b else a
  end.

Definition mathMin (l : list number) : number := foldr min2 PosInf l.

(** ** parseInt and parseFloat *)

Fixpoint digitsPrefix (s : string) : string * string :=
  match s with
  | EmptyString => (EmptyString, EmptyString)
  | String c s' =>
      if isDigit c then let '(d, r) := digitsPrefix s' in (String c d, r)
      else (EmptyString, s)
  end.

(** [/^\d*$/] *)
Fixpoint allDigits (s : string) : bool :=
  match s with
  | EmptyString => true
  | String c s' => isDigit c && allDigits s'
  end.

Definition digitValue (c : ascii) : Z := Z.of_N (code c) - 48.

Fixpoint decimalValue (acc : Z) (s : string) : Z :=
  match s with
  | EmptyString => acc
  | String c s' => decimalValue (10 * acc + digitValue c) s'
  end.

Definition hexDigitValue (c : ascii) : option Z :=
  let n := code c in
  if (48 <=? n)%N && (n <=? 57)%N then Some (Z.of_N n - 48)
  else if (65 <=? n)%N && (n <=? 70)%N then Some (Z.of_N n - 55)
  else if (97 <=? n)%N && (n <=? 102)%N then Some (Z.of_N n - 87)
  else None.

(** The value of the longest prefix of hexadecimal digits, if not empty. *)
Fixpoint hexValue (acc : option Z) (s : string) : option Z :=
  match s with
  | EmptyString => acc
  | String c s' =>
      match hexDigitValue c with
      | Some v => hexValue (Some (16 * default 0 acc + v)) s'
      | None => acc
      end
  end.

(** A leading [+] or [-]; [true] stands for a minus sign. *)
Definition stripSign (s : string) : bool * string :=
  match s with
  | String c s' =>
      if Ascii.eqb c "-" then (true, s')
      else if Ascii.eqb c "+" then (false, s')
      else (false, s)
  | EmptyString => (false, s)
  end.

Definition signed (negative : bool) (z : Z) : Z := if negative then - z else z.

Definition hexPrefixed (s : string) : option string :=
  match s with
  | String c0 (String c1 r) =>
      if Ascii.eqb c0 "0" && (Ascii.eqb c1 "x" || Ascii.eqb c1 "X") then Some r else None
  | _ => None
  end.

(** [parseInt(str)] without a radix. *)
Definition parseInt (str : string) : number :=
  let '(negative, s) := stripSign (trimStart str) in
  match hexPrefixed s with
  | Some r =>
      match hexValue None r with
      | Some v => ofZ (signed negative v)
      | None => NaN
      end
  | None =>
      let '(d, _) := digitsPrefix s in
      if truthy d then ofZ (signed negative (decimalValue 0 d)) else NaN
  end.

Fixpoint startsWith (p s : string) : bool :=
  match p, s with
  | EmptyString, _ => true
  | String a p', String b s' => Ascii.eqb a b && startsWith p' s'
  | String _ _, EmptyString => false
  end.

(** The exponent part [e±ddd] of a decimal literal; 0 when there is none. *)
Definition exponentOf (s : string) : Z :=
  match s with
  | String e r =>
      if Ascii.eqb e "e" || Ascii.eqb e "E" then
        let '(negative, r') := stripSign r in
        let '(d, _) := digitsPrefix r' in
        if truthy d then signed negative (decimalValue 0 d) else 0
      else 0
  | EmptyString => 0
  end.

Definition pow10 (e : Z) : Q := Qpower (inject_Z 10) e.

Definition signedQ (negative : bool) (q : Q) : Q := if negative then Qopp q else q.

(** [parseFloat(str)]: the longest prefix that is a decimal literal. *)
Definition parseFloat (str : string) : number :=
  let '(negative, s) := stripSign (trimStart str) in
  if startsWith "Infinity" s then (if negative then NegInf else PosInf)
  else
    let '(ip, r1) := digitsPrefix s in
    let '(fp, r2) :=
      match r1 with
      | String c r => if Ascii.eqb c dotChar then digitsPrefix r else (EmptyString, r1)
      | EmptyString => (EmptyString, r1)
      end in
    if truthy ip || truthy fp then
      Fin (signedQ negative
             (Qmult (Qplus (inject_Z (decimalValue 0 ip))
                           (Qmult (inject_Z (decimalValue 0 fp))
                                  (pow10 (- Z.of_nat (String.length fp)))))
                    (pow10 (exponentOf r2))))
    else NaN.

(** * Time format codec *)

(** [:SS.mmm$], where [sec1] is the class of the first digit of the seconds. *)
Definition timeTail (sec1 : ascii -> bool) (s : string) : bool :=
  match s with
  | String c (String s1 (String s2 (String d (String m1 (String m2 (String m3 EmptyString)))))) =>
      Ascii.eqb c colonChar && sec1 s1 && isDigit s2 && Ascii.eqb d dotChar
      && isDigit m1 && isDigit m2 && isDigit m3
  | _ => false
  end.

(** The strict grammar [/^\d{1,2}:[0-5]\d\.\d{3}$/]. *)
Definition strictTimeRegex (s : string) : bool :=
  match s with
  | String a r =>
      isDigit a &&
      (timeTail isDigit05 r
       || match r with
          | String b r' => isDigit b && timeTail isDigit05 r'
          | EmptyString => false
          end)
  | EmptyString => false
  end.

(** The lenient grammar [/^\d+:\d{2}\.\d{3}$/]. *)
Definition lenientTimeRegex (s : string) : bool :=
  let '(d, r) := digitsPrefix s in truthy d && timeTail isDigit r.

(** The text [m:ab.xyz]. *)
Definition timeText (m : string) (a b x y z : ascii) : string :=
  m +:+ String colonChar
          (String a (String b (String dotChar (String x (String y (String z EmptyString)))))).

Definition isValidTimeFormat (timeStr : string) : bool :=
  if negb (truthy timeStr) || negb (truthy (trim timeStr)) then false
  else if negb (strictTimeRegex timeStr) then false
  else
    match split colonChar timeStr with
    | p0 :: p1 :: _ =>
        let minutes := parseInt p0 in
        let secondsPart := split dotChar p1 in
        let seconds := parseInt (hd EmptyString secondsPart) in
        ge minutes (ofZ 0) && ge seconds (ofZ 0) && le seconds (ofZ 59)
    | _ => false (* not reached: the regex demands a colon *)
    end.

Definition convertTimeToSeconds (timeStr : string) : number :=
  match split colonChar timeStr with
  | [p0; p1] => add (mul (parseInt p0) (ofZ 60)) (parseFloat p1)
  | _ => parseFloat timeStr
  end.

(** The seconds of the mask, clamped to 59. *)
Definition clampSeconds (seconds : string) : string :=
  if gt (parseInt seconds) (ofZ 59) then "59" else seconds.

Definition formatTimeString (value : string) : string :=
  let digits := digitsOnly value in
  if (String.length digits =? 0)%nat then EmptyString
  else
    let limitedDigits := slice digits 0 (Some 7) in
    if (String.length limitedDigits <=? 1)%nat then limitedDigits
    else if (String.length limitedDigits <=? 3)%nat then
      let minutes := slice limitedDigits 0 (Some (-2)) in
      let seconds := clampSeconds (slice limitedDigits (-2) None) in
      minutes +:+ ":" +:+ seconds
    else
      let minutes := slice limitedDigits 0 (Some (-5)) in
      let seconds := clampSeconds (slice limitedDigits (-5) (Some (-3))) in
      let milliseconds := slice limitedDigits (-3) None in
      minutes +:+ ":" +:+ seconds +:+ "." +:+ milliseconds.

(** The two digits [ab] of the seconds as the mask shows them. *)
Definition secondsText (a b : ascii) : string :=
  if 59 <? 10 * digitValue a + digitValue b then "59" else String a (String b EmptyString).

(** What the mask shows for one to seven digits: the digits fill the
    pattern from the right, so the minutes stay empty until the seconds
    (and, from the fourth digit on, the milliseconds) are complete. *)
Definition maskOf (digits : string) : string :=
  let ms x y z := String dotChar (String x (String y (String z EmptyString))) in
  match digits with
  | String a EmptyString => String a EmptyString
  | String a (String b EmptyString) => String colonChar (secondsText a b)
  | String m (String a (String b EmptyString)) =>
      String m (String colonChar (secondsText a b))
  | String a (String x (String y (String z EmptyString))) =>
      String colonChar (String a (ms x y z))
  | String a (String b (String x (String y (String z EmptyString)))) =>
      String colonChar (secondsText a b +:+ ms x y z)
  | String m (String a (String b (String x (String y (String z EmptyString))))) =>
      String m (String colonChar (secondsText a b +:+ ms x y z))
  | String m (String n (String a (String b (String x (String y (String z EmptyString)))))) =>
      String m (String n (String colonChar (secondsText a b +:+ ms x y z)))
  | _ => EmptyString
  end.

(** The shape the specification gives to the output of the mask,
    [/^\d{1,2}(:[0-5]\d(\.\d{3})?)?$/]. *)
Definition maskTail (s : string) : bool :=
  match s with
  | EmptyString => true
  | String c (String s1 (String s2 r)) =>
      Ascii.eqb c colonChar && isDigit05 s1 && isDigit s2 &&
      match r with
      | EmptyString => true
      | String d (String m1 (String m2 (String m3 EmptyString))) =>
          Ascii.eqb d dotChar && isDigit m1 && isDigit m2 && isDigit m3
      | _ => false
      end
  | _ => false
  end.

Definition maskRegex (s : string) : bool :=
  match s with
  | String a r =>
      isDigit a &&
      (maskTail r
       || match r with
          | String b r' => isDigit b && maskTail r'
          | EmptyString => false
          end)
  | EmptyString => false
  end.

(** * Data model *)

Module TimeEntry.
Record t : Type := mk {
  time : string;
  circuit : string;
  profileId : string;
  date : string;
  vehicle : option string;    (* optional: [None] is [undefined] *)
  character : option string;
}.
End TimeEntry.

Module Profile.
Record t : Type := mk {
  id : string;
  name : string;
  character : string;
  characterSkin : string;
  vehicle : string;
  createdAt : string;
}.
End Profile.

Module EditFormState.
Record t : Type := mk {
  time : string;
  circuit : string;
  character : string;
  vehicle : string;
}.
End EditFormState.

Module CSVTimeEntry.
Record t : Type := mk {
  time_of_entry : string;
  track : string;
  character : string;
  outfit : string;
  kart : string;
  race_time : string;
}.
End CSVTimeEntry.

#[global] Instance TimeEntry_eq_dec : EqDecision TimeEntry.t.
Proof. solve_decision. Defined.
#[global] Instance Profile_eq_dec : EqDecision Profile.t.
Proof. solve_decision. Defined.
#[global] Instance CSVTimeEntry_eq_dec : EqDecision CSVTimeEntry.t.
Proof. solve_decision. Defined.

(** [a || b] on a possibly undefined string: the first truthy operand. *)
Definition orElse (a : option string) (b : string) : string :=
  match a with
  | Some s => if truthy s then s else b
  | None => b
  end.

(** [profiles.find((p) => p.id === profileId)] *)
Definition findProfile (profiles : list Profile.t) (profileId : string) : option Profile.t :=
  List.find (fun p => bool_decide (Profile.id p = profileId)) profiles.

(** * CSV encoding *)

Definition expectedHeaders : list string :=
  ["time_of_entry"; "track"; "character"; "outfit"; "kart"; "race_time"].

Definition timeEntryToCSV (profiles : list Profile.t) (timeEntry : TimeEntry.t) : CSVTimeEntry.t :=
  let profile := findProfile profiles (TimeEntry.profileId timeEntry) in
  {| CSVTimeEntry.time_of_entry := TimeEntry.date timeEntry;
     CSVTimeEntry.track := TimeEntry.circuit timeEntry;
     CSVTimeEntry.character :=
       orElse (TimeEntry.character timeEntry)
              (orElse (Profile.character <$> profile) "Unknown Character");
     CSVTimeEntry.outfit := orElse (Profile.characterSkin <$> profile) "Default";
     CSVTimeEntry.kart :=
       orElse (TimeEntry.vehicle timeEntry)
              (orElse (Profile.vehicle <$> profile) "Standard Kart");
     CSVTimeEntry.race_time := TimeEntry.time timeEntry |}.

(** [row[header]] for one of the six column names. *)
Definition getField (row : CSVTimeEntry.t) (header : string) : string :=
  if String.eqb header "time_of_entry" then CSVTimeEntry.time_of_entry row
  else if String.eqb header "track" then CSVTimeEntry.track row
  else if String.eqb header "character" then CSVTimeEntry.character row
  else if String.eqb header "outfit" then CSVTimeEntry.outfit row
  else if String.eqb header "kart" then CSVTimeEntry.kart row
  else if String.eqb header "race_time" then CSVTimeEntry.race_time row
  else EmptyString.

(** [csvEntry[header] = value] for one of the six column names. *)
Definition setField (header value : string) (row : CSVTimeEntry.t) : CSVTimeEntry.t :=
  let '(CSVTimeEntry.mk e t c o k r) := row in
  if String.eqb header "time_of_entry" then CSVTimeEntry.mk value t c o k r
  else if String.eqb header "track" then CSVTimeEntry.mk e value c o k r
  else if String.eqb header "character" then CSVTimeEntry.mk e t value o k r
  else if String.eqb header "outfit" then CSVTimeEntry.mk e t c value k r
  else if String.eqb header "kart" then CSVTimeEntry.mk e t c o value r
  else if String.eqb header "race_time" then CSVTimeEntry.mk e t c o k value
  else row.

(** A value holding a comma, a double quote or a newline is wrapped in
    double quotes, its own double quotes doubled. *)
Definition needsQuoting (value : string) : bool :=
  includes commaChar value || includes quoteChar value || includes newlineChar value.

Definition csvCell (value : string) : string :=
  if needsQuoting value
  then String quoteChar (doubleQuotes value +:+ String quoteChar EmptyString)
  else value.

Definition csvLine (row : CSVTimeEntry.t) : string :=
  join "," (map (fun header => csvCell (getField row header)) expectedHeaders).

Definition newline : string := String newlineChar EmptyString.

(** The text that [exportToCSV] and [autoExportToCSV] build. *)
Definition csvContent (profiles : list Profile.t) (times : list TimeEntry.t) : string :=
  join newline (join "," expectedHeaders :: map csvLine (map (timeEntryToCSV profiles) times)).

(** * Arrays *)

(** [l.sort(cmp)]: the sort is stable; [x] goes after [y] only when
    [cmp x y] is positive (NaN counts as zero).  The engine's algorithm is
    its own; with a consistent comparator every stable sort gives this
    result. *)
Fixpoint insertBy {A : Type} (cmp : A -> A -> number) (x : A) (l : list A) : list A :=
  match l with
  | [] => [x]
  | y :: l' => if gt (cmp x y) (ofZ 0) then y :: insertBy cmp x l' else x :: l
  end.

Definition sortBy {A : Type} (cmp : A -> A -> number) (l : list A) : list A :=
  foldr (insertBy cmp) [] l.

(** [i = l.indexOf(x); if (i > -1) l.splice(i, 1)] *)
Fixpoint removeFirst (x : string) (l : list string) : list string :=
  match l with
  | [] => []
  | y :: l' => if String.eqb y x then l' else y :: removeFirst x l'
  end.

(** * The store *)

(** What [localStorage] holds under one key, seen through [getItem] and
    [JSON.parse]: nothing ([null], or the empty text, which the loader
    treats alike), a text that [JSON.parse] rejects with a SyntaxError,
    or the text [JSON.stringify] wrote for a value. *)
Inductive stored (A : Type) : Type :=
  | Missing
  | Malformed
  | Wellformed (a : A).
Arguments Missing {A}.
Arguments Malformed {A}.
Arguments Wellformed {A} a.

Module Storage.
Record t : Type := mk {
  times : stored (list TimeEntry.t);         (* mario-kart-times *)
  profiles : stored (list Profile.t);        (* mario-kart-profiles *)
  recentCircuits : stored (list string);     (* mario-kart-recent-circuits *)
  showRelativeTime : stored bool;            (* mario-kart-show-relative-time *)
  csvBackup : option string;                 (* mario-kart-csv-backup *)
}.
End Storage.

Record Store : Type := mkStore {
  times : list TimeEntry.t;
  profiles : list Profile.t;
  recentCircuitsList : list string;
  showRelativeTime : bool;
  selectedProfileId : string;
  selectedCircuit : string;
  formTime : string;                           (* formState.value.time *)
  editingTimeId : option nat;
  editForm : EditFormState.t;
  pendingImportData : list TimeEntry.t;
  importErrorCount : nat;
  showImportConfirmation : bool;
  localStorage : Storage.t;
}.

Definition set_times (v : list TimeEntry.t) (st : Store) : Store :=
  mkStore v (profiles st) (recentCircuitsList st) (showRelativeTime st)
    (selectedProfileId st) (selectedCircuit st) (formTime st) (editingTimeId st)
    (editForm st) (pendingImportData st) (importErrorCount st)
    (showImportConfirmation st) (localStorage st).

Definition set_profiles (v : list Profile.t) (st : Store) : Store :=
  mkStore (times st) v (recentCircuitsList st) (showRelativeTime st)
    (selectedProfileId st) (selectedCircuit st) (formTime st) (editingTimeId st)
    (editForm st) (pendingImportData st) (importErrorCount st)
    (showImportConfirmation st) (localStorage st).

Definition set_recentCircuitsList (v : list string) (st : Store) : Store :=
  mkStore (times st) (profiles st) v (showRelativeTime st)
    (selectedProfileId st) (selectedCircuit st) (formTime st) (editingTimeId st)
    (editForm st) (pendingImportData st) (importErrorCount st)
    (showImportConfirmation st) (localStorage st).

Definition set_showRelativeTime (v : bool) (st : Store) : Store :=
  mkStore (times st) (profiles st) (recentCircuitsList st) v
    (selectedProfileId st) (selectedCircuit st) (formTime st) (editingTimeId st)
    (editForm st) (pendingImportData st) (importErrorCount st)
    (showImportConfirmation st) (localStorage st).

Definition set_selectedProfileId (v : string) (st : Store) : Store :=
  mkStore (times st) (profiles st) (recentCircuitsList st) (showRelativeTime st)
    v (selectedCircuit st) (formTime st) (editingTimeId st)
    (editForm st) (pendingImportData st) (importErrorCount st)
    (showImportConfirmation st) (localStorage st).

Definition set_selectedCircuit (v : string) (st : Store) : Store :=
  mkStore (times st) (profiles st) (recentCircuitsList st) (showRelativeTime st)
    (selectedProfileId st) v (formTime st) (editingTimeId st)
    (editForm st) (pendingImportData st) (importErrorCount st)
    (showImportConfirmation st) (localStorage st).

Definition set_formTime (v : string) (st : Store) : Store :=
  mkStore (times st) (profiles st) (recentCircuitsList st) (showRelativeTime st)
    (selectedProfileId st) (selectedCircuit st) v (editingTimeId st)
    (editForm st) (pendingImportData st) (importErrorCount st)
    (showImportConfirmation st) (localStorage st).

Definition set_editing (i : option nat) (f : EditFormState.t) (st : Store) : Store :=
  mkStore (times st) (profiles st) (recentCircuitsList st) (showRelativeTime st)
    (selectedProfileId st) (selectedCircuit st) (formTime st) i
    f (pendingImportData st) (importErrorCount st)
    (showImportConfirmation st) (localStorage st).

Definition set_pending (v : list TimeEntry.t) (n : nat) (st : Store) : Store :=
  mkStore (times st) (profiles st) (recentCircuitsList st) (showRelativeTime st)
    (selectedProfileId st) (selectedCircuit st) (formTime st) (editingTimeId st)
    (editForm st) v n
    (showImportConfirmation st) (localStorage st).

Definition set_showImportConfirmation (v : bool) (st : Store) : Store :=
  mkStore (times st) (profiles st) (recentCircuitsList st) (showRelativeTime st)
    (selectedProfileId st) (selectedCircuit st) (formTime st) (editingTimeId st)
    (editForm st) (pendingImportData st) (importErrorCount st)
    v (localStorage st).

Definition set_localStorage (v : Storage.t) (st : Store) : Store :=
  mkStore (times st) (profiles st) (recentCircuitsList st) (showRelativeTime st)
    (selectedProfileId st) (selectedCircuit st) (formTime st) (editingTimeId st)
    (editForm st) (pendingImportData st) (importErrorCount st)
    (showImportConfirmation st) v.

(** An operation either returns or throws; the store it leaves is the
    one reached at that point. *)
Inductive exn : Type := TypeError | SyntaxError.

Inductive outcome : Type :=
  | Done (st : Store)
  | Thrown (e : exn) (st : Store).

Definition andThen (o : outcome) (k : Store -> outcome) : outcome :=
  match o with
  | Done st => k st
  | Thrown e st => Thrown e st
  end.

Notation "o >>> k" := (andThen o k) (at level 61, left associativity).

Definition finalStore (o : outcome) : Store :=
  match o with Done st | Thrown _ st => st end.

(** ** Persistence *)

(** The backup is rewritten only when the ledger is not empty. *)
Definition autoExportToCSV (st : Store) : option string :=
  match times st with
  | [] => Storage.csvBackup (localStorage st)
  | _ => Some (csvContent (profiles st) (times st))
  end.

Definition saveToLocalStorage (st : Store) : Store :=
  set_localStorage
    {| Storage.times := Wellformed (times st);
       Storage.profiles := Wellformed (profiles st);
       Storage.recentCircuits := Wellformed (recentCircuitsList st);
       Storage.showRelativeTime := Wellformed (showRelativeTime st);
       Storage.csvBackup := autoExportToCSV st |} st.

(** [const saved = localStorage.getItem(key); if (saved) x.value = JSON.parse(saved)] *)
Definition loadKey {A : Type} (cell : stored A) (assign : A -> Store -> Store)
    (st : Store) : outcome :=
  match cell with
  | Missing => Done st
  | Malformed => Thrown SyntaxError st
  | Wellformed a => Done (assign a st)
  end.

(** The first loaded profile is selected when none is. *)
Definition assignProfiles (v : list Profile.t) (st : Store) : Store :=
  let st' := set_profiles v st in
  match v with
  | p :: _ => if truthy (selectedProfileId st') then st'
              else set_selectedProfileId (Profile.id p) st'
  | [] => st'
  end.

(** The circuit selected after loading; [getTime] stands for
    [new Date(date).getTime()]. *)
Definition selectInitialCircuit (getTime : string -> number) (st : Store) : Store :=
  if truthy (selectedCircuit st) then st
  else
    match recentCircuitsList st with
    | c :: _ => set_selectedCircuit c st
    | [] =>
        match sortBy (fun a b => sub (getTime (TimeEntry.date b)) (getTime (TimeEntry.date a)))
                     (times st) with
        | t :: _ => set_selectedCircuit (TimeEntry.circuit t) st
        | [] => st
        end
    end.

Definition loadFromLocalStorage (getTime : string -> number) (st : Store) : outcome :=
  let ls := localStorage st in
  loadKey (Storage.times ls) set_times st
  >>> loadKey (Storage.profiles ls) assignProfiles
  >>> loadKey (Storage.recentCircuits ls) set_recentCircuitsList
  >>> loadKey (Storage.showRelativeTime ls) set_showRelativeTime
  >>> (fun st' => Done (saveToLocalStorage (selectInitialCircuit getTime st'))).

(** ** Time ledger *)

(** Move to front, keep eight. *)
Definition touchRecent (c : string) (l : list string) : list string :=
  take 8 (c :: removeFirst c l).

(** The entry that [addTime] builds, vehicle and character copied from
    the selected profile. *)
Definition newTimeEntry (now : string) (st : Store) : TimeEntry.t :=
  let profile := findProfile (profiles st) (selectedProfileId st) in
  {| TimeEntry.time := formTime st;
     TimeEntry.circuit := selectedCircuit st;
     TimeEntry.profileId := selectedProfileId st;
     TimeEntry.date := now;
     TimeEntry.vehicle := Some (orElse (Profile.vehicle <$> profile) EmptyString);
     TimeEntry.character := Some (orElse (Profile.character <$> profile) EmptyString) |}.

(** [addTime]: the new store and, when the entry was added, whether it is
    a new best time for its circuit ([None] when the call was refused). *)
Definition addTime (now : string) (st : Store) : Store * option bool :=
  if negb (truthy (formTime st)) || negb (truthy (selectedCircuit st))
     || negb (truthy (selectedProfileId st)) then (st, None)
  else if negb (isValidTimeFormat (formTime st)) then (st, None)
  else
    let newTimeSeconds := convertTimeToSeconds (formTime st) in
    let existingTimesForCircuit :=
      filter (fun t => TimeEntry.circuit t = selectedCircuit st) (times st) in
    let currentBestTime :=
      if (0 <? length existingTimesForCircuit)%nat
      then mathMin (map (fun t => convertTimeToSeconds (TimeEntry.time t)) existingTimesForCircuit)
      else PosInf in
    let isNewBest := lt newTimeSeconds currentBestTime in
    let st1 := set_times (times st ++ [newTimeEntry now st]) st in
    let st2 := set_recentCircuitsList (touchRecent (selectedCircuit st) (recentCircuitsList st1)) st1 in
    (set_formTime EmptyString (saveToLocalStorage st2), Some isNewBest).

(** The minimum of the converted times recorded for a circuit, [Infinity]
    when there is none: the bound that the specification compares a new
    time with. *)
Definition bestTimeFor (circuit : string) (times : list TimeEntry.t) : number :=
  mathMin (map (fun t => convertTimeToSeconds (TimeEntry.time t))
               (filter (fun t => TimeEntry.circuit t = circuit) times)).

(** What [addTime] checks before it adds. *)
Definition addAccepted (st : Store) : bool :=
  strictTimeRegex (formTime st) && truthy (selectedCircuit st)
  && truthy (selectedProfileId st).

Definition confirmRemoveTime (index : nat) (st : Store) : Store :=
  saveToLocalStorage (set_times (delete index (times st)) st).

Definition emptyEditForm : EditFormState.t := EditFormState.mk EmptyString EmptyString EmptyString EmptyString.

Definition cancelEdit (st : Store) : Store := set_editing None emptyEditForm st.

(** What [saveEdit] checks of the form. *)
Definition editFilled (f : EditFormState.t) : bool :=
  truthy (EditFormState.time f) && truthy (EditFormState.circuit f)
  && truthy (EditFormState.character f) && truthy (EditFormState.vehicle f).

(** The entry that [saveEdit] writes over [old]. *)
Definition editedEntry (f : EditFormState.t) (old : TimeEntry.t) : TimeEntry.t :=
  {| TimeEntry.time := EditFormState.time f;
     TimeEntry.circuit := EditFormState.circuit f;
     TimeEntry.profileId := TimeEntry.profileId old;   (* keep original profile id *)
     TimeEntry.date := TimeEntry.date old;             (* keep original date *)
     TimeEntry.vehicle := Some (EditFormState.vehicle f);
     TimeEntry.character := Some (EditFormState.character f) |}.

Definition saveEdit (st : Store) : outcome :=
  let f := editForm st in
  if negb (truthy (EditFormState.time f)) || negb (truthy (EditFormState.circuit f))
     || negb (truthy (EditFormState.character f)) || negb (truthy (EditFormState.vehicle f))
  then Done st
  else
    match editingTimeId st with
    | None => Done st
    | Some index =>
        match times st !! index with
        | None => Thrown TypeError st   (* times.value[index] is undefined *)
        | Some old =>
            Done (cancelEdit (saveToLocalStorage
                    (set_times (<[index := editedEntry f old]> (times st)) st)))
        end
    end.

Definition confirmDeleteProfile (profileId : string) (st : Store) : Store :=
  let st1 := set_profiles (filter (fun p => Profile.id p <> profileId) (profiles st)) st in
  let st2 := if bool_decide (selectedProfileId st1 = profileId)
             then set_selectedProfileId EmptyString st1 else st1 in
  saveToLocalStorage st2.

(** * CSV decoding *)

(** [parseCSVLine]: the loop over [i], the rest of the line from [i] on
    as first argument. *)
Fixpoint parseCSVLoop (line current : string) (inQuotes : bool) (result : list string)
    : list string :=
  match line with
  | EmptyString => result ++ [current]
  | String char rest =>
      if Ascii.eqb char quoteChar then
        match rest with
        | String next rest' =>
            if inQuotes && Ascii.eqb next quoteChar
            then (* escaped quote *)
              parseCSVLoop rest' (current +:+ String quoteChar EmptyString) inQuotes result
            else (* toggle quote state *)
              parseCSVLoop rest current (negb inQuotes) result
        | EmptyString => parseCSVLoop rest current (negb inQuotes) result
        end
      else if Ascii.eqb char commaChar && negb inQuotes then
        parseCSVLoop rest EmptyString inQuotes (result ++ [current])
      else parseCSVLoop rest (current +:+ String char EmptyString) inQuotes result
  end.

Definition parseCSVLine (line : string) : list string :=
  parseCSVLoop line EmptyString false [].

(** The clock and the random source that [csvToTimeEntry] reads for a
    new profile, indexed by the size of the registry at that moment (it
    grows by one with every profile created):
    [`profile_${Date.now()}_${Math.random()...}`] and
    [new Date().toISOString()]. *)
Record Oracle : Type := mkOracle {
  generatedId : nat -> string;
  generatedDate : nat -> string;
}.

(** [profiles.find] by character, outfit and kart. *)
Definition findByAttributes (profiles : list Profile.t) (csvEntry : CSVTimeEntry.t)
    : option Profile.t :=
  List.find (fun p =>
    bool_decide (Profile.character p = CSVTimeEntry.character csvEntry)
    && bool_decide (Profile.characterSkin p = CSVTimeEntry.outfit csvEntry)
    && bool_decide (Profile.vehicle p = CSVTimeEntry.kart csvEntry)) profiles.

Definition synthesizedProfile (oracle : Oracle) (n : nat) (csvEntry : CSVTimeEntry.t)
    : Profile.t :=
  {| Profile.id := generatedId oracle n;
     Profile.name := CSVTimeEntry.character csvEntry +:+ " (" +:+ CSVTimeEntry.outfit csvEntry +:+ ")";
     Profile.character := CSVTimeEntry.character csvEntry;
     Profile.characterSkin := CSVTimeEntry.outfit csvEntry;
     Profile.vehicle := CSVTimeEntry.kart csvEntry;
     Profile.createdAt := generatedDate oracle n |}.

(** [csvToTimeEntry]: the registry after the call and the entry. *)
Definition csvToTimeEntry (oracle : Oracle) (profiles : list Profile.t)
    (csvEntry : CSVTimeEntry.t) : list Profile.t * TimeEntry.t :=
  let '(profiles', profile) :=
    match findByAttributes profiles csvEntry with
    | Some p => (profiles, p)
    | None =>
        let p := synthesizedProfile oracle (length profiles) csvEntry in
        (profiles ++ [p], p)
    end in
  (profiles',
   {| TimeEntry.time := CSVTimeEntry.race_time csvEntry;
      TimeEntry.circuit := CSVTimeEntry.track csvEntry;
      TimeEntry.profileId := Profile.id profile;
      TimeEntry.date := CSVTimeEntry.time_of_entry csvEntry;
      TimeEntry.vehicle := Some (CSVTimeEntry.kart csvEntry);
      TimeEntry.character := Some (CSVTimeEntry.character csvEntry) |}).


Inductive rowError : Type := MissingRequiredFields | InvalidTimeFormat.

Inductive rowResult : Type :=
  | RowSkipped                       (* [continue] without a message *)
  | RowRejected (e : rowError)       (* [errors.push(...)] and [continue] *)
  | RowAccepted (csvEntry : CSVTimeEntry.t).

Definition emptyCSVEntry : CSVTimeEntry.t := CSVTimeEntry.mk EmptyString EmptyString EmptyString EmptyString EmptyString EmptyString.

Definition isExpectedHeader (header : string) : bool :=
  existsb (String.eqb header) expectedHeaders.

(** [headers.forEach((header, index) => ...)] on a row with as many
    values as headers. *)
Definition mapValues (headers values : list string) : CSVTimeEntry.t :=
  fold_left
    (fun csvEntry '(header, value) =>
       if isExpectedHeader header
       then setField header (removeAll quoteChar value) csvEntry
       else csvEntry)
    (zip headers values) emptyCSVEntry.

(** The body of the loop over the data rows, up to the conversion. *)
Definition readRow (headers : list string) (line : string) : rowResult :=
  let values := parseCSVLine line in
  if negb (length values =? length headers)%nat then RowSkipped
  else
    let csvEntry := mapValues headers values in
    if negb (truthy (CSVTimeEntry.track csvEntry))
       || negb (truthy (CSVTimeEntry.character csvEntry))
       || negb (truthy (CSVTimeEntry.race_time csvEntry))
    then RowRejected MissingRequiredFields
    else if negb (lenientTimeRegex (CSVTimeEntry.race_time csvEntry))
    then RowRejected InvalidTimeFormat
    else RowAccepted csvEntry.

(** The state of the loop: the registry, [newTimes] and [errors]. *)
Record Decoding : Type := mkDecoding {
  registry : list Profile.t;
  newTimes : list TimeEntry.t;
  errors : list rowError;
}.

Definition decodeRow (oracle : Oracle) (headers : list string) (d : Decoding) (line : string)
    : Decoding :=
  match readRow headers line with
  | RowSkipped => d
  | RowRejected e => mkDecoding (registry d) (newTimes d) (errors d ++ [e])
  | RowAccepted csvEntry =>
      let '(ps, timeEntry) := csvToTimeEntry oracle (registry d) csvEntry in
      mkDecoding ps (newTimes d ++ [timeEntry]) (errors d)
  end.

Definition decodeRows (oracle : Oracle) (headers : list string) (rows : list string)
    (profiles : list Profile.t) : Decoding :=
  fold_left (decodeRow oracle headers) rows (mkDecoding profiles [] []).

Inductive importResult : Type :=
  | EmptyOrInvalid                   (* alert: CSV file appears to be empty or invalid. *)
  | HeaderMismatch                   (* alert: CSV file must contain these columns *)
  | NoValidTimes (errorCount : nat)  (* alert: No valid times found in CSV file. *)
  | Staged.                          (* the confirmation is shown *)

Definition csvLines (csvText : string) : list string :=
  List.filter (fun line => truthy (trim line)) (split newlineChar csvText).

Definition csvHeaders (headerLine : string) : list string :=
  map (fun h => removeAll quoteChar (trim h)) (split commaChar headerLine).

Definition hasAllHeaders (headers : list string) : bool :=
  forallb (fun header => existsb (String.eqb header) headers) expectedHeaders.

(** The handler that [importFromCSV] installs, run on the text of the file. *)
Definition importFromCSV (oracle : Oracle) (csvText : string) (st : Store)
    : Store * importResult :=
  match csvLines csvText with
  | headerLine :: ((_ :: _) as rows) =>
      let headers := csvHeaders headerLine in
      if negb (hasAllHeaders headers) then (st, HeaderMismatch)
      else
        let d := decodeRows oracle headers rows (profiles st) in
        let st' := set_profiles (registry d) st in
        match newTimes d with
        | [] => (st', NoValidTimes (length (errors d)))
        | _ =>
            (set_showImportConfirmation true
               (set_pending (newTimes d) (length (errors d)) st'), Staged)
        end
  | _ => (st, EmptyOrInvalid)
  end.

Definition confirmImportReplace (st : Store) : Store :=
  let st1 := saveToLocalStorage (set_times (pendingImportData st) st) in
  set_pending [] 0 (set_showImportConfirmation false st1).

Definition confirmImportAppend (st : Store) : Store :=
  let st1 := saveToLocalStorage (set_times (times st ++ pendingImportData st) st) in
  set_pending [] 0 (set_showImportConfirmation false st1).

Definition cancelImport (st : Store) : Store :=
  set_pending [] 0 (set_showImportConfirmation false st).

(** * Ranking *)

Inductive medalColor : Type := gold | silver | bronze.

(** The medal emoji of the source is determined by the colour. *)
Record Ranking : Type := mkRanking {
  rank : nat;
  color : medalColor;
}.

#[global] Instance medalColor_eq_dec : EqDecision medalColor.
Proof. solve_decision. Defined.
#[global] Instance Ranking_eq_dec : EqDecision Ranking.
Proof. solve_decision. Defined.

(** [`${x}`] for an optional string. *)
Definition templateText (o : option string) : string := default "undefined" o.

(** The key of the rankings map. *)
Definition rankingKey (t : TimeEntry.t) : string :=
  TimeEntry.time t +:+ "-" +:+ TimeEntry.circuit t +:+ "-"
  +:+ templateText (TimeEntry.character t) +:+ "-"
  +:+ templateText (TimeEntry.vehicle t) +:+ "-" +:+ TimeEntry.date t.

(** The properties that the object literal [{}] inherits from
    [Object.prototype]: all of them are truthy and none is an array. *)
Definition objectPrototypeKeys : list string :=
  ["constructor"; "__defineGetter__"; "__defineSetter__"; "hasOwnProperty";
   "__lookupGetter__"; "__lookupSetter__"; "isPrototypeOf"; "propertyIsEnumerable";
   "toString"; "valueOf"; "__proto__"; "toLocaleString"].

Definition inherited (key : string) : bool :=
  existsb (String.eqb key) objectPrototypeKeys.

(** An object used as a map: its own properties in creation order. *)
Fixpoint lookupKey {A : Type} (key : string) (o : list (string * A)) : option A :=
  match o with
  | [] => None
  | (k, v) :: o' => if String.eqb k key then Some v else lookupKey key o'
  end.

Fixpoint updateKey {A : Type} (key : string) (f : A -> A) (o : list (string * A))
    : list (string * A) :=
  match o with
  | [] => []
  | (k, v) :: o' => if String.eqb k key then (k, f v) :: o' else (k, v) :: updateKey key f o'
  end.

(** One step of the [reduce] that groups the times by circuit; [None]
    stands for the TypeError of calling [push] on an inherited property. *)
Definition groupStep (groups : option (list (string * list TimeEntry.t))) (t : TimeEntry.t)
    : option (list (string * list TimeEntry.t)) :=
  match groups with
  | None => None
  | Some g =>
      match lookupKey (TimeEntry.circuit t) g with
      | Some _ => Some (updateKey (TimeEntry.circuit t) (fun l => l ++ [t]) g)
      | None =>
          if inherited (TimeEntry.circuit t) then None
          else Some (g ++ [(TimeEntry.circuit t, [t])])
      end
  end.

Definition circuitGroups (times : list TimeEntry.t) : option (list (string * list TimeEntry.t)) :=
  fold_left groupStep times (Some []).

(** A canonical array index: these keys come first in [Object.entries],
    in ascending order. *)
Definition isArrayIndex (key : string) : bool :=
  match key with
  | EmptyString => false
  | String c r =>
      let '(d, rest) := digitsPrefix key in
      negb (truthy rest)
      && (negb (Ascii.eqb c "0") || negb (truthy r))
      && (decimalValue 0 d <? 4294967295)
  end.

Definition objectEntries {A : Type} (o : list (string * A)) : list (string * A) :=
  sortBy (fun a b => sub (ofZ (decimalValue 0 (fst a))) (ofZ (decimalValue 0 (fst b))))
         (List.filter (fun e => isArrayIndex (fst e)) o)
  ++ List.filter (fun e => negb (isArrayIndex (fst e))) o.

Definition medalFor (rank : nat) : option Ranking :=
  match rank with
  | 1%nat => Some (mkRanking 1 gold)
  | 2%nat => Some (mkRanking 2 silver)
  | 3%nat => Some (mkRanking 3 bronze)
  | _ => None
  end.

Definition compareTimes (a b : TimeEntry.t) : number :=
  sub (convertTimeToSeconds (TimeEntry.time a)) (convertTimeToSeconds (TimeEntry.time b)).

(** [rankings.set] for the first three of a sorted group. *)
Definition setRanking (rankings : gmap string Ranking) (entry : nat * TimeEntry.t)
    : gmap string Ranking :=
  match medalFor (fst entry + 1) with
  | Some r => <[rankingKey (snd entry) := r]> rankings
  | None => rankings
  end.

Definition rankGroup (rankings : gmap string Ranking) (circuitTimes : list TimeEntry.t)
    : gmap string Ranking :=
  let sortedTimes := sortBy compareTimes circuitTimes in
  fold_left setRanking (imap pair sortedTimes) rankings.

Definition timeRankings (times : list TimeEntry.t) : option (gmap string Ranking) :=
  match circuitGroups times with
  | None => None
  | Some groups =>
      Some (fold_left (fun rankings group => rankGroup rankings (snd group))
                      (objectEntries groups) ∅)
  end.


(** [getActualTimeIndex]: [None] is -1. *)
Definition getActualTimeIndex (times : list TimeEntry.t) (timeEntry : TimeEntry.t) : option nat :=
  fst <$> list_find (fun t =>
    TimeEntry.time t = TimeEntry.time timeEntry
    /\ TimeEntry.circuit t = TimeEntry.circuit timeEntry
    /\ TimeEntry.date t = TimeEntry.date timeEntry
    /\ TimeEntry.profileId t = TimeEntry.profileId timeEntry) times.

(** * Sample data *)

Definition emptyStorage : Storage.t := Storage.mk Missing Missing Missing Missing None.

Definition emptyStore : Store :=
  mkStore [] [] [] false EmptyString EmptyString EmptyString None emptyEditForm [] 0 false emptyStorage.

Definition marioProfile : Profile.t :=
  Profile.mk "profile_1" "Mario + Standard Kart" "Mario" "Pro Racer" "Standard Kart"
             "2024-01-15T10:00:00.000Z".

Definition sampleEntry (time date : string) : TimeEntry.t :=
  TimeEntry.mk time "Mario Circuit" "profile_1" date (Some "Standard Kart") (Some "Mario").

(** A store with one profile and one recorded time. *)
Definition oneTimeStore : Store :=
  set_selectedCircuit "Mario Circuit"
    (set_selectedProfileId "profile_1"
       (set_profiles [marioProfile]
          (set_times [sampleEntry "1:20.000" "2024-01-15T10:30:00.000Z"] emptyStore))).

(** The edit form as it stands after the user has typed the single
    digit 1 into the time field of the first row. *)
Definition partialEditStore : Store :=
  set_editing (Some 0%nat)
    (EditFormState.mk (formatTimeString "1") "Mario Circuit" "Mario" "Standard Kart")
    oneTimeStore.

Definition firstAddStore : Store :=
  set_formTime "1:20.000"
    (set_selectedCircuit "Mario Circuit"
       (set_selectedProfileId "profile_1" (set_profiles [marioProfile] emptyStore))).

Definition fullEditStore : Store :=
  set_editing (Some 0%nat)
    (EditFormState.mk "1:18.250" "Rainbow Road" "Luigi" "Standard Bike") oneTimeStore.


Definition isMalformed {A : Type} (cell : stored A) : bool :=
  match cell with Malformed => true | _ => false end.


(** No date is parsed in the samples. *)
Definition noDates (date : string) : number := NaN.



(** A profile has the character, the outfit and the kart of a CSV row. *)
Definition sameAttributes (p : Profile.t) (csvEntry : CSVTimeEntry.t) : Prop :=
  Profile.character p = CSVTimeEntry.character csvEntry
  /\ Profile.characterSkin p = CSVTimeEntry.outfit csvEntry
  /\ Profile.vehicle p = CSVTimeEntry.kart csvEntry.

Definition sampleOracle : Oracle :=
  mkOracle (fun n => "profile_1700000000000_" +:+ String.concat EmptyString (repeat "x" (S n)))
           (fun _ => "2024-02-01T09:00:00.000Z").

Definition sampleCSV : string :=
  "time_of_entry,track,character,outfit,kart,race_time" +:+ newline +:+
  "2024-01-15T10:35:00.000Z,Rainbow Road,Luigi,Luigi,Standard Bike,2:45.123".

(** The six cells of a row, in column order. *)
Definition rowFields (row : CSVTimeEntry.t) : list string :=
  map (getField row) expectedHeaders.



(** The track name made of Say, a space and the word hi between two
    double quotes. *)
Definition quotedTrack : string :=
  "Say " +:+ String quoteChar ("hi" +:+ String quoteChar EmptyString).

Definition quotedRow : CSVTimeEntry.t :=
  CSVTimeEntry.mk "2024-01-15T10:35:00.000Z" quotedTrack "Luigi" "Luigi" "Standard Bike"
                  "2:45.123".

(** The file that the encoder writes for [quotedRow]. *)
Definition quotedCSV : string :=
  join newline [join "," expectedHeaders; csvLine quotedRow].

(** A file whose second data row has three fields instead of six. *)
Definition shortRowCSV : string :=
  sampleCSV +:+ newline +:+ "2024-01-15T11:00:00.000Z,Mario Circuit,Mario".

(** A row counts as an error when the decoder pushes a message for it. *)
Definition countsAsError (r : rowResult) : bool :=
  match r with RowRejected _ => true | _ => false end.

(** A row is dropped when it gives no entry. *)
Definition dropsRow (r : rowResult) : bool :=
  match r with RowAccepted _ => false | _ => true end.

(** An entry is the decoding of a row with respect to a registry: it has
    the five fields of the row, and its profile id is the id of a profile
    of the registry with the character, the outfit and the kart of the row. *)
Definition decodes (reg : list Profile.t) (t : TimeEntry.t) (row : CSVTimeEntry.t) : Prop :=
  TimeEntry.time t = CSVTimeEntry.race_time row
  /\ TimeEntry.circuit t = CSVTimeEntry.track row
  /\ TimeEntry.date t = CSVTimeEntry.time_of_entry row
  /\ TimeEntry.vehicle t = Some (CSVTimeEntry.kart row)
  /\ TimeEntry.character t = Some (CSVTimeEntry.character row)
  /\ exists p, In p reg /\ Profile.id p = TimeEntry.profileId t /\ sameAttributes p row.



(** The entries of a circuit, in ledger order. *)
Definition entriesOf (circuit : string) (times : list TimeEntry.t) : list TimeEntry.t :=
  filter (fun t => TimeEntry.circuit t = circuit) times.







(** Three times on Mario Circuit recorded at three different moments. *)
Definition podiumLedger : list TimeEntry.t :=
  [sampleEntry "1:20.000" "2024-01-15T10:30:00.000Z";
   sampleEntry "1:15.000" "2024-01-15T10:35:00.000Z";
   sampleEntry "1:15.000" "2024-01-15T10:40:00.000Z"].


(** * Further operations of the component *)

(** ** Asset paths *)

(** [[a-zA-Z0-9_-]] *)
Definition isFileNameChar (c : ascii) : bool :=
  let n := code c in
  (48 <=? n)%N && (n <=? 57)%N || (65 <=? n)%N && (n <=? 90)%N
  || (97 <=? n)%N && (n <=? 122)%N || (n =? 95)%N || (n =? 45)%N.

Definition underscoreChar : ascii := "_"%char.

(** [s.replace(/[^a-zA-Z0-9_-]/g, '_')] *)
Fixpoint replaceDisallowed (s : string) : string :=
  match s with
  | EmptyString => EmptyString
  | String c s' =>
      String (if isFileNameChar c then c else underscoreChar) (replaceDisallowed s')
  end.

(** [s.replace(/__+/g, '_')]: every run of underscores becomes one. *)
Fixpoint collapseUnderscores (s : string) : string :=
  match s with
  | EmptyString => EmptyString
  | String c s' =>
      if Ascii.eqb c underscoreChar && startsWith "_" s' then collapseUnderscores s'
      else String c (collapseUnderscores s')
  end.

Fixpoint dropLastUnderscore (s : string) : string :=
  match s with
  | EmptyString => EmptyString
  | String c EmptyString => if Ascii.eqb c underscoreChar then EmptyString else s
  | String c s' => String c (dropLastUnderscore s')
  end.

(** [s.replace(/^_|_$/g, '')]: a leading underscore goes, then a trailing
    one of what follows it. *)
Definition stripEdgeUnderscores (s : string) : string :=
  dropLastUnderscore
    match s with
    | String c s' => if Ascii.eqb c underscoreChar then s' else s
    | EmptyString => EmptyString
    end.

(** The chain of three replacements that the character and vehicle paths
    and the two downloaders share. *)
Definition fileNameOf (name : string) : string :=
  stripEdgeUnderscores (collapseUnderscores (replaceDisallowed name)).

Definition getCharacterImagePath (character : string) : string :=
  "/characters/" +:+ fileNameOf character +:+ ".png".

Definition getVehicleImagePath (vehicle : string) : string :=
  "/vehicles/" +:+ fileNameOf vehicle +:+ ".png".

(** [createFilename] of the vehicle and of the character downloader. *)
Definition createFilename (name : string) : string := fileNameOf name +:+ ".png".

(** [s.replace(/\s/g, '_')] *)
Fixpoint spacesToUnderscores (s : string) : string :=
  match s with
  | EmptyString => EmptyString
  | String c s' => String (if isWhitespace c then underscoreChar else c) (spacesToUnderscores s')
  end.

Definition circuitFileName (circuit : string) : string :=
  removeAll "'" (removeAll dotChar (spacesToUnderscores circuit)).

Definition getCircuitImagePath (circuit : string) : string :=
  "/circuits/" +:+ circuitFileName circuit +:+ ".png".

(** A file name as the sanitizer leaves it: allowed characters only, no
    two underscores in a row, no underscore at either end. *)
Fixpoint noDoubleUnderscore (s : string) : bool :=
  match s with
  | EmptyString => true
  | String c s' =>
      negb (Ascii.eqb c underscoreChar && startsWith "_" s') && noDoubleUnderscore s'
  end.

Fixpoint endsWithUnderscore (s : string) : bool :=
  match s with
  | EmptyString => false
  | String c EmptyString => Ascii.eqb c underscoreChar
  | String _ s' => endsWithUnderscore s'
  end.

Fixpoint allFileNameChars (s : string) : bool :=
  match s with
  | EmptyString => true
  | String c s' => isFileNameChar c && allFileNameChars s'
  end.

Definition cleanFileName (s : string) : bool :=
  allFileNameChars s && noDoubleUnderscore s
  && negb (startsWith "_" s) && negb (endsWithUnderscore s).

Fixpoint hasWhitespace (s : string) : bool :=
  match s with
  | EmptyString => false
  | String c s' => isWhitespace c || hasWhitespace s'
  end.

(** ** Time input *)

(** The time [m:ab.xyz] counted in thousandths of a second. *)
Definition milliseconds (m : string) (a b x y z : ascii) : Z :=
  60000 * decimalValue 0 m + 1000 * (10 * digitValue a + digitValue b)
  + 100 * digitValue x + 10 * digitValue y + digitValue z.

(** [formatTimeInput]: the input event of the time field; the cursor it
    moves is not part of the store. *)
Definition formatTimeInput (value : string) (st : Store) : Store :=
  set_formTime (formatTimeString value) st.

(** [formatEditTimeInput]: the same for the time field of the row in edit. *)
Definition formatEditTimeInput (value : string) (st : Store) : Store :=
  let f := editForm st in
  set_editing (editingTimeId st)
    (EditFormState.mk (formatTimeString value) (EditFormState.circuit f)
       (EditFormState.character f) (EditFormState.vehicle f)) st.


(** ** Import, again *)

(** A row is skipped without a message. *)
Definition skipsRow (r : rowResult) : bool :=
  match r with RowSkipped => true | _ => false end.

(** An entry as the import stages it: a time of the lenient grammar, a
    circuit, a character, and the id of a profile of the registry that
    has the character and the vehicle of the entry. *)
Definition stagedEntry (reg : list Profile.t) (t : TimeEntry.t) : Prop :=
  lenientTimeRegex (TimeEntry.time t) = true
  /\ truthy (TimeEntry.circuit t) = true
  /\ exists p c,
       In p reg /\ Profile.id p = TimeEntry.profileId t
       /\ TimeEntry.character t = Some c /\ truthy c = true /\ Profile.character p = c
       /\ TimeEntry.vehicle t = Some (Profile.vehicle p).

(** ** Selection *)

Definition selectProfile (profileId : string) (st : Store) : Store :=
  set_selectedProfileId profileId st.

(** A circuit chosen from the full list goes to the front of the recent
    circuits. *)
Definition selectCircuit (circuit : string) (st : Store) : Store :=
  let st1 := set_selectedCircuit circuit st in
  saveToLocalStorage
    (set_recentCircuitsList (touchRecent circuit (recentCircuitsList st1)) st1).

(** A circuit chosen from the recent ones leaves their order alone. *)
Definition selectRecentCircuit (circuit : string) (st : Store) : Store :=
  set_selectedCircuit circuit st.

(** [recentCircuits]: [recentCircuitsList.value.slice(0, 8)] *)
Definition recentCircuits (st : Store) : list string := take 8 (recentCircuitsList st).

(** [hay.includes(needle)] *)
Fixpoint includesText (needle hay : string) : bool :=
  startsWith needle hay
  || match hay with
     | String _ hay' => includesText needle hay'
     | EmptyString => false
     end.

(** ** Profiles *)

(** The labels of the three fields of the new combo form. *)
Module NewProfile.
Record t : Type := mk {
  character : string;
  characterSkin : string;
  vehicle : string;
}.
End NewProfile.

Definition canCreateProfile (newProfile : NewProfile.t) : bool :=
  let isCharacterValid :=
    truthy (NewProfile.character newProfile)
    && negb (includesText "Choose your character" (NewProfile.character newProfile)) in
  let isSkinValid :=
    truthy (NewProfile.characterSkin newProfile)
    && negb (includesText "First select a character" (NewProfile.characterSkin newProfile)) in
  let isVehicleValid :=
    truthy (NewProfile.vehicle newProfile)
    && negb (includesText "Choose your vehicle" (NewProfile.vehicle newProfile)) in
  isCharacterValid && isSkinValid && isVehicleValid.

(** The profile that [createProfile] builds; [now] is the text of
    [Date.now()] and [createdAt] that of [new Date().toISOString()]. *)
Definition newProfileObj (now createdAt : string) (newProfile : NewProfile.t) : Profile.t :=
  {| Profile.id := "profile_" +:+ now;
     Profile.name := NewProfile.character newProfile +:+ " + " +:+ NewProfile.vehicle newProfile;
     Profile.character := NewProfile.character newProfile;
     Profile.characterSkin := NewProfile.characterSkin newProfile;
     Profile.vehicle := NewProfile.vehicle newProfile;
     Profile.createdAt := createdAt |}.

(** [createProfile]; the form it resets is not part of the store. *)
Definition createProfile (now createdAt : string) (newProfile : NewProfile.t) (st : Store)
    : Store :=
  if negb (canCreateProfile newProfile) then st
  else
    let p := newProfileObj now createdAt newProfile in
    set_selectedProfileId (Profile.id p)
      (saveToLocalStorage (set_profiles (profiles st ++ [p]) st)).

Definition getProfileCharacter (profileId : string) (st : Store) : string :=
  match findProfile (profiles st) profileId with
  | Some profile => Profile.character profile
  | None => "Unknown Character"
  end.

Definition getProfileVehicle (profileId : string) (st : Store) : string :=
  orElse (Profile.vehicle <$> findProfile (profiles st) profileId) "Unknown Vehicle".

(** ** Rows of the table *)

(** [sortedTimes]: most recent first; [getTime] stands for
    [new Date(date).getTime()]. *)
Definition sortedTimes (getTime : string -> number) (st : Store) : list TimeEntry.t :=
  sortBy (fun a b => sub (getTime (TimeEntry.date b)) (getTime (TimeEntry.date a))) (times st).

(** [startEdit]: the form is filled from the row, the index is the one
    that [getActualTimeIndex] finds for it. *)
Definition startEdit (timeEntry : TimeEntry.t) (st : Store) : Store :=
  match getActualTimeIndex (times st) timeEntry with
  | None => st
  | Some actualIndex =>
      let profile := findProfile (profiles st) (TimeEntry.profileId timeEntry) in
      set_editing (Some actualIndex)
        {| EditFormState.time := TimeEntry.time timeEntry;
           EditFormState.circuit := TimeEntry.circuit timeEntry;
           EditFormState.character :=
             orElse (TimeEntry.character timeEntry)
                    (orElse (Profile.character <$> profile) EmptyString);
           EditFormState.vehicle :=
             orElse (TimeEntry.vehicle timeEntry)
                    (orElse (Profile.vehicle <$> profile) EmptyString) |} st
  end.

(** The Delete button of a row,
    [confirmRemoveTime(getActualTimeIndex(row.original))]: with the index
    -1 of a row that is not found, [splice(-1, 1)] removes the last entry. *)
Definition deleteRow (timeEntry : TimeEntry.t) (st : Store) : Store :=
  match getActualTimeIndex (times st) timeEntry with
  | Some index => confirmRemoveTime index st
  | None => saveToLocalStorage (set_times (removelast (times st)) st)
  end.

(** The four fields by which a row is found again in the ledger. *)
Definition sameRow (a b : TimeEntry.t) : Prop :=
  TimeEntry.time a = TimeEntry.time b
  /\ TimeEntry.circuit a = TimeEntry.circuit b
  /\ TimeEntry.date a = TimeEntry.date b
  /\ TimeEntry.profileId a = TimeEntry.profileId b.

(** ** Reset *)

(** [confirmResetAllData]: the five keys are removed; the filters and
    the page it resets are not part of the store. *)
Definition confirmResetAllData (st : Store) : Store :=
  let st1 := set_localStorage emptyStorage st in
  let st2 :=
    set_selectedCircuit EmptyString
      (set_selectedProfileId EmptyString
         (set_recentCircuitsList [] (set_profiles [] (set_times [] st1)))) in
  let st3 := set_formTime EmptyString st2 in
  set_editing None (editForm st3) st3.

(** ** Bound fields *)

(** The switch of the date preference, bound to [showRelativeTime]; the
    watcher writes the key of the preference when the value changes. *)
Definition setShowRelativeTime (v : bool) (st : Store) : Store :=
  if Bool.eqb v (showRelativeTime st) then st
  else
    let ls := localStorage st in
    set_localStorage
      {| Storage.times := Storage.times ls;
         Storage.profiles := Storage.profiles ls;
         Storage.recentCircuits := Storage.recentCircuits ls;
         Storage.showRelativeTime := Wellformed v;
         Storage.csvBackup := Storage.csvBackup ls |}
      (set_showRelativeTime v st).

(** The fields of the row in edit, bound to [editForm]. *)
Definition setEditForm (f : EditFormState.t) (st : Store) : Store :=
  set_editing (editingTimeId st) f st.

(** ** Sessions *)

(** The handlers of the component that act on the store, and the fields
    that the template binds to it. *)
Inductive Event : Type :=
  | FormatTimeInput (value : string)
  | AddTime (now : string)
  | SelectProfile (profileId : string)
  | SelectCircuit (circuit : string)
  | SelectRecentCircuit (circuit : string)
  | CreateProfile (now createdAt : string) (newProfile : NewProfile.t)
  | ConfirmDeleteProfile (profileId : string)
  | StartEdit (timeEntry : TimeEntry.t)
  | FormatEditTimeInput (value : string)
  | SaveEdit
  | CancelEdit
  | ConfirmRemoveTime (index : nat)
  | DeleteRow (timeEntry : TimeEntry.t)
  | ImportFromCSV (oracle : Oracle) (csvText : string)
  | ConfirmImportReplace
  | ConfirmImportAppend
  | CancelImport
  | ConfirmResetAllData
  | LoadFromLocalStorage (getTime : string -> number)
  | SetShowRelativeTime (v : bool)
  | SetEditForm (f : EditFormState.t).

(** The store that a handler leaves, also when it throws. *)
Definition handle (e : Event) (st : Store) : Store :=
  match e with
  | FormatTimeInput value => formatTimeInput value st
  | AddTime now => fst (addTime now st)
  | SelectProfile profileId => selectProfile profileId st
  | SelectCircuit circuit => selectCircuit circuit st
  | SelectRecentCircuit circuit => selectRecentCircuit circuit st
  | CreateProfile now createdAt newProfile => createProfile now createdAt newProfile st
  | ConfirmDeleteProfile profileId => confirmDeleteProfile profileId st
  | StartEdit timeEntry => startEdit timeEntry st
  | FormatEditTimeInput value => formatEditTimeInput value st
  | SaveEdit => finalStore (saveEdit st)
  | CancelEdit => cancelEdit st
  | ConfirmRemoveTime index => confirmRemoveTime index st
  | DeleteRow timeEntry => deleteRow timeEntry st
  | ImportFromCSV oracle csvText => fst (importFromCSV oracle csvText st)
  | ConfirmImportReplace => confirmImportReplace st
  | ConfirmImportAppend => confirmImportAppend st
  | CancelImport => cancelImport st
  | ConfirmResetAllData => confirmResetAllData st
  | LoadFromLocalStorage getTime => finalStore (loadFromLocalStorage getTime st)
  | SetShowRelativeTime v => setShowRelativeTime v st
  | SetEditForm f => setEditForm f st
  end.

(** The store after a sequence of events, the first one first. *)
Definition session (events : list Event) (st : Store) : Store :=
  fold_left (fun st e => handle e st) events st.

(** What a key of the storage holds is what is in memory; a key that is
    absent stands for the value that the component starts with. *)
Definition holds {A : Type} (cell : stored A) (initial inMemory : A) : Prop :=
  match cell with
  | Missing => inMemory = initial
  | Malformed => False
  | Wellformed a => a = inMemory
  end.

(** The ledger and the recent circuits of the storage are those in memory. *)
Definition ledgerStored (st : Store) : Prop :=
  holds (Storage.times (localStorage st)) [] (times st)
  /\ holds (Storage.recentCircuits (localStorage st)) [] (recentCircuitsList st)
  /\ isMalformed (Storage.profiles (localStorage st)) = false
  /\ isMalformed (Storage.showRelativeTime (localStorage st)) = false.

(** The page as it is when the component is set up over a storage. *)
Definition freshStore (ls : Storage.t) : Store := set_localStorage ls emptyStore.

(** The recent circuits hold no circuit twice and at most eight. *)
Definition recentsOk (l : list string) : Prop := NoDup l /\ (length l <= 8)%nat.

(** An entry as the component records it: a time and a circuit that are
    not empty, the character and the vehicle present. *)
Definition recorded (t : TimeEntry.t) : Prop :=
  truthy (TimeEntry.time t) = true /\ truthy (TimeEntry.circuit t) = true
  /\ is_Some (TimeEntry.character t) /\ is_Some (TimeEntry.vehicle t).

Definition sessionInvariant (st : Store) : Prop :=
  ledgerStored st
  /\ recentsOk (recentCircuitsList st)
  /\ Forall recorded (times st)
  /\ Forall recorded (pendingImportData st).

(** No two entries of the ledger agree on the four fields by which a row
    is found again. *)
Definition distinctRows (times : list TimeEntry.t) : Prop :=
  forall i j a b, times !! i = Some a -> times !! j = Some b -> sameRow a b -> i = j.

(** ** Order of the table *)

(** The date of an entry parses to a finite number of milliseconds. *)
Definition datedEntry (getTime : string -> number) (t : TimeEntry.t) : Prop :=
  exists q, getTime (TimeEntry.date t) = Fin q.

(** [a] is at least as recent as [b]. *)
Definition newerOrEqual (getTime : string -> number) (a b : TimeEntry.t) : bool :=
  le (getTime (TimeEntry.date b)) (getTime (TimeEntry.date a)).

(** A clock for the samples, which differ in the minutes of their dates
    only: the two digits of the minutes. *)
Definition minutesOfDate (date : string) : number := parseInt (slice date 14 (Some 16)).

(** The comparator of [sortedTimes]. *)
Definition byDate (getTime : string -> number) (a b : TimeEntry.t) : number :=
  sub (getTime (TimeEntry.date b)) (getTime (TimeEntry.date a)).

(** ** Filters and pages *)

(** The search text and the labels of the three filter menus. *)
Module Filters.
Record t : Type := mk {
  timeSearch : string;
  character : string;
  vehicle : string;
  circuit : string;
}.
End Filters.

(** The filters as [clearFilters] sets them. *)
Definition clearedFilters : Filters.t :=
  Filters.mk EmptyString "All Characters" "All Vehicles" "All Circuits".

(** The test of the search filter; [toLowerCase] stands for the method
    of that name, [searchTerm] is the search text in lower case. *)
Definition matchesSearch (toLowerCase : string -> string) (searchTerm : string)
    (time : TimeEntry.t) : bool :=
  includesText searchTerm (toLowerCase (TimeEntry.time time))
  || includesText searchTerm (toLowerCase (TimeEntry.circuit time))
  || match TimeEntry.character time with
     | Some c => includesText searchTerm (toLowerCase c)
     | None => false
     end
  || match TimeEntry.vehicle time with
     | Some v => includesText searchTerm (toLowerCase v)
     | None => false
     end.

(** A menu filters when its label is not empty and is not its placeholder. *)
Definition filterActive (placeholder label : string) : bool :=
  truthy label && negb (includesText placeholder label).

(** [filteredTimes], as a function of the filters and of [sortedTimes]. *)
Definition filteredTimes (toLowerCase : string -> string) (filters : Filters.t)
    (sorted : list TimeEntry.t) : list TimeEntry.t :=
  let filtered1 :=
    if truthy (Filters.timeSearch filters)
    then List.filter (matchesSearch toLowerCase (toLowerCase (Filters.timeSearch filters))) sorted
    else sorted in
  let filtered2 :=
    if filterActive "All Characters" (Filters.character filters)
    then List.filter
           (fun time => bool_decide (TimeEntry.character time = Some (Filters.character filters)))
           filtered1
    else filtered1 in
  let filtered3 :=
    if filterActive "All Vehicles" (Filters.vehicle filters)
    then List.filter
           (fun time => bool_decide (TimeEntry.vehicle time = Some (Filters.vehicle filters)))
           filtered2
    else filtered2 in
  if filterActive "All Circuits" (Filters.circuit filters)
  then List.filter (fun time => bool_decide (TimeEntry.circuit time = Filters.circuit filters))
                   filtered3
  else filtered3.

(** What an entry must satisfy to pass the filters that are active. *)
Definition passesFilters (toLowerCase : string -> string) (filters : Filters.t)
    (time : TimeEntry.t) : bool :=
  (negb (truthy (Filters.timeSearch filters))
   || matchesSearch toLowerCase (toLowerCase (Filters.timeSearch filters)) time)
  && (negb (filterActive "All Characters" (Filters.character filters))
      || bool_decide (TimeEntry.character time = Some (Filters.character filters)))
  && (negb (filterActive "All Vehicles" (Filters.vehicle filters))
      || bool_decide (TimeEntry.vehicle time = Some (Filters.vehicle filters)))
  && (negb (filterActive "All Circuits" (Filters.circuit filters))
      || bool_decide (TimeEntry.circuit time = Filters.circuit filters)).

(** [paginatedTimes]: the rows of a page with their index among the
    filtered times.  For the page 0 the slice starts at a negative index
    and ends at 0, and is empty. *)
Definition paginatedTimes (currentPage itemsPerPage : nat) (filtered : list TimeEntry.t)
    : list (nat * TimeEntry.t) :=
  match currentPage with
  | O => []
  | S page =>
      let startIndex := (page * itemsPerPage)%nat in
      imap (fun localIndex time => ((startIndex + localIndex)%nat, time))
           (take itemsPerPage (drop startIndex filtered))
  end.

(** * Characters *)

Lemma isDigit_cases (c : ascii) :
  isDigit c = true ->
  In c ["0"; "1"; "2"; "3"; "4"; "5"; "6"; "7"; "8"; "9"]%char.
Proof.
  destruct c as [[] [] [] [] [] [] [] []]; vm_compute; intros H;
    try discriminate H; tauto.
Qed.

Ltac digit_cases H :=
  apply isDigit_cases in H; simpl in H;
  repeat (destruct H as [H | H]; [subst | ]); [ .. | contradiction ].

Lemma isDigit05_isDigit (c : ascii) : isDigit05 c = true -> isDigit c = true.
Proof.
  unfold isDigit05, isDigit. rewrite !andb_true_iff, !N.leb_le. lia.
Qed.

Lemma digit_not_whitespace (c : ascii) : isDigit c = true -> isWhitespace c = false.
Proof. intros H. digit_cases H; reflexivity. Qed.

Lemma digit_not_char (c d : ascii) :
  isDigit c = true -> isDigit d = false -> Ascii.eqb c d = false.
Proof.
  intros Hc Hd. destruct (Ascii.eqb_spec c d) as [-> | ]; [congruence | reflexivity].
Qed.

Lemma digitValue_bounds (c : ascii) : isDigit c = true -> 0 <= digitValue c <= 9.
Proof.
  unfold isDigit, digitValue. rewrite andb_true_iff, !N.leb_le. lia.
Qed.

Lemma digitValue05_bounds (c : ascii) : isDigit05 c = true -> 0 <= digitValue c <= 5.
Proof.
  unfold isDigit05, digitValue. rewrite andb_true_iff, !N.leb_le. lia.
Qed.

(** * Strings *)

Lemma append_nil (b : string) : EmptyString +:+ b = b.
Proof. reflexivity. Qed.

Lemma append_cons (x : ascii) (a b : string) : String x a +:+ b = String x (a +:+ b).
Proof. reflexivity. Qed.

Lemma append_assoc (a b c : string) : (a +:+ b) +:+ c = a +:+ (b +:+ c).
Proof.
  induction a as [| x a IH]; [reflexivity |].
  rewrite !append_cons. now f_equal.
Qed.

Lemma append_empty_r (a : string) : a +:+ EmptyString = a.
Proof.
  induction a as [| x a IH]; [reflexivity |].
  rewrite append_cons. now f_equal.
Qed.


Lemma removeAll_id (c : ascii) (s : string) : includes c s = false -> removeAll c s = s.
Proof.
  induction s as [| x s IH]; simpl; [reflexivity |].
  intros H. apply orb_false_iff in H as [Hx Hs].
  rewrite Hx. now rewrite IH.
Qed.

Lemma split_no_sep (sep : ascii) (s : string) : includes sep s = false -> split sep s = [s].
Proof.
  induction s as [| x s IH]; simpl; [reflexivity |].
  intros H. apply orb_false_iff in H as [Hx Hs].
  rewrite Hx, (IH Hs). reflexivity.
Qed.

Lemma split_append (sep : ascii) (a b : string) :
  includes sep a = false ->
  split sep (a +:+ String sep b) = a :: split sep b.
Proof.
  induction a as [| x a IH].
  - intros _. rewrite append_nil. simpl. now rewrite Ascii.eqb_refl.
  - intros H. simpl in H. apply orb_false_iff in H as [Hx Ha].
    rewrite append_cons. simpl. rewrite Hx, (IH Ha). reflexivity.
Qed.

Lemma trimEnd_empty (s : string) :
  trimEnd s = EmptyString -> forall c, includes c s = true -> isWhitespace c = true.
Proof.
  induction s as [| x s IH]; simpl; [discriminate |].
  destruct (trimEnd s) eqn:E; [| discriminate].
  destruct (isWhitespace x) eqn:Hx; [| discriminate].
  intros _ c Hc. apply orb_true_iff in Hc as [Hc | Hc].
  - apply Ascii.eqb_eq in Hc. now subst.
  - now apply IH.
Qed.

Lemma trimStart_includes (c : ascii) (s : string) :
  isWhitespace c = false -> includes c (trimStart s) = includes c s.
Proof.
  intros Hc. induction s as [| x s IH]; simpl; [reflexivity |].
  destruct (isWhitespace x) eqn:Hx; simpl; [| reflexivity].
  rewrite IH. destruct (Ascii.eqb_spec x c) as [-> | ]; [congruence | reflexivity].
Qed.

(** A string holding a character that is not white space has a non-empty trim. *)
Lemma trim_truthy (c : ascii) (s : string) :
  isWhitespace c = false -> includes c s = true -> truthy (trim s) = true.
Proof.
  intros Hc Hs. unfold trim.
  destruct (trimEnd (trimStart s)) eqn:E; [| reflexivity].
  pose proof (trimEnd_empty _ E c) as H.
  rewrite trimStart_includes in H by assumption.
  specialize (H Hs). congruence.
Qed.

Lemma digitsPrefix_allDigits (d r : string) :
  allDigits d = true ->
  match r with String c _ => isDigit c = false | EmptyString => True end ->
  digitsPrefix (d +:+ r) = (d, r).
Proof.
  intros Hd Hr. induction d as [| x d IH].
  - rewrite append_nil. destruct r as [| c r]; simpl; [reflexivity | now rewrite Hr].
  - simpl in Hd. apply andb_true_iff in Hd as [Hx Hd].
    rewrite append_cons. simpl. rewrite Hx, (IH Hd). reflexivity.
Qed.

Lemma decimalValue_nonneg (s : string) (acc : Z) :
  allDigits s = true -> 0 <= acc -> 0 <= decimalValue acc s.
Proof.
  revert acc. induction s as [| x s IH]; simpl; intros acc H Hacc; [assumption |].
  apply andb_true_iff in H as [Hx Hs].
  apply IH; [assumption |]. pose proof (digitValue_bounds x Hx). lia.
Qed.

(** * Numbers *)

Lemma Qle_bool_inject_Z (a b : Z) : Qle_bool (inject_Z a) (inject_Z b) = (a <=? b).
Proof. unfold Qle_bool, inject_Z; simpl. now rewrite !Z.mul_1_r. Qed.

Lemma le_ofZ (a b : Z) : le (ofZ a) (ofZ b) = (a <=? b).
Proof. apply Qle_bool_inject_Z. Qed.

Lemma lt_ofZ (a b : Z) : lt (ofZ a) (ofZ b) = (a <? b).
Proof.
  unfold lt, ofZ, Qltb. rewrite Qle_bool_inject_Z.
  now rewrite Z.ltb_antisym.
Qed.

Lemma lt_Fin_PosInf (q : Q) : lt (Fin q) PosInf = true.
Proof. reflexivity. Qed.

(** ** parseInt and parseFloat on digits *)

Lemma parseInt_digits (d : string) :
  allDigits d = true -> truthy d = true -> parseInt d = ofZ (decimalValue 0 d).
Proof.
  intros Hd Hne. destruct d as [| c d]; [discriminate |].
  simpl in Hd. apply andb_true_iff in Hd as [Hc Hd].
  unfold parseInt. simpl trimStart. rewrite (digit_not_whitespace c Hc).
  assert (Hsign : stripSign (String c d) = (false, String c d)).
  { unfold stripSign.
    rewrite (digit_not_char c "-") by (assumption || reflexivity).
    now rewrite (digit_not_char c "+") by (assumption || reflexivity). }
  rewrite Hsign.
  assert (Hhex : hexPrefixed (String c d) = None).
  { destruct d as [| c1 d]; [reflexivity |]. simpl in Hd.
    apply andb_true_iff in Hd as [Hc1 _]. unfold hexPrefixed.
    rewrite (digit_not_char c1 "x") by (assumption || reflexivity).
    rewrite (digit_not_char c1 "X") by (assumption || reflexivity).
    now rewrite andb_false_r. }
  rewrite Hhex.
  pose proof (digitsPrefix_allDigits (String c d) EmptyString) as Hp.
  rewrite append_empty_r in Hp. rewrite Hp; [reflexivity | | exact I].
  simpl. now rewrite Hc, Hd.
Qed.

Lemma parseFloat_digit_finite (c : ascii) (s : string) :
  isDigit c = true -> exists q, parseFloat (String c s) = Fin q.
Proof.
  intros Hc. unfold parseFloat. simpl trimStart. rewrite (digit_not_whitespace c Hc).
  assert (Hsign : stripSign (String c s) = (false, String c s)).
  { unfold stripSign.
    rewrite (digit_not_char c "-") by (assumption || reflexivity).
    now rewrite (digit_not_char c "+") by (assumption || reflexivity). }
  rewrite Hsign.
  assert (Hinf : startsWith "Infinity" (String c s) = false).
  { change (startsWith "Infinity" (String c s))
      with (Ascii.eqb "I" c && startsWith "nfinity" s).
    rewrite Ascii.eqb_sym.
    now rewrite (digit_not_char c "I") by (assumption || reflexivity). }
  rewrite Hinf. simpl digitsPrefix. rewrite Hc.
  destruct (digitsPrefix s) as [d r1]. cbv beta iota zeta.
  destruct r1 as [| c1 r];
    [| destruct (Ascii.eqb c1 dotChar); [destruct (digitsPrefix r) |]];
    eexists; reflexivity.
Qed.

(** * Time format codec *)

Lemma allDigits_not_includes (c : ascii) (s : string) :
  isDigit c = false -> allDigits s = true -> includes c s = false.
Proof.
  intros Hc. induction s as [| x s IH]; simpl; [reflexivity |].
  intros H. apply andb_true_iff in H as [Hx Hs].
  rewrite (digit_not_char x c Hx Hc). now apply IH.
Qed.

Lemma digitsPrefix_spec (s d r : string) :
  digitsPrefix s = (d, r) ->
  s = d +:+ r /\ allDigits d = true
  /\ match r with String c _ => isDigit c = false | EmptyString => True end.
Proof.
  revert d r. induction s as [| x s IH]; simpl; intros d r H.
  - now inversion H.
  - destruct (isDigit x) eqn:Hx.
    + destruct (digitsPrefix s) as [d' r'] eqn:E. inversion H; subst.
      destruct (IH _ _ eq_refl) as (-> & Hd & Hr).
      rewrite append_cons. simpl. now rewrite Hx.
    + inversion H; subst. now rewrite append_nil.
Qed.

Lemma timeTail_inv (sec1 : ascii -> bool) (r : string) :
  timeTail sec1 r = true ->
  exists a b x y z,
    r = timeText EmptyString a b x y z /\ sec1 a = true /\ isDigit b = true
    /\ isDigit x = true /\ isDigit y = true /\ isDigit z = true.
Proof.
  destruct r as [| c [| a [| b [| d [| x [| y [| z [| ? ?]]]]]]]]; try discriminate.
  simpl. rewrite !andb_true_iff. intros [[[[[[Hc Ha] Hb] Hd] Hx] Hy] Hz].
  apply Ascii.eqb_eq in Hc, Hd. subst.
  exists a, b, x, y, z. repeat split; assumption.
Qed.


Lemma lenient_inv (s : string) :
  lenientTimeRegex s = true ->
  exists m a b x y z,
    s = timeText m a b x y z /\ allDigits m = true /\ truthy m = true
    /\ isDigit a = true /\ isDigit b = true
    /\ isDigit x = true /\ isDigit y = true /\ isDigit z = true.
Proof.
  unfold lenientTimeRegex. destruct (digitsPrefix s) as [m r] eqn:E.
  intros H. apply andb_true_iff in H as [Hm Hr].
  apply digitsPrefix_spec in E as (-> & Hd & _).
  apply timeTail_inv in Hr as (a & b & x & y & z & -> & ?).
  exists m, a, b, x, y, z. tauto.
Qed.


Lemma strict_inv (s : string) :
  strictTimeRegex s = true ->
  exists m a b x y z,
    s = timeText m a b x y z /\ allDigits m = true /\ truthy m = true
    /\ (String.length m <= 2)%nat
    /\ isDigit05 a = true /\ isDigit b = true
    /\ isDigit x = true /\ isDigit y = true /\ isDigit z = true.
Proof.
  destruct s as [| m1 r]; [discriminate |]. simpl.
  intros H. apply andb_true_iff in H as [Hm1 H].
  apply orb_true_iff in H as [H | H].
  - apply timeTail_inv in H as (a & b & x & y & z & -> & ?).
    exists (String m1 EmptyString), a, b, x, y, z.
    simpl. rewrite Hm1. repeat split; try tauto; lia.
  - destruct r as [| m2 r]; [discriminate |].
    apply andb_true_iff in H as [Hm2 H].
    apply timeTail_inv in H as (a & b & x & y & z & -> & ?).
    exists (String m1 (String m2 EmptyString)), a, b, x, y, z.
    simpl. rewrite Hm1, Hm2. repeat split; try tauto; lia.
Qed.


Lemma split_timeText (m : string) (a b x y z : ascii) :
  allDigits m = true -> isDigit a = true -> isDigit b = true ->
  isDigit x = true -> isDigit y = true -> isDigit z = true ->
  split colonChar (timeText m a b x y z)
  = [m; String a (String b (String dotChar (String x (String y (String z EmptyString)))))].
Proof.
  intros Hm Ha Hb Hx Hy Hz. unfold timeText.
  rewrite split_append by (now apply allDigits_not_includes).
  rewrite split_no_sep; [reflexivity |].
  simpl. rewrite !(digit_not_char _ colonChar) by (assumption || reflexivity).
  reflexivity.
Qed.

Lemma convert_timeText (m : string) (a b x y z : ascii) :
  allDigits m = true -> truthy m = true -> isDigit a = true -> isDigit b = true ->
  isDigit x = true -> isDigit y = true -> isDigit z = true ->
  convertTimeToSeconds (timeText m a b x y z)
  = add (mul (ofZ (decimalValue 0 m)) (ofZ 60))
        (parseFloat (String a (String b (String dotChar (String x (String y (String z EmptyString))))))).
Proof.
  intros Hm Hne Ha Hb Hx Hy Hz. unfold convertTimeToSeconds.
  rewrite split_timeText by assumption. now rewrite parseInt_digits.
Qed.

(** A time of the lenient grammar converts to a finite number. *)
Lemma convert_lenient_finite (s : string) :
  lenientTimeRegex s = true -> exists q, convertTimeToSeconds s = Fin q.
Proof.
  intros H. apply lenient_inv in H as (m & a & b & x & y & z & -> & Hm & Hne & Ha & ?).
  rewrite convert_timeText by tauto.
  destruct (parseFloat_digit_finite a (String b (String dotChar (String x (String y (String z EmptyString))))) Ha)
    as [q ->].
  eexists. reflexivity.
Qed.


(** After the regex, the numeric checks of [isValidTimeFormat] always pass. *)
Lemma isValidTimeFormat_strict (s : string) : isValidTimeFormat s = strictTimeRegex s.
Proof.
  unfold isValidTimeFormat. destruct (strictTimeRegex s) eqn:E.
  2:{ now destruct (negb (truthy s) || negb (truthy (trim s))). }
  apply strict_inv in E as (m & a & b & x & y & z & -> & Hm & Hne & _ & Ha5 & Hb & Hx & Hy & Hz).
  pose proof (isDigit05_isDigit a Ha5) as Ha.
  destruct m as [| m1 m]; [discriminate |].
  assert (Hm1 : isDigit m1 = true) by (simpl in Hm; now apply andb_true_iff in Hm).
  assert (Htrim : truthy (trim (timeText (String m1 m) a b x y z)) = true).
  { apply (trim_truthy m1); [now apply digit_not_whitespace |].
    unfold timeText. rewrite append_cons. simpl. now rewrite Ascii.eqb_refl. }
  rewrite Htrim. unfold timeText at 1. rewrite append_cons. simpl truthy. simpl negb. simpl orb.
  cbv iota.
  rewrite split_timeText by assumption.
  assert (Hsec : split dotChar (String a (String b (String dotChar (String x (String y (String z EmptyString))))))
                 = [String a (String b EmptyString); String x (String y (String z EmptyString))]).
  { change (String a (String b (String dotChar (String x (String y (String z EmptyString))))))
      with (String a (String b EmptyString) +:+ String dotChar (String x (String y (String z EmptyString)))).
    rewrite split_append.
    - rewrite split_no_sep; [reflexivity |]. simpl.
      rewrite !(digit_not_char _ dotChar) by (assumption || reflexivity). reflexivity.
    - simpl. rewrite !(digit_not_char _ dotChar) by (assumption || reflexivity). reflexivity. }
  rewrite Hsec. simpl hd.
  rewrite !parseInt_digits by (simpl; rewrite ?Ha, ?Hb; assumption || reflexivity).
  unfold ge. rewrite !le_ofZ.
  pose proof (decimalValue_nonneg (String m1 m) 0 Hm ltac:(lia)).
  pose proof (digitValue05_bounds a Ha5). pose proof (digitValue_bounds b Hb).
  simpl decimalValue at 2 3.
  rewrite !andb_true_iff, !Z.leb_le. lia.
Qed.

(** * Order on numbers *)



Lemma le_trans (a b c : number) : le a b = true -> le b c = true -> le a c = true.
Proof.
  destruct a, b, c; simpl; try congruence.
  rewrite !Qle_bool_iff. apply Qle_trans.
Qed.






(** * Time ledger *)

Lemma mathMin_guard (l : list number) :
  (if (0 <? length l)%nat then mathMin l else PosInf) = mathMin l.
Proof. now destruct l. Qed.

Lemma strict_truthy (s : string) : strictTimeRegex s = true -> truthy s = true.
Proof. now destruct s. Qed.

Lemma addTime_refused (now : string) (st : Store) :
  addAccepted st = false -> addTime now st = (st, None).
Proof.
  unfold addAccepted, addTime. rewrite isValidTimeFormat_strict. intros H.
  destruct (truthy (formTime st)) eqn:Ht, (truthy (selectedCircuit st)),
    (truthy (selectedProfileId st)); simpl; try reflexivity.
  rewrite !andb_true_r in H. now rewrite H.
Qed.

Lemma addTime_accepted (now : string) (st : Store) :
  addAccepted st = true ->
  addTime now st
  = (set_formTime EmptyString
       (saveToLocalStorage
          (set_recentCircuitsList (touchRecent (selectedCircuit st) (recentCircuitsList st))
             (set_times (times st ++ [newTimeEntry now st]) st))),
     Some (lt (convertTimeToSeconds (formTime st))
              (bestTimeFor (selectedCircuit st) (times st)))).
Proof.
  unfold addAccepted, addTime, bestTimeFor. rewrite isValidTimeFormat_strict. intros H.
  apply andb_true_iff in H as [H Hp]. apply andb_true_iff in H as [Ht Hc].
  rewrite (strict_truthy _ Ht), Hc, Hp, Ht. simpl.
  rewrite <- (mathMin_guard (map _ _)) at 2. now rewrite length_map.
Qed.



(** Every time that [addTime] appends passes the strict grammar. *)
Lemma addTime_writes_strict (now : string) (st st' : Store) (best : bool) :
  addTime now st = (st', Some best) ->
  exists t, times st' = times st ++ [t] /\ strictTimeRegex (TimeEntry.time t) = true.
Proof.
  intros H. destruct (addAccepted st) eqn:Hok.
  - rewrite (addTime_accepted now st Hok) in H. inversion H; subst.
    exists (newTimeEntry now st). split; [reflexivity |].
    unfold addAccepted in Hok. simpl.
    apply andb_true_iff in Hok as [Hok _]. now apply andb_true_iff in Hok as [Hok _].
  - rewrite (addTime_refused now st Hok) in H. discriminate.
Qed.

(** C9 -- Edit frame condition.  At a valid index, [saveEdit] returns the
    store unchanged unless the four fields of the form are all non-empty;
    when they are, it overwrites the entry at that index, and only that
    one, with the fields of the form, keeping the profile id and the date
    that the entry had. *)
Theorem saveEdit_frame (st : Store) (index : nat) (old : TimeEntry.t) :
  editingTimeId st = Some index ->
  times st !! index = Some old ->
  (editFilled (editForm st) = false -> saveEdit st = Done st)
  /\ (editFilled (editForm st) = true ->
      exists st' edited,
        saveEdit st = Done st'
        /\ times st' = <[index := edited]> (times st)
        /\ times st' !! index = Some edited
        /\ length (times st') = length (times st)
        /\ (forall j, j <> index -> times st' !! j = times st !! j)
        /\ TimeEntry.profileId edited = TimeEntry.profileId old
        /\ TimeEntry.date edited = TimeEntry.date old
        /\ TimeEntry.time edited = EditFormState.time (editForm st)
        /\ TimeEntry.circuit edited = EditFormState.circuit (editForm st)
        /\ TimeEntry.character edited = Some (EditFormState.character (editForm st))
        /\ TimeEntry.vehicle edited = Some (EditFormState.vehicle (editForm st))
        /\ profiles st' = profiles st).
Proof.
  intros Hid Hold. unfold editFilled, saveEdit. rewrite Hid, Hold.
  destruct (truthy (EditFormState.time (editForm st))),
    (truthy (EditFormState.circuit (editForm st))),
    (truthy (EditFormState.character (editForm st))),
    (truthy (EditFormState.vehicle (editForm st))); simpl;
    (split; [intros H; try discriminate H; reflexivity | intros H; try discriminate H]).
  exists (cancelEdit (saveToLocalStorage
            (set_times (<[index := editedEntry (editForm st) old]> (times st)) st))),
    (editedEntry (editForm st) old).
  simpl. repeat split.
  - apply list_lookup_insert_eq. now apply lookup_lt_Some in Hold.
  - apply length_insert.
  - intros j Hj. now apply list_lookup_insert_ne.
Qed.

Lemma saveEdit_frame_witness :
  exists st' edited,
    saveEdit fullEditStore = Done st'
    /\ times st' !! 0%nat = Some edited
    /\ TimeEntry.profileId edited = "profile_1"
    /\ TimeEntry.date edited = "2024-01-15T10:30:00.000Z"
    /\ TimeEntry.time edited = "1:18.250".
Proof.
  destruct (saveEdit_frame fullEditStore 0
              (sampleEntry "1:20.000" "2024-01-15T10:30:00.000Z") eq_refl eq_refl) as [_ H].
  destruct (H eq_refl) as (st' & edited & Hs & _ & Hl & _ & _ & Hp & Hd & Ht & _).
  exists st', edited. repeat split; assumption.
Defined.

(** C6 -- Time-grammar invariant, edit path.  [saveEdit] checks that the
    time is not empty and nothing else: with the single digit 1 typed
    into the time field, the mask leaves the text 1, and saving writes it
    to the ledger although it fails the strict grammar. *)
Theorem saveEdit_writes_invalid_time :
  exists st',
    saveEdit partialEditStore = Done st'
    /\ TimeEntry.time <$> times st' !! 0%nat = Some "1"
    /\ strictTimeRegex "1" = false.
Proof. eexists. repeat split. Qed.

(** * The input mask *)

Lemma digitsOnly_id (s : string) : allDigits s = true -> digitsOnly s = s.
Proof.
  induction s as [| c s IH]; simpl; [reflexivity |].
  intros H. apply andb_true_iff in H as [Hc Hs]. rewrite Hc. now rewrite IH.
Qed.

Lemma clampSeconds_one (a : ascii) :
  isDigit a = true -> clampSeconds (String a EmptyString) = String a EmptyString.
Proof.
  intros Ha. unfold clampSeconds, gt.
  rewrite parseInt_digits by (simpl; now rewrite ?Ha).
  rewrite lt_ofZ. simpl decimalValue. pose proof (digitValue_bounds a Ha).
  destruct (Z.ltb_spec 59 (10 * 0 + digitValue a)); [lia | reflexivity].
Qed.

Lemma clampSeconds_two (a b : ascii) :
  isDigit a = true -> isDigit b = true ->
  clampSeconds (String a (String b EmptyString)) = secondsText a b.
Proof.
  intros Ha Hb. unfold clampSeconds, gt, secondsText.
  rewrite parseInt_digits by (simpl; now rewrite ?Ha, ?Hb).
  rewrite lt_ofZ. simpl decimalValue. now rewrite Z.mul_0_r, Z.add_0_l.
Qed.

Lemma isDigit05_intro (a : ascii) : isDigit a = true -> digitValue a <= 5 -> isDigit05 a = true.
Proof.
  unfold isDigit, isDigit05, digitValue. rewrite !andb_true_iff, !N.leb_le. lia.
Qed.

(** The seconds shown are two digits, the first one at most 5. *)
Lemma secondsText_shape (a b : ascii) :
  isDigit a = true -> isDigit b = true ->
  exists a' b', secondsText a b = String a' (String b' EmptyString)
                /\ isDigit05 a' = true /\ isDigit b' = true.
Proof.
  intros Ha Hb. unfold secondsText.
  destruct (Z.ltb_spec 59 (10 * digitValue a + digitValue b)).
  - exists "5"%char, "9"%char. now repeat split.
  - exists a, b. repeat split; [| assumption].
    apply isDigit05_intro; [assumption |]. pose proof (digitValue_bounds b Hb). lia.
Qed.

Lemma mask_1 (a : ascii) :
  isDigit a = true -> formatTimeString (String a EmptyString) = String a EmptyString.
Proof.
  intros Ha. unfold formatTimeString. rewrite digitsOnly_id by (simpl; now rewrite Ha).
  reflexivity.
Qed.

Lemma mask_2 (a b : ascii) :
  isDigit a = true -> isDigit b = true ->
  formatTimeString (String a (String b EmptyString)) = String colonChar (secondsText a b).
Proof.
  intros Ha Hb. unfold formatTimeString.
  rewrite digitsOnly_id by (simpl; now rewrite Ha, Hb).
  match goal with
  | |- ?l = _ => let l' := eval cbv -[clampSeconds] in l in change l with l'
  end.
  now rewrite clampSeconds_two.
Qed.

Lemma mask_3 (m a b : ascii) :
  isDigit m = true -> isDigit a = true -> isDigit b = true ->
  formatTimeString (String m (String a (String b EmptyString)))
  = String m (String colonChar (secondsText a b)).
Proof.
  intros Hm Ha Hb. unfold formatTimeString.
  rewrite digitsOnly_id by (simpl; now rewrite Hm, Ha, Hb).
  match goal with
  | |- ?l = _ => let l' := eval cbv -[clampSeconds] in l in change l with l'
  end.
  now rewrite clampSeconds_two.
Qed.

Lemma mask_4 (a x y z : ascii) :
  isDigit a = true -> isDigit x = true -> isDigit y = true -> isDigit z = true ->
  formatTimeString (String a (String x (String y (String z EmptyString))))
  = String colonChar (String a (String dotChar (String x (String y (String z EmptyString))))).
Proof.
  intros Ha Hx Hy Hz. unfold formatTimeString.
  rewrite digitsOnly_id by (simpl; now rewrite Ha, Hx, Hy, Hz).
  match goal with
  | |- ?l = _ => let l' := eval cbv -[clampSeconds] in l in change l with l'
  end.
  now rewrite clampSeconds_one.
Qed.

Lemma mask_5 (a b x y z : ascii) :
  isDigit a = true -> isDigit b = true ->
  isDigit x = true -> isDigit y = true -> isDigit z = true ->
  formatTimeString (String a (String b (String x (String y (String z EmptyString)))))
  = String colonChar (secondsText a b +:+ String dotChar (String x (String y (String z EmptyString)))).
Proof.
  intros Ha Hb Hx Hy Hz. unfold formatTimeString.
  rewrite digitsOnly_id by (simpl; now rewrite Ha, Hb, Hx, Hy, Hz).
  match goal with
  | |- ?l = _ => let l' := eval cbv -[clampSeconds String.append] in l in change l with l'
  end.
  now rewrite clampSeconds_two.
Qed.

Lemma mask_6 (m a b x y z : ascii) :
  isDigit m = true -> isDigit a = true -> isDigit b = true ->
  isDigit x = true -> isDigit y = true -> isDigit z = true ->
  formatTimeString (String m (String a (String b (String x (String y (String z EmptyString))))))
  = String m (String colonChar
       (secondsText a b +:+ String dotChar (String x (String y (String z EmptyString))))).
Proof.
  intros Hm Ha Hb Hx Hy Hz. unfold formatTimeString.
  rewrite digitsOnly_id by (simpl; now rewrite Hm, Ha, Hb, Hx, Hy, Hz).
  match goal with
  | |- ?l = _ => let l' := eval cbv -[clampSeconds String.append] in l in change l with l'
  end.
  now rewrite clampSeconds_two.
Qed.

Lemma mask_7 (m n a b x y z : ascii) :
  isDigit m = true -> isDigit n = true -> isDigit a = true -> isDigit b = true ->
  isDigit x = true -> isDigit y = true -> isDigit z = true ->
  formatTimeString
    (String m (String n (String a (String b (String x (String y (String z EmptyString)))))))
  = String m (String n (String colonChar
       (secondsText a b +:+ String dotChar (String x (String y (String z EmptyString)))))).
Proof.
  intros Hm Hn Ha Hb Hx Hy Hz. unfold formatTimeString.
  rewrite digitsOnly_id by (simpl; now rewrite Hm, Hn, Ha, Hb, Hx, Hy, Hz).
  match goal with
  | |- ?l = _ => let l' := eval cbv -[clampSeconds String.append] in l in change l with l'
  end.
  now rewrite clampSeconds_two.
Qed.

Ltac use_digits :=
  repeat match goal with
         | H : isDigit _ = true |- _ => rewrite !H; clear H
         | H : isDigit05 _ = true |- _ => rewrite !H; clear H
         end.

(** C4 (as amended) -- Input-mask shape.  For one to seven digits the mask
    fills the pattern from the right: one digit is shown as typed, three
    digits as M:SS, six as M:SS.mmm and seven as MM:SS.mmm, the two
    digits of the seconds replaced by 59 when they exceed it; two, four
    and five digits give :SS, :S.mmm and :SS.mmm, with no minutes.  The
    output has at most nine characters, and it matches the pattern of
    the specification exactly when the number of digits is 1, 3, 6 or 7. *)
Theorem formatTimeString_mask (digits : string) :
  allDigits digits = true ->
  (1 <= String.length digits <= 7)%nat ->
  formatTimeString digits = maskOf digits
  /\ (String.length (formatTimeString digits) <= 9)%nat
  /\ (maskRegex (formatTimeString digits) = true
      <-> In (String.length digits) [1; 3; 6; 7]%nat).
Proof.
  intros Hd Hlen.
  destruct digits as [| c1 [| c2 [| c3 [| c4 [| c5 [| c6 [| c7 [| c8 r]]]]]]]];
    simpl in Hlen; try lia; simpl in Hd;
    repeat match type of Hd with
           | _ && _ = true => let H := fresh "Hc" in apply andb_true_iff in Hd as [H Hd]
           end.
  - rewrite mask_1 by assumption. split; [reflexivity |].
    simpl. use_digits. simpl. split; [lia |]. split; [intros _; lia | reflexivity].
  - rewrite mask_2 by assumption. split; [reflexivity |].
    destruct (secondsText_shape c1 c2) as (a' & b' & -> & Ha' & Hb'); try assumption.
    simpl. split; [lia |]. split; [discriminate | intros H; exfalso; lia].
  - rewrite mask_3 by assumption. split; [reflexivity |].
    destruct (secondsText_shape c2 c3) as (a' & b' & -> & Ha' & Hb'); try assumption.
    simpl. use_digits. simpl. split; [lia |]. split; [intros _; lia | reflexivity].
  - rewrite mask_4 by assumption. split; [reflexivity |].
    simpl. split; [lia |]. split; [discriminate | intros H; exfalso; lia].
  - rewrite mask_5 by assumption. split; [reflexivity |].
    destruct (secondsText_shape c1 c2) as (a' & b' & -> & Ha' & Hb'); try assumption.
    simpl. split; [lia |]. split; [discriminate | intros H; exfalso; lia].
  - rewrite mask_6 by assumption. split; [reflexivity |].
    destruct (secondsText_shape c2 c3) as (a' & b' & -> & Ha' & Hb'); try assumption.
    simpl. use_digits. simpl. split; [lia |]. split; [intros _; lia | reflexivity].
  - rewrite mask_7 by assumption. split; [reflexivity |].
    destruct (secondsText_shape c3 c4) as (a' & b' & -> & Ha' & Hb'); try assumption.
    simpl. use_digits. simpl. rewrite ?andb_false_r, ?orb_true_r.
    split; [lia |]. split; [intros _; lia | reflexivity].
Qed.

Lemma formatTimeString_mask_witness :
  formatTimeString "132456" = "1:32.456"
  /\ (String.length (formatTimeString "132456") <= 9)%nat
  /\ (maskRegex (formatTimeString "132456") = true
      <-> In (String.length "132456") [1; 3; 6; 7]%nat).
Proof. apply (formatTimeString_mask "132456"); [reflexivity | simpl; lia]. Defined.

(** C4 as stated fails: two digits give a text without minutes, which the
    pattern rejects, and seven digits give nine characters. *)
Lemma formatTimeString_mask_counterexample :
  allDigits "12" = true
  /\ formatTimeString "12" = ":12"
  /\ maskRegex (formatTimeString "12") = false
  /\ allDigits "1234567" = true
  /\ formatTimeString "1234567" = "12:34.567"
  /\ String.length (formatTimeString "1234567") = 9%nat.
Proof. repeat split. Qed.

(** * Persistence *)

Lemma selectInitialCircuit_times (g : string -> number) (st : Store) :
  times (selectInitialCircuit g st) = times st.
Proof.
  unfold selectInitialCircuit.
  repeat case_match; simpl; congruence.
Qed.


Lemma selectInitialCircuit_recent (g : string -> number) (st : Store) :
  recentCircuitsList (selectInitialCircuit g st) = recentCircuitsList st.
Proof.
  unfold selectInitialCircuit.
  repeat case_match; simpl; congruence.
Qed.



Lemma assignProfiles_times (v : list Profile.t) (st : Store) :
  times (assignProfiles v st) = times st.
Proof. unfold assignProfiles. destruct v; [| destruct (truthy _)]; reflexivity. Qed.

Lemma assignProfiles_recent (v : list Profile.t) (st : Store) :
  recentCircuitsList (assignProfiles v st) = recentCircuitsList st.
Proof. unfold assignProfiles. destruct v; [| destruct (truthy _)]; reflexivity. Qed.





(** * The quote-aware splitter *)

Lemma parseCSVLoop_open (line current : string) (result : list string) :
  parseCSVLoop (String quoteChar line) current false result
  = parseCSVLoop line current true result.
Proof. destruct line; reflexivity. Qed.

Lemma parseCSVLoop_comma (line current : string) (result : list string) :
  parseCSVLoop (String commaChar line) current false result
  = parseCSVLoop line EmptyString false (result ++ [current]).
Proof. reflexivity. Qed.

(** Outside quotes, a text without comma and quote is appended to the
    current field. *)
Lemma parseCSVLoop_plain (v rest current : string) (result : list string) :
  includes quoteChar v = false -> includes commaChar v = false ->
  parseCSVLoop (v +:+ rest) current false result
  = parseCSVLoop rest (current +:+ v) false result.
Proof.
  revert current. induction v as [| c v IH]; intros current Hq Hc.
  - now rewrite append_nil, append_empty_r.
  - simpl in Hq, Hc. apply orb_false_iff in Hq as [Hq1 Hq], Hc as [Hc1 Hc].
    rewrite append_cons. simpl. rewrite Hq1, Hc1. simpl.
    rewrite IH by assumption. now rewrite append_assoc.
Qed.

(** Inside quotes, the escaped text up to the closing quote is the field:
    doubled quotes give one quote, commas are kept. *)
Lemma parseCSVLoop_quoted (v rest current : string) (result : list string) :
  match rest with String c _ => Ascii.eqb c quoteChar = false | EmptyString => True end ->
  parseCSVLoop (doubleQuotes v +:+ String quoteChar rest) current true result
  = parseCSVLoop rest (current +:+ v) false result.
Proof.
  intros Hrest. revert current. induction v as [| c v IH]; intros current.
  - rewrite append_nil, append_empty_r. simpl.
    destruct rest as [| d rest']; [reflexivity |]. now rewrite Hrest.
  - simpl doubleQuotes. destruct (Ascii.eqb_spec c quoteChar) as [-> | Hne].
    + rewrite !append_cons. simpl. rewrite IH. now rewrite append_assoc.
    + rewrite append_cons. simpl.
      apply Ascii.eqb_neq in Hne. rewrite Hne, andb_false_r.
      rewrite IH. now rewrite append_assoc.
Qed.

Lemma parseCSVLoop_cell (v rest current : string) (result : list string) :
  match rest with String c _ => Ascii.eqb c quoteChar = false | EmptyString => True end ->
  parseCSVLoop (csvCell v +:+ rest) current false result
  = parseCSVLoop rest (current +:+ v) false result.
Proof.
  intros Hrest. unfold csvCell. destruct (needsQuoting v) eqn:Hn.
  - rewrite append_cons, parseCSVLoop_open, append_assoc, append_cons, append_nil.
    now apply parseCSVLoop_quoted.
  - unfold needsQuoting in Hn.
    apply orb_false_iff in Hn as [Hn _]. apply orb_false_iff in Hn as [Hc Hq].
    now apply parseCSVLoop_plain.
Qed.

Lemma join_cons2 (sep x y : string) (l : list string) :
  join sep (x :: y :: l) = x +:+ sep +:+ join sep (y :: l).
Proof. reflexivity. Qed.

Lemma parseCSVLoop_row (values : list string) (v : string) (result : list string) :
  parseCSVLoop (join "," (map csvCell (v :: values))) EmptyString false result
  = result ++ v :: values.
Proof.
  revert v result. induction values as [| w values IH]; intros v result.
  - simpl map. unfold join. simpl String.concat.
    rewrite <- (append_empty_r (csvCell v)).
    rewrite parseCSVLoop_cell by exact I. reflexivity.
  - simpl map. rewrite join_cons2.
    rewrite parseCSVLoop_cell by reflexivity.
    change ("," +:+ join "," (csvCell w :: map csvCell values))
      with (String commaChar (join "," (map csvCell (w :: values)))).
    rewrite parseCSVLoop_comma, IH. now rewrite <- app_assoc.
Qed.

(** The splitter inverts the encoding of a row, whatever the values hold. *)
Lemma parseCSVLine_row (values : list string) :
  values <> [] -> parseCSVLine (join "," (map csvCell values)) = values.
Proof.
  destruct values as [| v values]; [congruence |]. intros _.
  unfold parseCSVLine. now rewrite parseCSVLoop_row.
Qed.

Lemma parseCSVLine_csvLine (row : CSVTimeEntry.t) :
  parseCSVLine (csvLine row) = rowFields row.
Proof.
  unfold csvLine, rowFields.
  rewrite <- (parseCSVLine_row (map (getField row) expectedHeaders)) by discriminate.
  now rewrite map_map.
Qed.

(** * Decoding rows *)

(** C7 -- Quote-aware field decoding.  The splitter gives the track of
    [quotedRow] back from its encoded form, its two double quotes
    included, but the decoder then deletes every double quote from the
    value: the row is accepted with the track [Say hi], and so is the
    staged entry. *)
Theorem importFromCSV_drops_literal_quotes :
  includes quoteChar quotedTrack = true
  /\ parseCSVLine (csvLine quotedRow) = rowFields quotedRow
  /\ nth 1 (parseCSVLine (csvLine quotedRow)) EmptyString = quotedTrack
  /\ (exists row, readRow expectedHeaders (csvLine quotedRow) = RowAccepted row
                  /\ CSVTimeEntry.track row = "Say hi")
  /\ map TimeEntry.circuit
         (pendingImportData (fst (importFromCSV sampleOracle quotedCSV emptyStore)))
     = ["Say hi"].
Proof.
  split; [reflexivity |]. split; [apply parseCSVLine_csvLine |].
  split; [now rewrite parseCSVLine_csvLine |].
  split; [eexists; split; reflexivity | reflexivity].
Qed.

(** What [readRow] does with a row, case by case. *)
Lemma readRow_cases (headers : list string) (line : string) :
  let values := parseCSVLine line in
  let csvEntry := mapValues headers values in
  let complete :=
    truthy (CSVTimeEntry.track csvEntry) && truthy (CSVTimeEntry.character csvEntry)
    && truthy (CSVTimeEntry.race_time csvEntry) in
  readRow headers line
  = if negb (length values =? length headers)%nat then RowSkipped
    else if negb complete then RowRejected MissingRequiredFields
    else if negb (lenientTimeRegex (CSVTimeEntry.race_time csvEntry))
    then RowRejected InvalidTimeFormat
    else RowAccepted csvEntry.
Proof.
  unfold readRow. simpl.
  destruct (length (parseCSVLine line) =? length headers)%nat; simpl; [| reflexivity].
  destruct (truthy (CSVTimeEntry.track _)), (truthy (CSVTimeEntry.character _)),
    (truthy (CSVTimeEntry.race_time _)); reflexivity.
Qed.

(** A row is dropped exactly when its field count differs from the
    header's, a required field is empty or the time fails the lenient
    grammar; it is counted as an error only in the last two cases. *)
Lemma readRow_dropped (headers : list string) (line : string) :
  let values := parseCSVLine line in
  let csvEntry := mapValues headers values in
  (dropsRow (readRow headers line) = true <->
     length values <> length headers
     \/ truthy (CSVTimeEntry.track csvEntry) = false
     \/ truthy (CSVTimeEntry.character csvEntry) = false
     \/ truthy (CSVTimeEntry.race_time csvEntry) = false
     \/ lenientTimeRegex (CSVTimeEntry.race_time csvEntry) = false)
  /\ (countsAsError (readRow headers line) = true <->
        length values = length headers
        /\ (truthy (CSVTimeEntry.track csvEntry) = false
            \/ truthy (CSVTimeEntry.character csvEntry) = false
            \/ truthy (CSVTimeEntry.race_time csvEntry) = false
            \/ lenientTimeRegex (CSVTimeEntry.race_time csvEntry) = false)).
Proof.
  intros values csvEntry. rewrite readRow_cases. fold values. fold csvEntry.
  destruct (Nat.eqb_spec (length values) (length headers)) as [He | Hne]; simpl.
  - destruct (truthy (CSVTimeEntry.track csvEntry)),
      (truthy (CSVTimeEntry.character csvEntry)),
      (truthy (CSVTimeEntry.race_time csvEntry)),
      (lenientTimeRegex (CSVTimeEntry.race_time csvEntry)); simpl; intuition congruence.
  - intuition congruence.
Qed.

(** One row changes the error count by one when it counts as an error,
    and never stops the loop. *)
Lemma decodeRow_errors (oracle : Oracle) (headers : list string) (d : Decoding) (line : string) :
  length (errors (decodeRow oracle headers d line))
  = (length (errors d) + if countsAsError (readRow headers line) then 1 else 0)%nat.
Proof.
  unfold decodeRow. destruct (readRow headers line) as [| e | csvEntry]; simpl.
  - lia.
  - rewrite length_app. simpl. lia.
  - destruct (csvToTimeEntry oracle (registry d) csvEntry). simpl. lia.
Qed.

(** A header without one of the six names stops the import: nothing is
    staged and the store is as before. *)
Lemma importFromCSV_header_mismatch (oracle : Oracle) (csvText headerLine : string)
    (row : string) (rows : list string) (st : Store) :
  csvLines csvText = headerLine :: row :: rows ->
  hasAllHeaders (csvHeaders headerLine) = false ->
  importFromCSV oracle csvText st = (st, HeaderMismatch).
Proof.
  intros Hl Hh. unfold importFromCSV. rewrite Hl, Hh. reflexivity.
Qed.

(** C2 -- CSV decode error handling.  The row with three fields of
    [shortRowCSV] is dropped without a message: the other row is staged
    and the error count of the staged import is 0, not 1. *)
Theorem importFromCSV_miscounts_short_row :
  csvLines shortRowCSV
  = ["time_of_entry,track,character,outfit,kart,race_time";
     "2024-01-15T10:35:00.000Z,Rainbow Road,Luigi,Luigi,Standard Bike,2:45.123";
     "2024-01-15T11:00:00.000Z,Mario Circuit,Mario"]
  /\ hasAllHeaders (csvHeaders "time_of_entry,track,character,outfit,kart,race_time") = true
  /\ length (parseCSVLine "2024-01-15T11:00:00.000Z,Mario Circuit,Mario") = 3%nat
  /\ length (csvHeaders "time_of_entry,track,character,outfit,kart,race_time") = 6%nat
  /\ readRow (csvHeaders "time_of_entry,track,character,outfit,kart,race_time")
              "2024-01-15T11:00:00.000Z,Mario Circuit,Mario" = RowSkipped
  /\ snd (importFromCSV sampleOracle shortRowCSV emptyStore) = Staged
  /\ length (pendingImportData (fst (importFromCSV sampleOracle shortRowCSV emptyStore))) = 1%nat
  /\ importErrorCount (fst (importFromCSV sampleOracle shortRowCSV emptyStore)) = 0%nat.
Proof. repeat split; vm_compute; reflexivity. Qed.

(** * The registry during decoding *)

Lemma findByAttributes_Some (ps : list Profile.t) (e : CSVTimeEntry.t) (p : Profile.t) :
  findByAttributes ps e = Some p -> In p ps /\ sameAttributes p e.
Proof.
  intros H. apply find_some in H as [Hin H]. split; [assumption |].
  rewrite !andb_true_iff, !bool_decide_eq_true in H. unfold sameAttributes. tauto.
Qed.

Lemma findByAttributes_None (ps : list Profile.t) (e : CSVTimeEntry.t) :
  findByAttributes ps e = None -> forall p, In p ps -> ~ sameAttributes p e.
Proof.
  intros H p Hin [H1 [H2 H3]]. apply (find_none _ _ H) in Hin.
  rewrite !andb_false_iff, !bool_decide_eq_false in Hin. tauto.
Qed.

Lemma synthesizedProfile_attributes (oracle : Oracle) (n : nat) (e : CSVTimeEntry.t) :
  sameAttributes (synthesizedProfile oracle n e) e.
Proof. repeat split. Qed.

(** [csvToTimeEntry] leaves the registry as it is when a profile has the
    attributes of the row, and appends a new profile when none has. *)
Lemma csvToTimeEntry_registry (oracle : Oracle) (ps : list Profile.t) (e : CSVTimeEntry.t) :
  exists added p,
    fst (csvToTimeEntry oracle ps e) = ps ++ added
    /\ In p (ps ++ added) /\ sameAttributes p e
    /\ TimeEntry.profileId (snd (csvToTimeEntry oracle ps e)) = Profile.id p
    /\ (findByAttributes ps e = None ->
        added = [synthesizedProfile oracle (length ps) e]).
Proof.
  unfold csvToTimeEntry. destruct (findByAttributes ps e) as [p |] eqn:E.
  - apply findByAttributes_Some in E as [Hin Hp]. exists [], p. simpl.
    rewrite app_nil_r. repeat split; [assumption | apply Hp.. | discriminate].
  - exists [synthesizedProfile oracle (length ps) e], (synthesizedProfile oracle (length ps) e).
    simpl. repeat split. apply in_or_app. right. now left.
Qed.

Lemma decodeRow_registry (oracle : Oracle) (headers : list string) (d : Decoding)
    (line : string) :
  exists added,
    registry (decodeRow oracle headers d line) = registry d ++ added
    /\ forall e, readRow headers line = RowAccepted e ->
         (exists p, In p (registry d ++ added) /\ sameAttributes p e)
         /\ (findByAttributes (registry d) e = None ->
             added = [synthesizedProfile oracle (length (registry d)) e]).
Proof.
  unfold decodeRow. destruct (readRow headers line) as [| err | csvEntry].
  - exists []. rewrite app_nil_r. split; [reflexivity | discriminate].
  - exists []. rewrite app_nil_r. split; [reflexivity | discriminate].
  - destruct (csvToTimeEntry_registry oracle (registry d) csvEntry)
      as (added & p & Hr & Hin & Hp & _ & Hnew).
    destruct (csvToTimeEntry oracle (registry d) csvEntry) as [ps t]. simpl in *.
    exists added. split; [assumption |]. intros e He. inversion He; subst. eauto.
Qed.

Lemma decodeRows_registry (oracle : Oracle) (headers : list string) (rows : list string)
    (d : Decoding) :
  exists added,
    registry (fold_left (decodeRow oracle headers) rows d) = registry d ++ added
    /\ forall line e, In line rows -> readRow headers line = RowAccepted e ->
         exists p, In p (registry d ++ added) /\ sameAttributes p e.
Proof.
  revert d. induction rows as [| row rows IH]; intros d; simpl.
  - exists []. rewrite app_nil_r. split; [reflexivity | intros ? ? []].
  - destruct (decodeRow_registry oracle headers d row) as (a1 & H1 & Hrow).
    destruct (IH (decodeRow oracle headers d row)) as (a2 & H2 & Hrows).
    exists (a1 ++ a2). rewrite H2, H1, <- app_assoc. split; [reflexivity |].
    intros line e [<- | Hin] He.
    + destruct (Hrow e He) as [(p & Hp & Hs) _]. exists p. split; [| assumption].
      rewrite app_assoc. apply in_or_app. now left.
    + rewrite H1, <- app_assoc in Hrows. eauto.
Qed.

Lemma decodeRows_added (oracle : Oracle) (headers : list string) (rows : list string)
    (ps : list Profile.t) :
  exists added,
    registry (decodeRows oracle headers rows ps) = ps ++ added
    /\ forall line e, In line rows -> readRow headers line = RowAccepted e ->
         exists p, In p (ps ++ added) /\ sameAttributes p e.
Proof. exact (decodeRows_registry oracle headers rows (mkDecoding ps [] [])). Qed.

(** The import, once the header is accepted. *)
Lemma importFromCSV_decoded (oracle : Oracle) (csvText headerLine row : string)
    (rows : list string) (st : Store) :
  csvLines csvText = headerLine :: row :: rows ->
  hasAllHeaders (csvHeaders headerLine) = true ->
  let d := decodeRows oracle (csvHeaders headerLine) (row :: rows) (profiles st) in
  importFromCSV oracle csvText st
  = match newTimes d with
    | [] => (set_profiles (registry d) st, NoValidTimes (length (errors d)))
    | _ :: _ =>
        (set_showImportConfirmation true
           (set_pending (newTimes d) (length (errors d)) (set_profiles (registry d) st)),
         Staged)
    end.
Proof. intros Hl Hh. unfold importFromCSV. rewrite Hl, Hh. reflexivity. Qed.

Lemma importFromCSV_decoded_fields (oracle : Oracle) (csvText headerLine row : string)
    (rows : list string) (st : Store) :
  csvLines csvText = headerLine :: row :: rows ->
  hasAllHeaders (csvHeaders headerLine) = true ->
  profiles (fst (importFromCSV oracle csvText st))
  = registry (decodeRows oracle (csvHeaders headerLine) (row :: rows) (profiles st))
  /\ times (fst (importFromCSV oracle csvText st)) = times st.
Proof.
  intros Hl Hh. rewrite (importFromCSV_decoded _ _ _ _ _ _ Hl Hh).
  destruct (newTimes _); split; reflexivity.
Qed.

(** C10 -- The decoder registers profiles before the user confirms.  The
    registry after decoding is the registry before it followed by the
    profiles created on the way; every accepted row whose character,
    outfit and kart match no profile of the registry has its profile
    among them; and cancelling the staged import leaves the ledger as it
    was but keeps those profiles. *)
Theorem importFromCSV_registers_profiles (oracle : Oracle) (csvText : string) (st : Store) :
  exists added,
    profiles (fst (importFromCSV oracle csvText st)) = profiles st ++ added
    /\ times (cancelImport (fst (importFromCSV oracle csvText st))) = times st
    /\ profiles (cancelImport (fst (importFromCSV oracle csvText st))) = profiles st ++ added
    /\ pendingImportData (cancelImport (fst (importFromCSV oracle csvText st))) = []
    /\ forall headerLine rows line csvEntry,
         csvLines csvText = headerLine :: rows ->
         hasAllHeaders (csvHeaders headerLine) = true ->
         In line rows ->
         readRow (csvHeaders headerLine) line = RowAccepted csvEntry ->
         findByAttributes (profiles st) csvEntry = None ->
         exists p, In p added /\ sameAttributes p csvEntry.
Proof.
  destruct (csvLines csvText) as [| headerLine [| row rows]] eqn:Hlines.
  - exists []. unfold importFromCSV. rewrite Hlines. simpl. rewrite app_nil_r.
    repeat split. discriminate.
  - exists []. unfold importFromCSV. rewrite Hlines. simpl. rewrite app_nil_r.
    repeat split. intros ? ? ? ? H. inversion H; subst. intros _ [].
  - destruct (hasAllHeaders (csvHeaders headerLine)) eqn:Hh.
    + destruct (importFromCSV_decoded_fields oracle _ _ _ _ st Hlines Hh) as [Hp Ht].
      destruct (decodeRows_added oracle (csvHeaders headerLine) (row :: rows) (profiles st))
        as (added & Hreg & Hrows).
      exists added. simpl. rewrite Hp, Ht, Hreg. repeat split.
      intros h rs line e H. inversion H; subst. intros _ Hin He Hnone.
      destruct (Hrows line e Hin He) as (p & Hp' & Hs). exists p. split; [| assumption].
      apply in_app_or in Hp' as [Hp' | Hp']; [| assumption].
      exfalso. exact (findByAttributes_None _ _ Hnone p Hp' Hs).
    + exists []. unfold importFromCSV. rewrite Hlines, Hh. simpl. rewrite app_nil_r.
      repeat split. intros h rs line e H. inversion H; subst. congruence.
Qed.

(** Decoding the sample file into an empty store registers a profile for
    Luigi; cancelling keeps it and leaves the ledger empty. *)
Lemma importFromCSV_registers_profiles_witness :
  times (cancelImport (fst (importFromCSV sampleOracle sampleCSV emptyStore))) = []
  /\ map Profile.character
         (profiles (cancelImport (fst (importFromCSV sampleOracle sampleCSV emptyStore))))
     = ["Luigi"]
  /\ exists added p,
       profiles (fst (importFromCSV sampleOracle sampleCSV emptyStore)) = [] ++ added
       /\ In p added /\ Profile.character p = "Luigi".
Proof.
  split; [reflexivity |]. split; [reflexivity |].
  destruct (importFromCSV_registers_profiles sampleOracle sampleCSV emptyStore)
    as (added & Hp & _ & _ & _ & Hrows).
  destruct (Hrows "time_of_entry,track,character,outfit,kart,race_time"
              ["2024-01-15T10:35:00.000Z,Rainbow Road,Luigi,Luigi,Standard Bike,2:45.123"]
              "2024-01-15T10:35:00.000Z,Rainbow Road,Luigi,Luigi,Standard Bike,2:45.123"
              (CSVTimeEntry.mk "2024-01-15T10:35:00.000Z" "Rainbow Road" "Luigi" "Luigi"
                               "Standard Bike" "2:45.123")
              eq_refl eq_refl (or_introl eq_refl) eq_refl eq_refl)
    as (p & Hin & Hc & _).
  exists added, p. repeat split; assumption.
Defined.

(** * Encoding, then decoding *)

#[local] Arguments Ascii.eqb : simpl never.













Lemma orElse_Some (s b : string) : truthy s = true -> orElse (Some s) b = s.
Proof. intros H. simpl. now rewrite H. Qed.





Lemma csvToTimeEntry_decodes (oracle : Oracle) (ps : list Profile.t) (row : CSVTimeEntry.t) :
  decodes (fst (csvToTimeEntry oracle ps row)) (snd (csvToTimeEntry oracle ps row)) row.
Proof.
  unfold csvToTimeEntry. destruct (findByAttributes ps row) as [p |] eqn:E; simpl.
  - apply findByAttributes_Some in E as [Hin Hp]. repeat split. now exists p.
  - repeat split. exists (synthesizedProfile oracle (length ps) row).
    split; [apply in_or_app; right; now left | repeat split].
Qed.





(** * Sorting *)

#[local] Arguments gt : simpl never.

Section StableSort.
Context {A : Type}.
Variable cmp : A -> A -> number.
Variable leb : A -> A -> bool.
Variable dom : A -> Prop.

(** The comparator puts [x] after [y] exactly when [x] is not below [y]. *)
Hypothesis cmp_leb :
  forall x y, dom x -> dom y -> gt (cmp x y) (ofZ 0) = negb (leb x y).
Hypothesis leb_total : forall x y, dom x -> dom y -> leb x y = false -> leb y x = true.
Hypothesis leb_trans :
  forall x y z, dom x -> dom y -> dom z -> leb x y = true -> leb y z = true -> leb x z = true.

Lemma insertBy_Permutation (x : A) (l : list A) : Permutation (insertBy cmp x l) (x :: l).
Proof using Type.
  induction l as [| y l IH]; simpl; [reflexivity |].
  destruct (gt (cmp x y) (ofZ 0)); [| reflexivity].
  rewrite IH. apply perm_swap.
Qed.

Lemma sortBy_Permutation (l : list A) : Permutation (sortBy cmp l) l.
Proof using Type.
  induction l as [| x l IH]; simpl; [reflexivity |].
  rewrite insertBy_Permutation. now constructor.
Qed.

Lemma insertBy_sorted (x : A) (l : list A) :
  dom x -> List.Forall dom l ->
  StronglySorted (fun a b => leb a b = true) l ->
  StronglySorted (fun a b => leb a b = true) (insertBy cmp x l).
Proof using cmp_leb leb_total leb_trans.
  intros Hx Hl Hs. induction Hs as [| y l Hs IH Hy]; simpl.
  - repeat constructor.
  - apply List.Forall_cons_iff in Hl as [Hdy Hl].
    rewrite (cmp_leb x y Hx Hdy). destruct (leb x y) eqn:E; simpl.
    + constructor; [now constructor |]. constructor; [assumption |].
      rewrite List.Forall_forall in Hy, Hl |- *. intros z Hz.
      apply (leb_trans x y z); auto.
    + constructor; [now apply IH |].
      rewrite (insertBy_Permutation x l). constructor; [| assumption].
      now apply leb_total.
Qed.

Lemma sortBy_sorted (l : list A) :
  List.Forall dom l -> StronglySorted (fun a b => leb a b = true) (sortBy cmp l).
Proof using cmp_leb leb_total leb_trans.
  induction 1 as [| x l Hx Hl IH]; simpl; [constructor |].
  apply insertBy_sorted; [assumption | | assumption].
  now rewrite (sortBy_Permutation l).
Qed.

(** Insertion keeps the order of the elements that tie with [x0]. *)
Lemma insertBy_stable (x0 x : A) (l : list A) :
  dom x0 -> dom x -> List.Forall dom l ->
  List.filter (fun y => leb x0 y && leb y x0) (insertBy cmp x l)
  = List.filter (fun y => leb x0 y && leb y x0) (x :: l).
Proof using cmp_leb leb_trans.
  intros H0 Hx Hl. induction Hl as [| y l Hy Hl IH]; [reflexivity |].
  simpl insertBy. rewrite (cmp_leb x y Hx Hy).
  destruct (leb x y) eqn:E; simpl negb; cbv iota; [reflexivity |].
  simpl List.filter at 1. rewrite IH. simpl.
  destruct (leb x0 y && leb y x0) eqn:Ey, (leb x0 x && leb x x0) eqn:Ex; try reflexivity.
  apply andb_true_iff in Ey as [Ey1 Ey2], Ex as [Ex1 Ex2].
  rewrite (leb_trans x x0 y) in E; auto. discriminate.
Qed.

Lemma sortBy_stable (x0 : A) (l : list A) :
  dom x0 -> List.Forall dom l ->
  List.filter (fun y => leb x0 y && leb y x0) (sortBy cmp l)
  = List.filter (fun y => leb x0 y && leb y x0) l.
Proof using cmp_leb leb_trans.
  intros H0 Hl. induction Hl as [| x l Hx Hl IH]; [reflexivity |].
  simpl sortBy. rewrite insertBy_stable; [| assumption | assumption |].
  - simpl. now rewrite IH.
  - now rewrite (sortBy_Permutation l).
Qed.
End StableSort.

(** ** The comparator of the ranking *)





(** ** Grouping by circuit *)

Lemma lookupKey_app {A : Type} (k k' : string) (v : A) (g : list (string * A)) :
  lookupKey k (g ++ [(k', v)])
  = match lookupKey k g with
    | Some x => Some x
    | None => if String.eqb k' k then Some v else None
    end.
Proof.
  induction g as [| [k0 v0] g IH]; simpl; [reflexivity |].
  destruct (String.eqb k0 k); [reflexivity | exact IH].
Qed.

Lemma lookupKey_updateKey {A : Type} (k k' : string) (f : A -> A) (g : list (string * A)) :
  lookupKey k (updateKey k' f g)
  = if String.eqb k' k then f <$> lookupKey k g else lookupKey k g.
Proof.
  induction g as [| [k0 v0] g IH]; simpl.
  - now destruct (String.eqb k' k).
  - destruct (String.eqb_spec k0 k') as [-> | Hne]; simpl.
    + destruct (String.eqb k' k); reflexivity.
    + rewrite IH. destruct (String.eqb_spec k0 k) as [-> | Hne2];
        destruct (String.eqb_spec k' k) as [-> | Hne3]; congruence.
Qed.

Lemma lookupKey_In {A : Type} (k : string) (v : A) (g : list (string * A)) :
  lookupKey k g = Some v -> In (k, v) g.
Proof.
  induction g as [| [k0 v0] g IH]; simpl; [discriminate |].
  destruct (String.eqb_spec k0 k) as [-> | Hne].
  - intros H. inversion H. now left.
  - intros H. right. now apply IH.
Qed.

Lemma concat_updateKey {A : Type} (k : string) (x : A) (l : list A) (g : list (string * list A)) :
  lookupKey k g = Some l ->
  Permutation (concat (map snd (updateKey k (fun l => l ++ [x]) g)))
              (concat (map snd g) ++ [x]).
Proof.
  induction g as [| [k0 v0] g IH]; simpl; [discriminate |].
  destruct (String.eqb_spec k0 k) as [-> | Hne]; simpl.
  - intros _. rewrite <- !app_assoc. apply Permutation_app_head, Permutation_app_comm.
  - intros H. rewrite (IH H). now rewrite app_assoc.
Qed.

Lemma entriesOf_snoc (c : string) (pre : list TimeEntry.t) (t : TimeEntry.t) :
  entriesOf c (pre ++ [t])
  = entriesOf c pre ++ (if String.eqb (TimeEntry.circuit t) c then [t] else []).
Proof.
  unfold entriesOf. rewrite filter_app. f_equal.
  destruct (String.eqb_spec (TimeEntry.circuit t) c) as [E | E].
  - now rewrite filter_cons_True.
  - now rewrite filter_cons_False.
Qed.

(** The groups hold, for each circuit of the ledger, its entries in
    ledger order; together they are the ledger. *)
Lemma circuitGroups_spec (times : list TimeEntry.t) :
  List.Forall (fun t => inherited (TimeEntry.circuit t) = false) times ->
  exists g,
    circuitGroups times = Some g
    /\ (forall c, lookupKey c g
                  = match entriesOf c times with [] => None | l => Some l end)
    /\ Permutation (concat (map snd g)) times.
Proof.
  unfold circuitGroups. induction times as [| t pre IH] using rev_ind; intros Hall.
  - exists []. repeat split. simpl. constructor.
  - apply List.Forall_app in Hall as [Hpre Ht]. inversion Ht as [| ? ? Hinh _]; subst.
    destruct (IH Hpre) as (g & Hg & Hlook & Hperm).
    rewrite fold_left_app, Hg. simpl. rewrite (Hlook (TimeEntry.circuit t)).
    destruct (entriesOf (TimeEntry.circuit t) pre) as [| e l] eqn:Hgroup.
    + rewrite Hinh. eexists. split; [reflexivity |]. split.
      * intros c. rewrite lookupKey_app, Hlook, entriesOf_snoc.
        destruct (String.eqb_spec (TimeEntry.circuit t) c) as [<- | Hne].
        -- now rewrite Hgroup.
        -- rewrite app_nil_r. now destruct (entriesOf c pre).
      * rewrite map_app, concat_app. simpl. rewrite ?app_nil_r. now rewrite Hperm.
    + eexists. split; [reflexivity |]. split.
      * intros c. rewrite lookupKey_updateKey, Hlook, entriesOf_snoc.
        destruct (String.eqb_spec (TimeEntry.circuit t) c) as [<- | Hne].
        -- now rewrite Hgroup.
        -- rewrite app_nil_r. now destruct (entriesOf c pre).
      * rewrite (concat_updateKey _ _ (e :: l)); [now rewrite Hperm |].
        now rewrite Hlook, Hgroup.
Qed.

(** ** The rankings map *)













(** A circuit named like a property that the groups object inherits makes
    the ranking throw: the entry cannot be pushed. *)
Lemma timeRankings_inherited_circuit :
  timeRankings [TimeEntry.mk "1:20.000" "constructor" "profile_1"
                             "2024-01-15T10:30:00.000Z" (Some "Standard Kart") (Some "Mario")]
  = None.
Proof. reflexivity. Qed.

(** Every time that the import accepts converts to a finite number. *)
Lemma readRow_finite (headers : list string) (line : string) (csvEntry : CSVTimeEntry.t) :
  readRow headers line = RowAccepted csvEntry ->
  exists q, convertTimeToSeconds (CSVTimeEntry.race_time csvEntry) = Fin q.
Proof.
  rewrite readRow_cases. cbv zeta.
  destruct (negb (length (parseCSVLine line) =? length headers)%nat); [discriminate |].
  destruct (negb _); [discriminate |].
  destruct (lenientTimeRegex _) eqn:E; simpl; [| discriminate].
  intros H. inversion H; subst. now apply convert_lenient_finite.
Qed.

(** * Asset paths *)

#[local] Arguments startsWith : simpl never.

Lemma startsWith_underscore (b : ascii) (r : string) :
  startsWith "_" (String b r) = Ascii.eqb b underscoreChar.
Proof.
  change (startsWith "_" (String b r)) with (Ascii.eqb underscoreChar b && true).
  now rewrite andb_true_r, Ascii.eqb_sym.
Qed.

Lemma replaceDisallowed_chars (s : string) : allFileNameChars (replaceDisallowed s) = true.
Proof.
  induction s as [| c s IH]; simpl; [reflexivity |].
  rewrite IH, andb_true_r. now destruct (isFileNameChar c) eqn:E.
Qed.

Lemma collapseUnderscores_head (s : string) :
  startsWith "_" (collapseUnderscores s) = startsWith "_" s.
Proof.
  induction s as [| c s IH]; [reflexivity |]. simpl.
  destruct (Ascii.eqb c underscoreChar && startsWith "_" s) eqn:E.
  - rewrite IH. apply andb_true_iff in E as [Ec Es].
    now rewrite Es, startsWith_underscore.
  - now rewrite !startsWith_underscore.
Qed.

Lemma collapseUnderscores_chars (s : string) :
  allFileNameChars s = true -> allFileNameChars (collapseUnderscores s) = true.
Proof.
  induction s as [| c s IH]; simpl; [reflexivity |].
  intros H. apply andb_true_iff in H as [Hc Hs].
  destruct (Ascii.eqb c underscoreChar && startsWith "_" s); simpl; [auto |].
  now rewrite Hc, IH.
Qed.

Lemma collapseUnderscores_single (s : string) : noDoubleUnderscore (collapseUnderscores s) = true.
Proof.
  induction s as [| c s IH]; simpl; [reflexivity |].
  destruct (Ascii.eqb c underscoreChar && startsWith "_" s) eqn:E; [assumption |].
  simpl. now rewrite collapseUnderscores_head, E, IH.
Qed.

Lemma dropLastUnderscore_chars (s : string) :
  allFileNameChars s = true -> allFileNameChars (dropLastUnderscore s) = true.
Proof.
  induction s as [| c s IH]; simpl; [reflexivity |].
  intros H. apply andb_true_iff in H as [Hc Hs].
  destruct s as [| d s]; [destruct (Ascii.eqb c underscoreChar); simpl; now rewrite ?Hc |].
  change (isFileNameChar c && allFileNameChars (dropLastUnderscore (String d s)) = true).
  now rewrite Hc, IH.
Qed.

Lemma dropLastUnderscore_head (s : string) :
  startsWith "_" s = false -> startsWith "_" (dropLastUnderscore s) = false.
Proof.
  destruct s as [| c [| d s]]; simpl; try reflexivity.
  - destruct (Ascii.eqb c underscoreChar); [reflexivity | now simpl].
  - now rewrite !startsWith_underscore.
Qed.

Lemma dropLastUnderscore_single (s : string) :
  noDoubleUnderscore s = true ->
  noDoubleUnderscore (dropLastUnderscore s) = true
  /\ endsWithUnderscore (dropLastUnderscore s) = false.
Proof.
  induction s as [| c s IH]; [now split |].
  destruct s as [| d s].
  - intros _. simpl. destruct (Ascii.eqb c underscoreChar) eqn:E; simpl; now rewrite ?E.
  - intros H. change (noDoubleUnderscore (String c (String d s)))
      with (negb (Ascii.eqb c underscoreChar && startsWith "_" (String d s))
            && noDoubleUnderscore (String d s)) in H.
    apply andb_true_iff in H as [Hcd Hs]. destruct (IH Hs) as [IH1 IH2].
    change (dropLastUnderscore (String c (String d s)))
      with (String c (dropLastUnderscore (String d s))).
    rewrite startsWith_underscore in Hcd.
    destruct (dropLastUnderscore (String d s)) as [| e r] eqn:Hdrop.
    + (* the rest was a single underscore *)
      assert (Hd : Ascii.eqb d underscoreChar = true /\ s = EmptyString).
      { destruct s as [| d' s']; simpl in Hdrop.
        - destruct (Ascii.eqb d underscoreChar); [now split | discriminate].
        - discriminate. }
      destruct Hd as [Hd ->]. rewrite Hd, andb_true_r in Hcd.
      apply negb_true_iff in Hcd. simpl. now rewrite Hcd.
    + assert (He : e = d).
      { destruct s as [| d' s']; simpl in Hdrop.
        - destruct (Ascii.eqb d underscoreChar); [discriminate | now inversion Hdrop].
        - now inversion Hdrop. }
      subst e. split.
      * change (negb (Ascii.eqb c underscoreChar && startsWith "_" (String d r))
                && noDoubleUnderscore (String d r) = true).
        now rewrite startsWith_underscore, Hcd, IH1.
      * exact IH2.
Qed.

(** The file name has allowed characters only, no two underscores in a
    row and no underscore at either end. *)
Lemma fileNameOf_clean (name : string) : cleanFileName (fileNameOf name) = true.
Proof.
  unfold cleanFileName, fileNameOf, stripEdgeUnderscores.
  set (s := collapseUnderscores (replaceDisallowed name)).
  assert (Hc : allFileNameChars s = true)
    by apply collapseUnderscores_chars, replaceDisallowed_chars.
  assert (Hs : noDoubleUnderscore s = true) by apply collapseUnderscores_single.
  set (s1 := match s with
             | String c s' => if Ascii.eqb c underscoreChar then s' else s
             | EmptyString => EmptyString
             end).
  assert (H1 : allFileNameChars s1 = true /\ noDoubleUnderscore s1 = true
               /\ startsWith "_" s1 = false).
  { unfold s1. destruct s as [| c s']; [now repeat split |].
    simpl in Hc, Hs. apply andb_true_iff in Hc as [Hc1 Hc2], Hs as [Hs1 Hs2].
    destruct (Ascii.eqb c underscoreChar) eqn:E.
    - simpl in Hs1. apply negb_true_iff in Hs1. now repeat split.
    - repeat split; simpl; rewrite ?Hc1, ?Hc2, ?E, ?Hs2; try reflexivity.
      now rewrite startsWith_underscore. }
  destruct H1 as (H1 & H2 & H3). destruct (dropLastUnderscore_single s1 H2) as [H4 H5].
  now rewrite dropLastUnderscore_chars, H4, dropLastUnderscore_head, H5.
Qed.

Lemma replaceDisallowed_id (s : string) : allFileNameChars s = true -> replaceDisallowed s = s.
Proof.
  induction s as [| c s IH]; simpl; [reflexivity |].
  intros H. apply andb_true_iff in H as [Hc Hs]. now rewrite Hc, IH.
Qed.

Lemma collapseUnderscores_id (s : string) :
  noDoubleUnderscore s = true -> collapseUnderscores s = s.
Proof.
  induction s as [| c s IH]; simpl; [reflexivity |].
  intros H. apply andb_true_iff in H as [Hc Hs].
  apply negb_true_iff in Hc. now rewrite Hc, IH.
Qed.

Lemma dropLastUnderscore_id (s : string) :
  endsWithUnderscore s = false -> dropLastUnderscore s = s.
Proof.
  induction s as [| c s IH]; [reflexivity |].
  destruct s as [| d s]; simpl.
  - intros H. now rewrite H.
  - intros H. f_equal. now apply IH.
Qed.

Lemma fileNameOf_fixed (s : string) : cleanFileName s = true -> fileNameOf s = s.
Proof.
  unfold cleanFileName. rewrite !andb_true_iff, !negb_true_iff.
  intros [[[Hc Hd] Hh] He]. unfold fileNameOf, stripEdgeUnderscores.
  rewrite replaceDisallowed_id, collapseUnderscores_id by assumption.
  destruct s as [| c s']; [reflexivity |].
  rewrite startsWith_underscore in Hh. rewrite Hh. now apply dropLastUnderscore_id.
Qed.

(** X1 -- The file name that the character and vehicle paths and the two
    downloaders compute is made of letters, digits, hyphens and
    underscores only, never has two underscores in a row and never begins
    or ends with an underscore; computing it again changes nothing, and a
    name that already has this shape is its own file name.  The path that
    the component asks for is the folder followed by the file name that
    the downloader writes. *)
Theorem fileNameOf_normal_form (name : string) :
  cleanFileName (fileNameOf name) = true
  /\ fileNameOf (fileNameOf name) = fileNameOf name
  /\ getVehicleImagePath (fileNameOf name) = getVehicleImagePath name
  /\ getCharacterImagePath (fileNameOf name) = getCharacterImagePath name
  /\ createFilename (fileNameOf name) = createFilename name
  /\ getVehicleImagePath name = "/vehicles/" +:+ createFilename name
  /\ getCharacterImagePath name = "/characters/" +:+ createFilename name
  /\ (cleanFileName name = true -> fileNameOf name = name).
Proof.
  pose proof (fileNameOf_clean name) as H.
  pose proof (fileNameOf_fixed _ H) as Hid.
  unfold getVehicleImagePath, getCharacterImagePath, createFilename. rewrite Hid.
  repeat split; try assumption. apply fileNameOf_fixed.
Qed.

Lemma fileNameOf_normal_form_witness :
  fileNameOf "Baby Peach" = "Baby_Peach"
  /\ fileNameOf "Baby_Peach" = "Baby_Peach".
Proof.
  split; [reflexivity |].
  now apply (fileNameOf_normal_form "Baby_Peach").
Defined.

(** [circuitFileName] *)

Lemma includes_removeAll_same (c : ascii) (s : string) : includes c (removeAll c s) = false.
Proof.
  induction s as [| d s IH]; simpl; [reflexivity |].
  destruct (Ascii.eqb d c) eqn:E; [assumption |]. simpl. now rewrite E, IH.
Qed.

Lemma includes_removeAll_other (c d : ascii) (s : string) :
  includes c s = false -> includes c (removeAll d s) = false.
Proof.
  induction s as [| e s IH]; simpl; [reflexivity |].
  intros H. apply orb_false_iff in H as [He Hs].
  destruct (Ascii.eqb e d); simpl; [auto |]. now rewrite He, IH.
Qed.

Lemma hasWhitespace_removeAll (d : ascii) (s : string) :
  hasWhitespace s = false -> hasWhitespace (removeAll d s) = false.
Proof.
  induction s as [| e s IH]; simpl; [reflexivity |].
  intros H. apply orb_false_iff in H as [He Hs].
  destruct (Ascii.eqb e d); simpl; [auto |]. now rewrite He, IH.
Qed.

Lemma hasWhitespace_spacesToUnderscores (s : string) :
  hasWhitespace (spacesToUnderscores s) = false.
Proof.
  induction s as [| c s IH]; simpl; [reflexivity |].
  rewrite IH, orb_false_r. now destruct (isWhitespace c) eqn:E.
Qed.

Lemma spacesToUnderscores_id (s : string) :
  hasWhitespace s = false -> spacesToUnderscores s = s.
Proof.
  induction s as [| c s IH]; simpl; [reflexivity |].
  intros H. apply orb_false_iff in H as [Hc Hs]. now rewrite Hc, IH.
Qed.

(** X2 -- The file name of a circuit image holds no white space, no dot
    and no apostrophe, whatever the circuit is called, and a name that
    holds none of them is used as it is. *)
Theorem circuitFileName_shape (circuit : string) :
  hasWhitespace (circuitFileName circuit) = false
  /\ includes dotChar (circuitFileName circuit) = false
  /\ includes "'" (circuitFileName circuit) = false
  /\ getCircuitImagePath (circuitFileName circuit) = getCircuitImagePath circuit
  /\ (hasWhitespace circuit = false -> includes dotChar circuit = false ->
      includes "'" circuit = false -> circuitFileName circuit = circuit).
Proof.
  assert (Hfix : forall s, hasWhitespace s = false -> includes dotChar s = false ->
                           includes "'" s = false -> circuitFileName s = s).
  { intros s Hw Hd Ha. unfold circuitFileName.
    rewrite spacesToUnderscores_id by assumption.
    rewrite (removeAll_id dotChar) by assumption. now apply removeAll_id. }
  assert (H1 : hasWhitespace (circuitFileName circuit) = false).
  { unfold circuitFileName.
    apply hasWhitespace_removeAll, hasWhitespace_removeAll, hasWhitespace_spacesToUnderscores. }
  assert (H2 : includes dotChar (circuitFileName circuit) = false).
  { unfold circuitFileName. apply includes_removeAll_other, includes_removeAll_same. }
  assert (H3 : includes "'" (circuitFileName circuit) = false).
  { unfold circuitFileName. apply includes_removeAll_same. }
  split; [exact H1 |]. split; [exact H2 |]. split; [exact H3 |].
  split; [| apply Hfix].
  unfold getCircuitImagePath. now rewrite (Hfix _ H1 H2 H3).
Qed.

Lemma circuitFileName_shape_witness :
  getCircuitImagePath "Bowser's Castle" = "/circuits/Bowsers_Castle.png"
  /\ circuitFileName "Bowsers_Castle" = "Bowsers_Castle".
Proof.
  split; [reflexivity |].
  apply (circuitFileName_shape "Bowsers_Castle"); reflexivity.
Defined.


(** * The value of a time *)







(** * The input mask, again *)

Lemma allDigits_digitsOnly (v : string) : allDigits (digitsOnly v) = true.
Proof.
  induction v as [| c v IH]; simpl; [reflexivity |].
  destruct (isDigit c) eqn:E; [| assumption]. simpl. now rewrite E.
Qed.

Lemma substring_zero_all (n : nat) (s : string) :
  (String.length s <= n)%nat -> substring 0 n s = s.
Proof.
  revert n. induction s as [| c s IH]; intros [| n] H; simpl in *; try reflexivity; try lia.
  f_equal. apply IH. lia.
Qed.

Lemma substring_zero_length (n : nat) (s : string) :
  String.length (substring 0 n s) = Nat.min n (String.length s).
Proof.
  revert n. induction s as [| c s IH]; intros [| n]; simpl; try reflexivity.
  now rewrite IH.
Qed.

Lemma substring_zero_digits (n : nat) (s : string) :
  allDigits s = true -> allDigits (substring 0 n s) = true.
Proof.
  revert n. induction s as [| c s IH]; intros [| n] H; simpl in *; try reflexivity.
  apply andb_true_iff in H as [Hc Hs]. now rewrite Hc, IH.
Qed.

Lemma slice_limit (s : string) :
  slice s 0 (Some 7) = substring 0 (Nat.min 7 (String.length s)) s.
Proof.
  unfold slice. change (0 <? 0) with false. change (7 <? 0) with false. cbv beta iota.
  f_equal; lia.
Qed.

Lemma formatTimeString_limited (v : string) :
  let limited := slice (digitsOnly v) 0 (Some 7) in
  allDigits limited = true
  /\ String.length limited = Nat.min 7 (String.length (digitsOnly v))
  /\ formatTimeString v = formatTimeString limited.
Proof.
  intros limited.
  assert (Hd : allDigits limited = true).
  { unfold limited. rewrite slice_limit. apply substring_zero_digits, allDigits_digitsOnly. }
  assert (Hl : String.length limited = Nat.min 7 (String.length (digitsOnly v))).
  { unfold limited. rewrite slice_limit, substring_zero_length. lia. }
  split; [assumption |]. split; [assumption |].
  unfold formatTimeString. rewrite (digitsOnly_id limited Hd). cbv zeta.
  assert (Hs : slice limited 0 (Some 7) = limited).
  { rewrite slice_limit. apply substring_zero_all. lia. }
  rewrite Hs. fold limited.
  destruct (digitsOnly v) as [| c d] eqn:E.
  - reflexivity.
  - replace (String.length limited =? 0)%nat with false; [reflexivity |].
    symmetry. apply Nat.eqb_neq. rewrite Hl. simpl String.length. lia.
Qed.

Lemma secondsText_fixed (a b : ascii) :
  isDigit05 a = true -> isDigit b = true ->
  secondsText a b = String a (String b EmptyString).
Proof.
  intros Ha Hb. unfold secondsText.
  pose proof (digitValue05_bounds a Ha). pose proof (digitValue_bounds b Hb).
  destruct (Z.ltb_spec 59 (10 * digitValue a + digitValue b)); [lia | reflexivity].
Qed.

Lemma formatTimeString_digitsOnly (v : string) :
  formatTimeString (digitsOnly v) = formatTimeString v.
Proof.
  unfold formatTimeString. now rewrite (digitsOnly_id (digitsOnly v)) by apply allDigits_digitsOnly.
Qed.

Lemma isDigit_colon : isDigit colonChar = false.
Proof. reflexivity. Qed.

Lemma isDigit_dot : isDigit dotChar = false.
Proof. reflexivity. Qed.

Ltac split_digits Hd :=
  simpl in Hd;
  repeat match type of Hd with
         | _ && _ = true => let H := fresh "Hc" in apply andb_true_iff in Hd as [H Hd]
         end.

Ltac rewrite_digits :=
  repeat match goal with
         | H : isDigit _ = true |- _ => rewrite !H
         | H : isDigit05 _ = true |- _ => rewrite !H
         end.

Ltac mask_shape c1 c2 :=
  let a := fresh "a" in
  let b := fresh "b" in
  let Ha := fresh "Ha" in
  let Hb := fresh "Hb" in
  let Hs := fresh "Hs" in
  destruct (secondsText_shape c1 c2) as (a & b & Hs & Ha & Hb); [assumption | assumption |];
  rewrite Hs; rewrite ?append_cons, ?append_nil;
  pose proof (isDigit05_isDigit a Ha).

Lemma formatTimeString_strict (v : string) :
  strictTimeRegex (formatTimeString v) = (6 <=? String.length (digitsOnly v))%nat.
Proof.
  destruct (formatTimeString_limited v) as (Hd & Hl & ->).
  destruct (slice (digitsOnly v) 0 (Some 7))
    as [| c1 [| c2 [| c3 [| c4 [| c5 [| c6 [| c7 [| c8 r]]]]]]]];
    simpl String.length in Hl; split_digits Hd.
  - replace (String.length (digitsOnly v)) with 0%nat by lia. reflexivity.
  - replace (String.length (digitsOnly v)) with 1%nat by lia.
    rewrite mask_1 by assumption. simpl. now rewrite andb_false_r.
  - replace (String.length (digitsOnly v)) with 2%nat by lia.
    rewrite mask_2 by assumption. reflexivity.
  - replace (String.length (digitsOnly v)) with 3%nat by lia.
    rewrite mask_3 by assumption. mask_shape c2 c3.
    cbv [strictTimeRegex timeTail]. rewrite isDigit_colon. simpl. now rewrite andb_false_r.
  - replace (String.length (digitsOnly v)) with 4%nat by lia.
    rewrite mask_4 by assumption. reflexivity.
  - replace (String.length (digitsOnly v)) with 5%nat by lia.
    rewrite mask_5 by assumption. reflexivity.
  - replace (String.length (digitsOnly v)) with 6%nat by lia.
    rewrite mask_6 by assumption. mask_shape c2 c3.
    cbv [strictTimeRegex timeTail]. rewrite !Ascii.eqb_refl. rewrite_digits. reflexivity.
  - rewrite mask_7 by assumption. mask_shape c3 c4.
    cbv [strictTimeRegex timeTail]. rewrite !Ascii.eqb_refl. rewrite_digits.
    replace (6 <=? String.length (digitsOnly v))%nat with true
      by (symmetry; apply Nat.leb_le; lia).
    reflexivity.
  - exfalso. lia.
Qed.

(** X4 -- What the time field holds after an input event is accepted by
    the validator exactly when the typed text holds at least six digits;
    so a time is added exactly when, besides, a circuit and a combo are
    selected, and fewer than six digits are always refused. *)
Theorem formatTimeInput_valid (value now : string) (st : Store) :
  isValidTimeFormat (formatTimeString value) = (6 <=? String.length (digitsOnly value))%nat
  /\ addAccepted (formatTimeInput value st)
     = (6 <=? String.length (digitsOnly value))%nat
       && truthy (selectedCircuit st) && truthy (selectedProfileId st)
  /\ ((String.length (digitsOnly value) < 6)%nat ->
      addTime now (formatTimeInput value st) = (formatTimeInput value st, None))
  /\ ((6 <= String.length (digitsOnly value))%nat ->
      truthy (selectedCircuit st) = true -> truthy (selectedProfileId st) = true ->
      exists st' best t,
        addTime now (formatTimeInput value st) = (st', Some best)
        /\ times st' = times st ++ [t]
        /\ TimeEntry.time t = formatTimeString value).
Proof.
  assert (Hacc : addAccepted (formatTimeInput value st)
                 = (6 <=? String.length (digitsOnly value))%nat
                   && truthy (selectedCircuit st) && truthy (selectedProfileId st)).
  { unfold addAccepted, formatTimeInput. simpl. now rewrite formatTimeString_strict. }
  split; [now rewrite isValidTimeFormat_strict, formatTimeString_strict |].
  split; [exact Hacc |]. split.
  - intros Hlt. apply addTime_refused. rewrite Hacc.
    replace (6 <=? String.length (digitsOnly value))%nat with false; [reflexivity |].
    symmetry. apply Nat.leb_gt. lia.
  - intros Hle Hc Hp. rewrite addTime_accepted.
    + do 3 eexists. split; [reflexivity |]. split; reflexivity.
    + rewrite Hacc, Hc, Hp. replace (6 <=? String.length (digitsOnly value))%nat with true;
        [reflexivity |]. symmetry. apply Nat.leb_le. lia.
Qed.

Lemma formatTimeInput_valid_witness :
  addTime "2024-01-15T10:30:00.000Z" (formatTimeInput "1:3" firstAddStore)
  = (formatTimeInput "1:3" firstAddStore, None)
  /\ exists st' best t,
       addTime "2024-01-15T10:30:00.000Z" (formatTimeInput "1m32s456" firstAddStore)
       = (st', Some best)
       /\ times st' = times firstAddStore ++ [t]
       /\ TimeEntry.time t = formatTimeString "1m32s456".
Proof.
  split.
  - apply (formatTimeInput_valid "1:3" "2024-01-15T10:30:00.000Z" firstAddStore).
    simpl. lia.
  - apply (formatTimeInput_valid "1m32s456" "2024-01-15T10:30:00.000Z" firstAddStore);
      [simpl; lia | reflexivity | reflexivity].
Defined.

Lemma formatTimeString_fixed_digits (d : string) :
  allDigits d = true -> (String.length d <= 7)%nat ->
  formatTimeString (formatTimeString d) = formatTimeString d.
Proof.
  intros Hd Hl.
  destruct d as [| c1 [| c2 [| c3 [| c4 [| c5 [| c6 [| c7 [| c8 r]]]]]]]];
    simpl String.length in Hl; split_digits Hd; try (exfalso; lia).
  - reflexivity.
  - rewrite !mask_1 by assumption. reflexivity.
  - rewrite mask_2 by assumption. mask_shape c1 c2.
    rewrite <- formatTimeString_digitsOnly. simpl digitsOnly.
    rewrite ?isDigit_colon. rewrite_digits.
    rewrite mask_2 by assumption. now rewrite secondsText_fixed.
  - rewrite mask_3 by assumption. mask_shape c2 c3.
    rewrite <- formatTimeString_digitsOnly. simpl digitsOnly.
    rewrite ?isDigit_colon. rewrite_digits.
    rewrite mask_3 by assumption. now rewrite secondsText_fixed.
  - rewrite mask_4 by assumption.
    rewrite <- formatTimeString_digitsOnly. simpl digitsOnly.
    rewrite ?isDigit_colon, ?isDigit_dot. rewrite_digits.
    now rewrite mask_4.
  - rewrite mask_5 by assumption. mask_shape c1 c2.
    rewrite <- formatTimeString_digitsOnly. simpl digitsOnly.
    rewrite ?isDigit_colon, ?isDigit_dot. rewrite_digits.
    rewrite mask_5 by assumption. rewrite secondsText_fixed by assumption.
    now rewrite ?append_cons, ?append_nil.
  - rewrite mask_6 by assumption. mask_shape c2 c3.
    rewrite <- formatTimeString_digitsOnly. simpl digitsOnly.
    rewrite ?isDigit_colon, ?isDigit_dot. rewrite_digits.
    rewrite mask_6 by assumption. rewrite secondsText_fixed by assumption.
    now rewrite ?append_cons, ?append_nil.
  - rewrite mask_7 by assumption. mask_shape c3 c4.
    rewrite <- formatTimeString_digitsOnly. simpl digitsOnly.
    rewrite ?isDigit_colon, ?isDigit_dot. rewrite_digits.
    rewrite mask_7 by assumption. rewrite secondsText_fixed by assumption.
    now rewrite ?append_cons, ?append_nil.
Qed.

Lemma digitsOnly_append (a b : string) : digitsOnly (a +:+ b) = digitsOnly a +:+ digitsOnly b.
Proof.
  induction a as [| c a IH]; [now rewrite !append_nil |].
  rewrite append_cons. simpl. destruct (isDigit c); [| assumption].
  now rewrite append_cons, IH.
Qed.

(** X5 -- The input mask is idempotent: formatting a text that the mask
    produced gives it back, whatever was typed.  A time that the
    validator accepts is left as it is, so passing a valid time through
    the field again never changes it. *)
Theorem formatTimeString_idempotent (value : string) :
  formatTimeString (formatTimeString value) = formatTimeString value
  /\ (isValidTimeFormat value = true -> formatTimeString value = value).
Proof.
  split.
  - destruct (formatTimeString_limited value) as (Hd & Hl & ->).
    apply formatTimeString_fixed_digits; [assumption | lia].
  - rewrite isValidTimeFormat_strict. intros H.
    apply strict_inv in H as (m & a & b & x & y & z & -> & Hm & Hne & Hlen & Ha & Hb & Hx & Hy & Hz).
    pose proof (isDigit05_isDigit a Ha) as Ha'.
    rewrite <- formatTimeString_digitsOnly. unfold timeText.
    rewrite digitsOnly_append, (digitsOnly_id m Hm). simpl digitsOnly.
    rewrite ?isDigit_colon, ?isDigit_dot. rewrite_digits.
    destruct m as [| m1 [| m2 [| m3 r]]]; simpl in Hlen, Hne; try discriminate; try lia;
      split_digits Hm; rewrite ?append_cons, ?append_nil.
    + rewrite mask_6 by assumption. rewrite secondsText_fixed by assumption.
      now rewrite ?append_cons, ?append_nil.
    + rewrite mask_7 by assumption. rewrite secondsText_fixed by assumption.
      now rewrite ?append_cons, ?append_nil.
Qed.

Lemma formatTimeString_idempotent_witness :
  formatTimeString (formatTimeString "1a99b5") = ":1.995"
  /\ formatTimeString "1:32.456" = "1:32.456".
Proof.
  split; [reflexivity |].
  apply (formatTimeString_idempotent "1:32.456"). reflexivity.
Defined.

(** * Decoding, again *)

Lemma split_cons (sep : ascii) (s : string) : exists h t, split sep s = h :: t.
Proof.
  induction s as [| c s (h & t & IH)]; simpl; [now eexists; eexists |].
  destruct (Ascii.eqb c sep); [now eexists; eexists |].
  rewrite IH. now eexists; eexists.
Qed.

Lemma parseCSVLoop_split (line current : string) (result : list string) :
  includes quoteChar line = false ->
  parseCSVLoop line current false result
  = result ++ match split commaChar line with
              | h :: t => (current +:+ h) :: t
              | [] => [current]
              end.
Proof.
  revert current result. induction line as [| c rest IH]; intros current result H.
  - simpl. now rewrite append_empty_r.
  - simpl in H. apply orb_false_iff in H as [Hc Hrest].
    simpl parseCSVLoop. rewrite Hc. simpl split.
    destruct (Ascii.eqb c commaChar) eqn:Ecomma; simpl andb; cbv iota.
    + rewrite IH by assumption. rewrite append_empty_r, <- app_assoc. simpl.
      destruct (split_cons commaChar rest) as (h & t & ->). now rewrite append_nil.
    + rewrite IH by assumption.
      destruct (split_cons commaChar rest) as (h & t & ->).
      now rewrite append_assoc, append_cons, append_nil.
Qed.

(** X6 -- On a line without double quote the field parser gives what
    splitting the line at its commas gives: no field is trimmed and
    empty fields are kept. *)
Theorem parseCSVLine_unquoted (line : string) :
  includes quoteChar line = false -> parseCSVLine line = split commaChar line.
Proof.
  intros H. unfold parseCSVLine. rewrite parseCSVLoop_split by assumption.
  destruct (split_cons commaChar line) as (h & t & ->). now rewrite append_nil.
Qed.

Lemma parseCSVLine_unquoted_witness :
  parseCSVLine "a, b,,c" = ["a"; " b"; EmptyString; "c"].
Proof. now rewrite (parseCSVLine_unquoted "a, b,,c"). Defined.

(** X7 -- The field parser undoes the quoting of the encoder: a row of
    any cells, with commas, double quotes or newlines in them, encoded
    cell by cell and joined with commas, parses back to these cells, as
    many as were written; a cell that holds none of the three is written
    as it is. *)
Theorem parseCSVLine_inverts_csvCell (values : list string) :
  values <> [] ->
  parseCSVLine (join "," (map csvCell values)) = values
  /\ length (parseCSVLine (join "," (map csvCell values))) = length values
  /\ Forall (fun v => needsQuoting v = false -> csvCell v = v) values.
Proof.
  intros Hne. destruct values as [| v values]; [congruence |].
  assert (Hrow : parseCSVLine (join "," (map csvCell (v :: values))) = v :: values).
  { unfold parseCSVLine. now rewrite parseCSVLoop_row. }
  split; [exact Hrow |]. split; [now rewrite Hrow |].
  apply Forall_forall. intros x _ Hx. unfold csvCell. now rewrite Hx.
Qed.

Lemma parseCSVLine_inverts_csvCell_witness :
  parseCSVLine (join "," (map csvCell ["a,b"; quotedTrack; EmptyString]))
  = ["a,b"; quotedTrack; EmptyString].
Proof. now apply (parseCSVLine_inverts_csvCell ["a,b"; quotedTrack; EmptyString]). Defined.

Lemma decodeRow_accounting (oracle : Oracle) (headers : list string) (d : Decoding)
    (line : string) :
  let d' := decodeRow oracle headers d line in
  (length (newTimes d') + length (errors d')
   + (if skipsRow (readRow headers line) then 1 else 0)
   = length (newTimes d) + length (errors d) + 1)%nat.
Proof.
  unfold decodeRow. destruct (readRow headers line) as [| e | csvEntry]; simpl.
  - lia.
  - rewrite length_app. simpl. lia.
  - destruct (csvToTimeEntry oracle (registry d) csvEntry) as [ps t]. simpl.
    rewrite length_app. simpl. lia.
Qed.

Lemma decodeRows_accounting (oracle : Oracle) (headers : list string) (rows : list string)
    (d : Decoding) :
  let d' := fold_left (decodeRow oracle headers) rows d in
  (length (newTimes d') + length (errors d')
   + length (List.filter (fun line => skipsRow (readRow headers line)) rows)
   = length (newTimes d) + length (errors d) + length rows)%nat.
Proof.
  revert d. induction rows as [| row rows IH]; intros d; simpl; [lia |].
  specialize (IH (decodeRow oracle headers d row)). simpl in IH.
  pose proof (decodeRow_accounting oracle headers d row) as Hrow. simpl in Hrow.
  destruct (skipsRow (readRow headers row)); simpl; lia.
Qed.

(** X8 -- Every data row of an imported file is accounted for: it is
    staged, or counted as an error, or skipped without a message because
    its number of fields is not the number of columns of the header.  The
    count of errors shown to the user therefore misses exactly the rows
    of the wrong width. *)
Theorem importFromCSV_accounting (oracle : Oracle) (csvText headerLine : string)
    (rows : list string) (st : Store) :
  csvLines csvText = headerLine :: rows ->
  snd (importFromCSV oracle csvText st) = Staged ->
  let st' := fst (importFromCSV oracle csvText st) in
  let wrongWidth line :=
    negb (length (parseCSVLine line) =? length (csvHeaders headerLine))%nat in
  (length (pendingImportData st') + importErrorCount st'
   + length (List.filter wrongWidth rows) = length rows)%nat
  /\ (0 < length (pendingImportData st'))%nat.
Proof.
  intros Hlines Hstaged st' wrongWidth. unfold st'. clear st'.
  destruct rows as [| row rows].
  { unfold importFromCSV in Hstaged. rewrite Hlines in Hstaged. discriminate. }
  destruct (hasAllHeaders (csvHeaders headerLine)) eqn:Hh.
  2:{ rewrite (importFromCSV_header_mismatch _ _ _ _ _ _ Hlines Hh) in Hstaged. discriminate. }
  rewrite (importFromCSV_decoded _ _ _ _ _ _ Hlines Hh) in Hstaged |- *.
  pose proof (decodeRows_accounting oracle (csvHeaders headerLine) (row :: rows)
                (mkDecoding (profiles st) [] [])) as Hacc.
  cbv zeta in Hacc. fold (decodeRows oracle (csvHeaders headerLine) (row :: rows) (profiles st)) in Hacc.
  assert (Hfilter : List.filter (fun line => skipsRow (readRow (csvHeaders headerLine) line))
                      (row :: rows)
                    = List.filter wrongWidth (row :: rows)).
  { apply List.filter_ext. intros line. rewrite readRow_cases. cbv zeta. unfold wrongWidth.
    destruct (negb (length (parseCSVLine line) =? length (csvHeaders headerLine))%nat);
      [reflexivity |].
    repeat match goal with |- context [if ?b then _ else _] => destruct b end; reflexivity. }
  rewrite Hfilter in Hacc.
  destruct (newTimes (decodeRows oracle (csvHeaders headerLine) (row :: rows) (profiles st)))
    as [| t ts] eqn:Hnew; [discriminate |].
  simpl fst. simpl pendingImportData. simpl importErrorCount.
  simpl in Hacc |- *. split; lia.
Qed.

Lemma importFromCSV_accounting_witness :
  let st' := fst (importFromCSV sampleOracle shortRowCSV emptyStore) in
  (length (pendingImportData st') + importErrorCount st' + 1 = 2)%nat.
Proof.
  pose proof (importFromCSV_accounting sampleOracle shortRowCSV
                "time_of_entry,track,character,outfit,kart,race_time"
                ["2024-01-15T10:35:00.000Z,Rainbow Road,Luigi,Luigi,Standard Bike,2:45.123";
                 "2024-01-15T11:00:00.000Z,Mario Circuit,Mario"]
                emptyStore eq_refl eq_refl) as [H _].
  exact H.
Defined.

Lemma readRow_accepted (headers : list string) (line : string) (csvEntry : CSVTimeEntry.t) :
  readRow headers line = RowAccepted csvEntry ->
  truthy (CSVTimeEntry.track csvEntry) = true
  /\ truthy (CSVTimeEntry.character csvEntry) = true
  /\ truthy (CSVTimeEntry.race_time csvEntry) = true
  /\ lenientTimeRegex (CSVTimeEntry.race_time csvEntry) = true.
Proof.
  rewrite readRow_cases. cbv zeta.
  destruct (negb (length (parseCSVLine line) =? length headers)%nat); [discriminate |].
  set (e := mapValues headers (parseCSVLine line)).
  destruct (truthy (CSVTimeEntry.track e)) eqn:H1; [| discriminate].
  destruct (truthy (CSVTimeEntry.character e)) eqn:H2; [| discriminate].
  destruct (truthy (CSVTimeEntry.race_time e)) eqn:H3; [| discriminate].
  simpl. destruct (lenientTimeRegex (CSVTimeEntry.race_time e)) eqn:H4; [| discriminate].
  simpl. intros H. inversion H; subst. tauto.
Qed.

Lemma stagedEntry_mono (reg added : list Profile.t) (t : TimeEntry.t) :
  stagedEntry reg t -> stagedEntry (reg ++ added) t.
Proof.
  intros (H1 & H2 & p & c & Hp & H). split; [assumption |]. split; [assumption |].
  exists p, c. split; [apply in_or_app; now left | assumption].
Qed.

Lemma decodeRow_staged (oracle : Oracle) (headers : list string) (d : Decoding)
    (line : string) :
  List.Forall (stagedEntry (registry d)) (newTimes d) ->
  List.Forall (stagedEntry (registry (decodeRow oracle headers d line)))
              (newTimes (decodeRow oracle headers d line)).
Proof.
  intros Hd. unfold decodeRow.
  destruct (readRow headers line) as [| e | csvEntry] eqn:Hrow; simpl; try assumption.
  destruct (readRow_accepted _ _ _ Hrow) as (Htrack & Hchar & _ & Htime).
  pose proof (csvToTimeEntry_registry oracle (registry d) csvEntry) as (added & _ & Hreg & _).
  pose proof (csvToTimeEntry_decodes oracle (registry d) csvEntry) as Hdec.
  destruct (csvToTimeEntry oracle (registry d) csvEntry) as [ps t]. simpl in *. subst ps.
  apply List.Forall_app. split.
  - eapply List.Forall_impl; [| exact Hd]. intros t0. apply stagedEntry_mono.
  - constructor; [| constructor].
    destruct Hdec as (Ht & Hc & _ & Hv & Hch & p & Hp & Hid & Hsame).
    destruct Hsame as (Hs1 & _ & Hs3).
    split; [now rewrite Ht |]. split; [now rewrite Hc |].
    exists p, (CSVTimeEntry.character csvEntry).
    repeat split; try assumption. now rewrite Hs3.
Qed.

Lemma decodeRows_staged (oracle : Oracle) (headers : list string) (rows : list string)
    (d : Decoding) :
  List.Forall (stagedEntry (registry d)) (newTimes d) ->
  let d' := fold_left (decodeRow oracle headers) rows d in
  List.Forall (stagedEntry (registry d')) (newTimes d').
Proof.
  revert d. induction rows as [| row rows IH]; intros d Hd; simpl; [assumption |].
  apply IH. now apply decodeRow_staged.
Qed.



(** ** Importing the same file again *)

Lemma find_app_first {A : Type} (f : A -> bool) (l k : list A) :
  List.find f (l ++ k)
  = match List.find f l with Some x => Some x | None => List.find f k end.
Proof.
  induction l as [| x l IH]; simpl; [reflexivity |]. now destruct (f x).
Qed.

Lemma csvToTimeEntry_again (oracle oracle' : Oracle) (ps ext : list Profile.t)
    (e : CSVTimeEntry.t) :
  csvToTimeEntry oracle' (fst (csvToTimeEntry oracle ps e) ++ ext) e
  = (fst (csvToTimeEntry oracle ps e) ++ ext, snd (csvToTimeEntry oracle ps e)).
Proof.
  unfold csvToTimeEntry, findByAttributes.
  destruct (List.find _ ps) as [p |] eqn:Hfind; simpl.
  - rewrite find_app_first, Hfind. reflexivity.
  - rewrite !find_app_first, Hfind. simpl.
    rewrite !bool_decide_eq_true_2 by reflexivity. reflexivity.
Qed.

Lemma decodeRow_again (oracle oracle' : Oracle) (headers : list string) (d : Decoding)
    (line : string) :
  let d1 := decodeRow oracle headers d line in
  exists newT newE,
    newTimes d1 = newTimes d ++ newT /\ errors d1 = errors d ++ newE
    /\ forall ext T E,
         decodeRow oracle' headers (mkDecoding (registry d1 ++ ext) T E) line
         = mkDecoding (registry d1 ++ ext) (T ++ newT) (E ++ newE).
Proof.
  unfold decodeRow. destruct (readRow headers line) as [| e | csvEntry]; simpl.
  - exists [], []. rewrite !app_nil_r. repeat split. intros ext T E. now rewrite !app_nil_r.
  - exists [], [e]. rewrite !app_nil_r. repeat split. intros ext T E. now rewrite !app_nil_r.
  - pose proof (csvToTimeEntry_again oracle oracle' (registry d)) as Hagain.
    destruct (csvToTimeEntry oracle (registry d) csvEntry) as [ps t] eqn:Hc. simpl.
    exists [t], []. rewrite !app_nil_r. repeat split. intros ext T E.
    specialize (Hagain ext csvEntry). rewrite Hc in Hagain. simpl in Hagain.
    rewrite Hagain. now rewrite !app_nil_r.
Qed.

Lemma decodeRows_again (oracle oracle' : Oracle) (headers : list string) (rows : list string) :
  forall d,
    let df := fold_left (decodeRow oracle headers) rows d in
    exists newT newE,
      newTimes df = newTimes d ++ newT /\ errors df = errors d ++ newE
      /\ forall ext T E,
           fold_left (decodeRow oracle' headers) rows (mkDecoding (registry df ++ ext) T E)
           = mkDecoding (registry df ++ ext) (T ++ newT) (E ++ newE).
Proof.
  induction rows as [| row rows IH]; intros d; simpl.
  - exists [], []. rewrite !app_nil_r. repeat split. intros ext T E. now rewrite !app_nil_r.
  - destruct (decodeRow_again oracle oracle' headers d row) as (t1 & e1 & Ht1 & He1 & Hrow).
    destruct (IH (decodeRow oracle headers d row)) as (t2 & e2 & Ht2 & He2 & Hrows).
    cbv zeta in Ht2, He2, Hrows.
    destruct (decodeRows_registry oracle headers rows (decodeRow oracle headers d row))
      as (added & Hreg & _).
    exists (t1 ++ t2), (e1 ++ e2).
    rewrite Ht2, He2, Ht1, He1, <- !app_assoc. repeat split.
    intros ext T E. rewrite Hreg, <- app_assoc, Hrow, app_assoc, <- Hreg.
    rewrite Hrows. now rewrite <- !app_assoc.
Qed.

(** X10 -- Importing a file a second time, before or after the first
    import is confirmed or cancelled and whatever profiles were added in
    between, registers no further profile, has the same outcome and
    stages the same entries with the same profile ids and the same count
    of errors, whatever ids the clock and the random source would give. *)
Theorem importFromCSV_again (oracle oracle' : Oracle) (csvText : string) (st st2 : Store)
    (ext : list Profile.t) :
  profiles st2 = profiles (fst (importFromCSV oracle csvText st)) ++ ext ->
  profiles (fst (importFromCSV oracle' csvText st2)) = profiles st2
  /\ snd (importFromCSV oracle' csvText st2) = snd (importFromCSV oracle csvText st)
  /\ (snd (importFromCSV oracle csvText st) = Staged ->
      pendingImportData (fst (importFromCSV oracle' csvText st2))
      = pendingImportData (fst (importFromCSV oracle csvText st))
      /\ importErrorCount (fst (importFromCSV oracle' csvText st2))
         = importErrorCount (fst (importFromCSV oracle csvText st))).
Proof.
  unfold importFromCSV.
  destruct (csvLines csvText) as [| headerLine [| row rows]];
    try (intros _; repeat split; discriminate).
  destruct (hasAllHeaders (csvHeaders headerLine));
    simpl negb; cbv iota; [| intros _; repeat split; discriminate].
  unfold decodeRows.
  destruct (decodeRows_again oracle oracle' (csvHeaders headerLine) (row :: rows)
              (mkDecoding (profiles st) [] [])) as (newT & newE & HT & HE & Hagain).
  cbv zeta in HT, HE, Hagain. simpl app in HT, HE.
  set (df := fold_left (decodeRow oracle (csvHeaders headerLine)) (row :: rows)
               (mkDecoding (profiles st) [] [])) in *.
  intros Hreg.
  assert (Hprofiles : profiles st2 = registry df ++ ext).
  { rewrite Hreg. now destruct (newTimes df). }
  rewrite Hprofiles, (Hagain ext [] []). simpl app. rewrite HT, HE.
  destruct newT as [| t ts]; simpl; repeat split; try discriminate; symmetry; assumption.
Qed.

Lemma importFromCSV_again_witness :
  profiles (fst (importFromCSV sampleOracle sampleCSV
                   (cancelImport (fst (importFromCSV sampleOracle sampleCSV emptyStore)))))
  = profiles (cancelImport (fst (importFromCSV sampleOracle sampleCSV emptyStore))).
Proof.
  apply (importFromCSV_again sampleOracle sampleOracle sampleCSV emptyStore
           (cancelImport (fst (importFromCSV sampleOracle sampleCSV emptyStore))) []).
  reflexivity.
Defined.

(** * Storage and sessions *)

Lemma loadKey_Wellformed {A : Type} (a : A) (assign : A -> Store -> Store) (st : Store) :
  loadKey (Wellformed a) assign st = Done (assign a st).
Proof. reflexivity. Qed.


(** ** What every handler keeps *)

Lemma ledgerStored_save (st : Store) : ledgerStored (saveToLocalStorage st).
Proof. now repeat split. Qed.

Lemma removeFirst_sublist (c : string) (l : list string) : sublist (removeFirst c l) l.
Proof.
  induction l as [| x l IH]; simpl; [constructor |].
  destruct (String.eqb x c); [now apply sublist_cons | now apply sublist_skip].
Qed.

Lemma removeFirst_not_in (c : string) (l : list string) :
  NoDup l -> c ∉ removeFirst c l.
Proof.
  induction 1 as [| x l Hx Hl IH]; simpl; [apply not_elem_of_nil |].
  destruct (String.eqb_spec x c) as [-> | Hne]; [assumption |].
  rewrite not_elem_of_cons. split; [congruence | assumption].
Qed.

Lemma touchRecent_ok (c : string) (l : list string) :
  NoDup l -> recentsOk (touchRecent c l).
Proof.
  intros Hl. unfold recentsOk, touchRecent. split.
  - eapply sublist_NoDup; [| apply sublist_take].
    apply NoDup_cons. split; [now apply removeFirst_not_in |].
    eapply sublist_NoDup; [exact Hl | apply removeFirst_sublist].
  - rewrite length_take. lia.
Qed.

Lemma Forall_removelast {A : Type} (P : A -> Prop) (l : list A) :
  Forall P l -> Forall P (removelast l).
Proof.
  induction 1 as [| x l Hx Hl IH]; simpl; [constructor |].
  destruct l; [constructor | now constructor].
Qed.

Lemma stagedEntry_recorded (reg : list Profile.t) (t : TimeEntry.t) :
  stagedEntry reg t -> recorded t.
Proof.
  intros (Htime & Hc & p & c & _ & _ & Hch & _ & _ & Hv).
  repeat split; try assumption.
  - apply lenient_inv in Htime as (m & a & b & x & y & z & -> & _ & Hne & _).
    unfold timeText. destruct m; [discriminate | reflexivity].
  - now rewrite Hch.
  - now rewrite Hv.
Qed.

Lemma importFromCSV_pending (oracle : Oracle) (csvText : string) (st : Store) :
  let st' := fst (importFromCSV oracle csvText st) in
  times st' = times st /\ recentCircuitsList st' = recentCircuitsList st
  /\ localStorage st' = localStorage st
  /\ (pendingImportData st' = pendingImportData st
      \/ (snd (importFromCSV oracle csvText st) = Staged
          /\ Forall (stagedEntry (profiles st')) (pendingImportData st'))).
Proof.
  unfold importFromCSV.
  destruct (csvLines csvText) as [| headerLine [| row rows]]; try (simpl; tauto).
  destruct (hasAllHeaders (csvHeaders headerLine)); simpl negb; cbv iota; [| simpl; tauto].
  pose proof (decodeRows_staged oracle (csvHeaders headerLine) (row :: rows)
                (mkDecoding (profiles st) [] []) (List.Forall_nil _)) as Hall.
  cbv zeta in Hall.
  fold (decodeRows oracle (csvHeaders headerLine) (row :: rows) (profiles st)) in Hall.
  destruct (newTimes (decodeRows oracle (csvHeaders headerLine) (row :: rows) (profiles st)))
    as [| t ts]; simpl; [tauto |].
  repeat split. right. split; [reflexivity | exact Hall].
Qed.

Lemma editedEntry_recorded (f : EditFormState.t) (old : TimeEntry.t) :
  truthy (EditFormState.time f) = true -> truthy (EditFormState.circuit f) = true ->
  recorded (editedEntry f old).
Proof. intros H1 H2. repeat split; simpl; try assumption; now eexists. Qed.

Lemma saveEdit_cases (st : Store) :
  finalStore (saveEdit st) = st
  \/ exists index old,
       truthy (EditFormState.time (editForm st)) = true
       /\ truthy (EditFormState.circuit (editForm st)) = true
       /\ times st !! index = Some old
       /\ editingTimeId st = Some index
       /\ finalStore (saveEdit st)
          = cancelEdit (saveToLocalStorage
                          (set_times (<[index := editedEntry (editForm st) old]> (times st)) st)).
Proof.
  unfold saveEdit.
  destruct (truthy (EditFormState.time (editForm st))); simpl; [| now left].
  destruct (truthy (EditFormState.circuit (editForm st))); simpl; [| now left].
  destruct (truthy (EditFormState.character (editForm st))); simpl; [| now left].
  destruct (truthy (EditFormState.vehicle (editForm st))); simpl; [| now left].
  destruct (editingTimeId st) as [index |]; [| now left].
  destruct (times st !! index) as [old |] eqn:Hold; [| now left].
  right. exists index, old. now repeat split.
Qed.

Lemma loadFromLocalStorage_stored (getTime : string -> number) (st : Store) :
  ledgerStored st ->
  exists st',
    loadFromLocalStorage getTime st = Done st'
    /\ times st' = times st
    /\ recentCircuitsList st' = recentCircuitsList st
    /\ pendingImportData st' = pendingImportData st
    /\ ledgerStored st'.
Proof.
  intros (Ht & Hr & Hp & Hf).
  unfold loadFromLocalStorage.
  destruct st as [ts ps rs flag sp sc ft ei ef pd ec sh [cellT cellP cellR cellF backup]].
  simpl in *.
  destruct cellT as [| | ts']; simpl in Ht; try contradiction;
    destruct cellP as [| | ps']; simpl in Hp; try discriminate;
    destruct cellR as [| | rs']; simpl in Hr; try contradiction;
    destruct cellF as [| | flag']; simpl in Hf; try discriminate;
    subst; simpl;
    (eexists; split; [reflexivity |]);
    rewrite ?selectInitialCircuit_times, ?selectInitialCircuit_recent;
    (split; [try reflexivity | split; [try reflexivity | split; [| apply ledgerStored_save]]]).
  all: try (unfold assignProfiles; simpl; repeat case_match; reflexivity).
  all: unfold selectInitialCircuit, assignProfiles; simpl; repeat case_match; reflexivity.
Qed.

Lemma sessionInvariant_frame (st st' : Store) :
  times st' = times st -> recentCircuitsList st' = recentCircuitsList st ->
  pendingImportData st' = pendingImportData st -> localStorage st' = localStorage st ->
  sessionInvariant st -> sessionInvariant st'.
Proof.
  unfold sessionInvariant, ledgerStored. intros -> -> -> ->. tauto.
Qed.

Lemma sessionInvariant_saved (st : Store) :
  recentsOk (recentCircuitsList st) -> Forall recorded (times st) ->
  Forall recorded (pendingImportData st) ->
  sessionInvariant (saveToLocalStorage st).
Proof.
  intros Hr Ht Hp. split; [apply ledgerStored_save |].
  split; [exact Hr |]. split; [exact Ht | exact Hp].
Qed.

Lemma newTimeEntry_recorded (now : string) (st : Store) :
  addAccepted st = true -> recorded (newTimeEntry now st).
Proof.
  unfold addAccepted. rewrite !andb_true_iff. intros [[Ht Hc] _].
  repeat split; simpl; try assumption; try now eexists.
  now apply strict_truthy.
Qed.

Lemma handle_invariant (e : Event) (st : Store) :
  sessionInvariant st -> sessionInvariant (handle e st).
Proof.
  intros Hinv. pose proof Hinv as (Hls & Hrec & Htimes & Hpend).
  destruct e; simpl handle.
  - (* formatTimeInput *)
    now apply (sessionInvariant_frame st).
  - (* addTime *)
    destruct (addAccepted st) eqn:Hacc.
    + rewrite addTime_accepted by assumption. simpl fst.
      eapply sessionInvariant_frame;
        [| | | | apply sessionInvariant_saved with
                   (st := set_recentCircuitsList
                            (touchRecent (selectedCircuit st) (recentCircuitsList st))
                            (set_times (times st ++ [newTimeEntry now st]) st))];
        try reflexivity; simpl.
      * apply touchRecent_ok, Hrec.
      * apply Forall_app. split; [assumption |].
        constructor; [now apply newTimeEntry_recorded | constructor].
      * assumption.
    + now rewrite addTime_refused.
  - (* selectProfile *)
    now apply (sessionInvariant_frame st).
  - (* selectCircuit *)
    unfold selectCircuit. apply sessionInvariant_saved; simpl; try assumption.
    apply touchRecent_ok, Hrec.
  - (* selectRecentCircuit *)
    now apply (sessionInvariant_frame st).
  - (* createProfile *)
    unfold createProfile. destruct (negb (canCreateProfile newProfile)); [assumption |].
    eapply sessionInvariant_frame;
      [| | | | apply sessionInvariant_saved with
                 (st := set_profiles (profiles st ++ [newProfileObj now createdAt newProfile]) st)];
      try reflexivity; assumption.
  - (* confirmDeleteProfile *)
    unfold confirmDeleteProfile. apply sessionInvariant_saved; case_match; assumption.
  - (* startEdit *)
    unfold startEdit. case_match; [| assumption]. now apply (sessionInvariant_frame st).
  - (* formatEditTimeInput *)
    now apply (sessionInvariant_frame st).
  - (* saveEdit *)
    destruct (saveEdit_cases st) as [-> | (index & old & Ht & Hc & Hold & _ & ->)];
      [assumption |].
    eapply sessionInvariant_frame;
      [| | | | apply sessionInvariant_saved with
                 (st := set_times (<[index := editedEntry (editForm st) old]> (times st)) st)];
      try reflexivity; simpl; try assumption.
    apply Forall_insert; [assumption | now apply editedEntry_recorded].
  - (* cancelEdit *)
    now apply (sessionInvariant_frame st).
  - (* confirmRemoveTime *)
    unfold confirmRemoveTime. apply sessionInvariant_saved; simpl; try assumption.
    now apply Forall_delete.
  - (* deleteRow *)
    unfold deleteRow, confirmRemoveTime.
    case_match; apply sessionInvariant_saved; simpl; try assumption.
    + now apply Forall_delete.
    + now apply Forall_removelast.
  - (* importFromCSV *)
    destruct (importFromCSV_pending oracle csvText st) as (Ht & Hr & Hl & Hp).
    cbv zeta in Ht, Hr, Hl, Hp.
    unfold sessionInvariant, ledgerStored. rewrite Ht, Hr, Hl.
    repeat split; try apply Hls; try apply Hrec; try assumption.
    destruct Hp as [-> | [_ Hp]]; [assumption |].
    eapply Forall_impl; [exact Hp |]. intros t. apply stagedEntry_recorded.
  - (* confirmImportReplace *)
    unfold confirmImportReplace.
    eapply sessionInvariant_frame with
      (st := saveToLocalStorage (set_pending [] 0 (set_times (pendingImportData st) st)));
      try reflexivity.
    apply sessionInvariant_saved; simpl; try assumption. constructor.
  - (* confirmImportAppend *)
    unfold confirmImportAppend.
    eapply sessionInvariant_frame with
      (st := saveToLocalStorage
               (set_pending [] 0 (set_times (times st ++ pendingImportData st) st)));
      try reflexivity.
    apply sessionInvariant_saved; simpl; try assumption; [| constructor].
    apply Forall_app. now split.
  - (* cancelImport *)
    unfold cancelImport, sessionInvariant, ledgerStored. simpl.
    repeat split; try apply Hls; try apply Hrec; try assumption. constructor.
  - (* confirmResetAllData *)
    unfold confirmResetAllData, sessionInvariant, ledgerStored, recentsOk. simpl.
    repeat split; try constructor; try assumption. lia.
  - (* loadFromLocalStorage *)
    destruct (loadFromLocalStorage_stored getTime st Hls) as (st' & -> & Ht & Hr & Hp & Hls').
    simpl. unfold sessionInvariant. rewrite Ht, Hr, Hp. tauto.
  - (* setShowRelativeTime *)
    unfold setShowRelativeTime. destruct (Bool.eqb v (showRelativeTime st)); [assumption |].
    split; [destruct Hls as (H1 & H2 & H3 & _); now repeat split |].
    split; [exact Hrec |]. split; assumption.
  - (* setEditForm *)
    now apply (sessionInvariant_frame st).
Qed.

Lemma session_invariant (events : list Event) (st : Store) :
  sessionInvariant st -> sessionInvariant (session events st).
Proof.
  revert st. induction events as [| e events IH]; intros st H; [assumption |].
  apply IH. now apply handle_invariant.
Qed.

Lemma emptyStore_invariant : sessionInvariant emptyStore.
Proof.
  unfold sessionInvariant, ledgerStored, recentsOk. simpl.
  repeat split; try constructor. lia.
Qed.

Lemma handle_ledgerStored (e : Event) (st : Store) :
  ledgerStored st -> ledgerStored (handle e st).
Proof.
  intros Hls.
  assert (Hframe : forall st', times st' = times st ->
                     recentCircuitsList st' = recentCircuitsList st ->
                     localStorage st' = localStorage st -> ledgerStored st').
  { unfold ledgerStored. intros st' -> -> ->. exact Hls. }
  destruct e; simpl handle.
  - now apply Hframe.
  - destruct (addAccepted st) eqn:Hacc.
    + rewrite addTime_accepted by assumption. apply ledgerStored_save.
    + now rewrite addTime_refused.
  - now apply Hframe.
  - apply ledgerStored_save.
  - now apply Hframe.
  - unfold createProfile. destruct (negb (canCreateProfile newProfile)); [assumption |].
    apply ledgerStored_save.
  - apply ledgerStored_save.
  - unfold startEdit. case_match; [| assumption]. now apply Hframe.
  - now apply Hframe.
  - destruct (saveEdit_cases st) as [-> | (index & old & _ & _ & _ & _ & ->)];
      [assumption | apply ledgerStored_save].
  - now apply Hframe.
  - apply ledgerStored_save.
  - unfold deleteRow. case_match; apply ledgerStored_save.
  - destruct (importFromCSV_pending oracle csvText st) as (Ht & Hr & Hl & _).
    now apply Hframe.
  - apply ledgerStored_save.
  - apply ledgerStored_save.
  - now apply Hframe.
  - now repeat split.
  - destruct (loadFromLocalStorage_stored getTime st Hls) as (st' & -> & _ & _ & _ & Hls').
    exact Hls'.
  - unfold setShowRelativeTime. destruct (Bool.eqb v (showRelativeTime st)); [assumption |].
    destruct Hls as (H1 & H2 & H3 & _). now repeat split.
  - now apply Hframe.
Qed.

Lemma session_ledgerStored (events : list Event) (st : Store) :
  ledgerStored st -> ledgerStored (session events st).
Proof.
  revert st. induction events as [| e events IH]; intros st H; [assumption |].
  apply IH. now apply handle_ledgerStored.
Qed.

Lemma ledgerStored_reload (getTime : string -> number) (st : Store) :
  ledgerStored st ->
  exists st',
    loadFromLocalStorage getTime (freshStore (localStorage st)) = Done st'
    /\ times st' = times st
    /\ recentCircuitsList st' = recentCircuitsList st.
Proof.
  intros (Ht & Hr & Hp & Hf).
  unfold loadFromLocalStorage, freshStore.
  destruct st as [ts ps rs flag sp sc ft ei ef pd ec sh [cellT cellP cellR cellF backup]].
  simpl in *.
  destruct cellT as [| | ts']; simpl in Ht; try contradiction;
    destruct cellP as [| | ps']; simpl in Hp; try discriminate;
    destruct cellR as [| | rs']; simpl in Hr; try contradiction;
    destruct cellF as [| | flag']; simpl in Hf; try discriminate;
    subst; simpl;
    (eexists; split; [reflexivity |]);
    unfold saveToLocalStorage; simpl;
    rewrite ?selectInitialCircuit_times, ?selectInitialCircuit_recent; simpl;
    rewrite ?assignProfiles_times, ?assignProfiles_recent;
    split; reflexivity.
Qed.

(** X12 -- At every point of a session, whatever the handlers that ran
    and in whatever order, the storage holds the ledger and the recent
    circuits that are in memory: reloading the page then gives back
    exactly this ledger and these recent circuits.  This holds from any
    store whose storage agrees with its memory, the empty one included. *)
Theorem session_reload (events : list Event) (getTime : string -> number) (st0 : Store) :
  ledgerStored st0 ->
  let st := session events st0 in
  exists st',
    loadFromLocalStorage getTime (freshStore (localStorage st)) = Done st'
    /\ times st' = times st
    /\ recentCircuitsList st' = recentCircuitsList st.
Proof.
  intros H st. apply ledgerStored_reload. now apply session_ledgerStored.
Qed.

Lemma session_reload_witness :
  let st := session [FormatTimeInput "132456"; AddTime "2024-01-15T10:30:00.000Z";
                     ImportFromCSV sampleOracle sampleCSV; ConfirmImportAppend]
                    firstAddStore in
  exists st',
    loadFromLocalStorage noDates (freshStore (localStorage st)) = Done st'
    /\ times st' = times st
    /\ recentCircuitsList st' = recentCircuitsList st.
Proof.
  apply (session_reload _ noDates firstAddStore). now repeat split.
Defined.

(** X13 -- In a session the recent circuits never hold a circuit twice
    and never more than eight, so the list shown is the whole list. *)
Theorem session_recents (events : list Event) (st0 : Store) :
  sessionInvariant st0 ->
  let st := session events st0 in
  NoDup (recentCircuitsList st)
  /\ (length (recentCircuitsList st) <= 8)%nat
  /\ recentCircuits st = recentCircuitsList st.
Proof.
  intros H st. destruct (session_invariant events st0 H) as (_ & [Hnd Hlen] & _).
  fold st in Hnd, Hlen. repeat split; try assumption.
  unfold recentCircuits. apply take_ge. lia.
Qed.

Lemma session_recents_witness :
  recentCircuitsList
    (session [SelectCircuit "Rainbow Road"; SelectCircuit "Mario Circuit";
              SelectCircuit "Rainbow Road"; SelectRecentCircuit "Mario Circuit"] emptyStore)
  = ["Rainbow Road"; "Mario Circuit"]
  /\ NoDup (recentCircuitsList
              (session [SelectCircuit "Rainbow Road"; SelectCircuit "Mario Circuit";
                        SelectCircuit "Rainbow Road"; SelectRecentCircuit "Mario Circuit"]
                       emptyStore)).
Proof.
  split; [reflexivity |].
  apply (session_recents
           [SelectCircuit "Rainbow Road"; SelectCircuit "Mario Circuit";
            SelectCircuit "Rainbow Road"; SelectRecentCircuit "Mario Circuit"] emptyStore).
  unfold sessionInvariant, ledgerStored, recentsOk. simpl.
  repeat split; try constructor. lia.
Defined.

(** X14 -- In a session every entry of the ledger, and every entry
    staged by an import, has a time and a circuit that are not empty and
    carries its character and its vehicle, whichever handler wrote it. *)
Theorem session_recorded (events : list Event) (st0 : Store) (t : TimeEntry.t) :
  sessionInvariant st0 ->
  let st := session events st0 in
  In t (times st) \/ In t (pendingImportData st) ->
  truthy (TimeEntry.time t) = true
  /\ truthy (TimeEntry.circuit t) = true
  /\ is_Some (TimeEntry.character t)
  /\ is_Some (TimeEntry.vehicle t).
Proof.
  intros H st Hin. destruct (session_invariant events st0 H) as (_ & _ & Ht & Hp).
  fold st in Ht, Hp. rewrite Forall_forall in Ht, Hp.
  destruct Hin as [Hin | Hin]; [apply Ht | apply Hp]; now apply list_elem_of_In.
Qed.

Lemma session_recorded_witness :
  truthy "1:32.456" = true /\ truthy "Mario Circuit" = true
  /\ is_Some (Some "Mario") /\ is_Some (Some "Standard Kart").
Proof.
  apply (session_recorded
           [FormatTimeInput "132456"; AddTime "2024-01-15T10:30:00.000Z"] firstAddStore
           (TimeEntry.mk "1:32.456" "Mario Circuit" "profile_1" "2024-01-15T10:30:00.000Z"
                         (Some "Standard Kart") (Some "Mario"))).
  - unfold sessionInvariant, ledgerStored, recentsOk. simpl.
    repeat split; try constructor. lia.
  - left. left. reflexivity.
Defined.

(** * Rows of the table *)

Lemma sameRow_refl (t : TimeEntry.t) : sameRow t t.
Proof. now repeat split. Qed.

Lemma getActualTimeIndex_Some (times : list TimeEntry.t) (t : TimeEntry.t) (i : nat) :
  getActualTimeIndex times t = Some i
  <-> exists t', times !! i = Some t' /\ sameRow t' t
                 /\ forall j y, times !! j = Some y -> (j < i)%nat -> ~ sameRow y t.
Proof.
  unfold getActualTimeIndex. split.
  - intros H. apply fmap_Some in H as ([j t'] & Hfind & ->).
    apply list_find_Some in Hfind. now exists t'.
  - intros (t' & H). apply fmap_Some. exists (i, t'). split; [| reflexivity].
    now apply list_find_Some.
Qed.

Lemma getActualTimeIndex_found (times : list TimeEntry.t) (t : TimeEntry.t) (i : nat) :
  times !! i = Some t ->
  exists j t',
    (j <= i)%nat /\ getActualTimeIndex times t = Some j
    /\ times !! j = Some t' /\ sameRow t' t.
Proof.
  intros Hi. destruct (getActualTimeIndex times t) as [j |] eqn:Hfind.
  - pose proof Hfind as Hj. apply getActualTimeIndex_Some in Hj as (t' & Hj & Hsame & Hmin).
    exists j, t'. split; [| split; [reflexivity | split; assumption]].
    destruct (Nat.le_gt_cases j i) as [Hle | Hgt]; [assumption |].
    exfalso. apply (Hmin i t Hi Hgt), sameRow_refl.
  - exfalso. unfold getActualTimeIndex in Hfind. apply fmap_None in Hfind.
    apply list_find_None in Hfind. rewrite Forall_forall in Hfind.
    apply (Hfind t); [eapply list_elem_of_lookup_2; eassumption | apply sameRow_refl].
Qed.

Lemma getActualTimeIndex_own (times : list TimeEntry.t) (t : TimeEntry.t) (i : nat) :
  distinctRows times -> times !! i = Some t -> getActualTimeIndex times t = Some i.
Proof.
  intros Hd Hi. destruct (getActualTimeIndex_found times t i Hi) as (j & t' & _ & Hj & Ht' & Hs).
  now rewrite (Hd j i t' t Ht' Hi Hs) in Hj.
Qed.

(** X15 -- Opening a row for editing and saving it unchanged leaves the
    ledger as it was and ends the edit, when no other entry has the time,
    circuit, date and profile id of the row and the row has a time, a
    circuit, a character and a vehicle. *)
Theorem startEdit_saveEdit (st : Store) (i : nat) (t : TimeEntry.t) (c v : string) :
  times st !! i = Some t ->
  distinctRows (times st) ->
  truthy (TimeEntry.time t) = true -> truthy (TimeEntry.circuit t) = true ->
  TimeEntry.character t = Some c -> truthy c = true ->
  TimeEntry.vehicle t = Some v -> truthy v = true ->
  editingTimeId (startEdit t st) = Some i
  /\ exists st',
       saveEdit (startEdit t st) = Done st'
       /\ times st' = times st
       /\ profiles st' = profiles st
       /\ editingTimeId st' = None
       /\ editForm st' = emptyEditForm
       /\ Storage.times (localStorage st') = Wellformed (times st).
Proof.
  intros Hi Hd Htime Hcircuit Hc Hct Hv Hvt.
  unfold startEdit. rewrite (getActualTimeIndex_own _ _ _ Hd Hi).
  split; [reflexivity |].
  unfold saveEdit. simpl. rewrite Htime, Hcircuit, Hc, Hv.
  rewrite !orElse_Some by assumption. rewrite Hct, Hvt. simpl. rewrite Hi.
  assert (Hsame : <[i := editedEntry
                       {| EditFormState.time := TimeEntry.time t;
                          EditFormState.circuit := TimeEntry.circuit t;
                          EditFormState.character := c;
                          EditFormState.vehicle := v |} t]> (times st) = times st).
  { apply list_insert_id. rewrite Hi. f_equal.
    destruct t as [tt tc tp td tv tch]. simpl in *. now subst. }
  eexists. split; [reflexivity |]. simpl. rewrite Hsame. now repeat split.
Qed.

Lemma startEdit_saveEdit_witness :
  exists st',
    saveEdit (startEdit (sampleEntry "1:20.000" "2024-01-15T10:30:00.000Z") oneTimeStore)
    = Done st'
    /\ times st' = times oneTimeStore.
Proof.
  destruct (startEdit_saveEdit oneTimeStore 0
              (sampleEntry "1:20.000" "2024-01-15T10:30:00.000Z") "Mario" "Standard Kart")
    as (_ & st' & Hsave & Htimes & _); try reflexivity.
  - intros [| i] [| j] a b Ha Hb _; try reflexivity; cbv in Ha, Hb; discriminate.
  - exists st'. now split.
Defined.

(** X16 -- The Delete button of a row removes exactly one entry of the
    ledger: the first one that has the time, circuit, date and profile id
    of the row, which is the row itself when no two entries agree on
    these four fields; the other entries keep their order and the result
    is saved.  For a row that is not in the ledger the last entry is
    removed. *)
Theorem deleteRow_removes_one (st : Store) (t : TimeEntry.t) :
  (forall i, times st !! i = Some t ->
     exists j t',
       (j <= i)%nat /\ times st !! j = Some t' /\ sameRow t' t
       /\ times (deleteRow t st) = delete j (times st)
       /\ Permutation (times st) (t' :: times (deleteRow t st))
       /\ (distinctRows (times st) -> j = i /\ t' = t))
  /\ ((forall t', In t' (times st) -> ~ sameRow t' t) ->
      times (deleteRow t st) = removelast (times st))
  /\ Storage.times (localStorage (deleteRow t st)) = Wellformed (times (deleteRow t st))
  /\ profiles (deleteRow t st) = profiles st.
Proof.
  split; [| split; [| split]].
  - intros i Hi.
    destruct (getActualTimeIndex_found (times st) t i Hi) as (j & t' & Hle & Hj & Ht' & Hs).
    exists j, t'. unfold deleteRow. rewrite Hj. simpl.
    split; [assumption |]. split; [assumption |]. split; [assumption |].
    split; [reflexivity |]. split; [now apply delete_Permutation |].
    intros Hd. pose proof (Hd j i t' t Ht' Hi Hs) as ->. split; congruence.
  - intros Hnone. unfold deleteRow.
    destruct (getActualTimeIndex (times st) t) as [j |] eqn:Hj; [| reflexivity].
    apply getActualTimeIndex_Some in Hj as (t' & Ht' & Hs & _).
    exfalso. apply (Hnone t'); [| assumption].
    apply list_elem_of_In. eapply list_elem_of_lookup_2. eassumption.
  - unfold deleteRow. now case_match.
  - unfold deleteRow. now case_match.
Qed.

Lemma deleteRow_removes_one_witness :
  times (deleteRow (sampleEntry "1:15.000" "2024-01-15T10:35:00.000Z")
                   (set_times podiumLedger emptyStore))
  = [sampleEntry "1:20.000" "2024-01-15T10:30:00.000Z";
     sampleEntry "1:15.000" "2024-01-15T10:40:00.000Z"]
  /\ Storage.times
       (localStorage (deleteRow (sampleEntry "1:15.000" "2024-01-15T10:35:00.000Z")
                                (set_times podiumLedger emptyStore)))
     = Wellformed [sampleEntry "1:20.000" "2024-01-15T10:30:00.000Z";
                   sampleEntry "1:15.000" "2024-01-15T10:40:00.000Z"].
Proof.
  split; [reflexivity |].
  apply (deleteRow_removes_one (set_times podiumLedger emptyStore)
           (sampleEntry "1:15.000" "2024-01-15T10:35:00.000Z")).
Defined.

(** X17 -- Removing an earlier row while a row is being edited does not
    end the edit and does not move its index: the edited entry slides
    one place down and is left as it was, and saving then overwrites the
    entry that followed it, which keeps its own date and profile id; when
    the edited row was the last one, saving throws and nothing is
    written. *)
Theorem saveEdit_after_removal (st : Store) (i j : nat) (old : TimeEntry.t) :
  editingTimeId st = Some i ->
  times st !! i = Some old ->
  (j < i)%nat ->
  editFilled (editForm st) = true ->
  let st1 := confirmRemoveTime j st in
  editingTimeId st1 = Some i
  /\ times st1 !! (i - 1)%nat = Some old
  /\ (forall next,
        times st !! S i = Some next ->
        exists st',
          saveEdit st1 = Done st'
          /\ times st' !! (i - 1)%nat = Some old
          /\ times st' !! i = Some (editedEntry (editForm st) next)
          /\ length (times st') = (length (times st) - 1)%nat)
  /\ (times st !! S i = None -> saveEdit st1 = Thrown TypeError st1).
Proof.
  intros Hedit Hold Hlt Hfilled st1.
  assert (Htimes : times st1 = delete j (times st)) by reflexivity.
  assert (Hprev : times st1 !! (i - 1)%nat = Some old).
  { rewrite Htimes, list_lookup_delete_ge by lia. now replace (S (i - 1)) with i by lia. }
  assert (Hat : times st1 !! i = times st !! S i).
  { rewrite Htimes. apply list_lookup_delete_ge. lia. }
  assert (Hsave : saveEdit st1
                  = match times st1 !! i with
                    | None => Thrown TypeError st1
                    | Some old' =>
                        Done (cancelEdit (saveToLocalStorage
                                (set_times (<[i := editedEntry (editForm st) old']> (times st1))
                                   st1)))
                    end).
  { unfold saveEdit. unfold editFilled in Hfilled.
    apply andb_true_iff in Hfilled as [Hfilled Hv].
    apply andb_true_iff in Hfilled as [Hfilled Hc].
    apply andb_true_iff in Hfilled as [Ht Hci].
    change (editForm st1) with (editForm st). change (editingTimeId st1) with (editingTimeId st).
    now rewrite Ht, Hci, Hc, Hv, Hedit. }
  split; [exact Hedit |]. split; [exact Hprev |]. split.
  - intros next Hnext. rewrite Hsave, Hat, Hnext.
    eexists. split; [reflexivity |]. simpl.
    assert (Hlen : (i < length (delete j (times st)))%nat).
    { apply lookup_lt_Some with (x := next). rewrite <- Hnext, <- Hat. now rewrite Htimes. }
    split; [| split].
    + rewrite list_lookup_insert_ne by lia. now rewrite <- Htimes.
    + now apply list_lookup_insert_eq.
    + rewrite length_insert. apply length_delete.
      apply lookup_lt_is_Some. apply lookup_lt_Some in Hold. lia.
  - intros Hnone. now rewrite Hsave, Hat, Hnone.
Qed.

Lemma saveEdit_after_removal_witness :
  let st := set_editing (Some 1%nat)
              (EditFormState.mk "1:14.000" "Mario Circuit" "Mario" "Standard Kart")
              (set_times podiumLedger emptyStore) in
  exists st',
    saveEdit (confirmRemoveTime 0 st) = Done st'
    /\ times st' !! 0%nat = Some (sampleEntry "1:15.000" "2024-01-15T10:35:00.000Z")
    /\ times st' !! 1%nat = Some (sampleEntry "1:14.000" "2024-01-15T10:40:00.000Z")
    /\ length (times st') = 2%nat.
Proof.
  intros st.
  destruct (saveEdit_after_removal st 1 0
              (sampleEntry "1:15.000" "2024-01-15T10:35:00.000Z")) as (_ & _ & Hnext & _);
    try reflexivity; [lia |].
  apply (Hnext (sampleEntry "1:15.000" "2024-01-15T10:40:00.000Z")). reflexivity.
Defined.

(** * Profiles *)

Lemma findProfile_filter (ps : list Profile.t) (removed profileId : string) :
  findProfile (filter (fun p => Profile.id p <> removed) ps) profileId
  = if bool_decide (profileId = removed) then None else findProfile ps profileId.
Proof.
  unfold findProfile. induction ps as [| p ps IH]; simpl.
  - now case_bool_decide.
  - rewrite filter_cons. destruct (decide (Profile.id p <> removed)) as [Hne | Heq].
    + simpl. destruct (bool_decide (Profile.id p = profileId)) eqn:E.
      * apply bool_decide_eq_true in E. subst profileId.
        now rewrite bool_decide_eq_false_2.
      * exact IH.
    + assert (Profile.id p = removed) as <- by (destruct (decide (Profile.id p = removed)); tauto).
      rewrite IH. case_bool_decide as Hid.
      * reflexivity.
      * rewrite bool_decide_eq_false_2 by congruence. reflexivity.
Qed.

(** X18 -- Deleting a combo removes the profiles with its id and
    nothing else: the ledger is untouched, the other profiles keep their
    order, the selection is cleared exactly when it was this combo, and
    the result is saved.  The times of the deleted combo stay; they are
    exported with their own character and vehicle and the outfit Default,
    and the entries of the other combos are exported as before. *)
Theorem confirmDeleteProfile_orphans (profileId : string) (st : Store) :
  let st' := confirmDeleteProfile profileId st in
  times st' = times st
  /\ profiles st' = filter (fun p => Profile.id p <> profileId) (profiles st)
  /\ findProfile (profiles st') profileId = None
  /\ getProfileCharacter profileId st' = "Unknown Character"
  /\ getProfileVehicle profileId st' = "Unknown Vehicle"
  /\ selectedProfileId st'
     = (if bool_decide (selectedProfileId st = profileId) then EmptyString
        else selectedProfileId st)
  /\ Storage.profiles (localStorage st') = Wellformed (profiles st')
  /\ (forall t,
        TimeEntry.profileId t = profileId ->
        timeEntryToCSV (profiles st') t
        = CSVTimeEntry.mk (TimeEntry.date t) (TimeEntry.circuit t)
            (orElse (TimeEntry.character t) "Unknown Character") "Default"
            (orElse (TimeEntry.vehicle t) "Standard Kart") (TimeEntry.time t))
  /\ (forall t,
        TimeEntry.profileId t <> profileId ->
        timeEntryToCSV (profiles st') t = timeEntryToCSV (profiles st) t).
Proof.
  intros st'.
  assert (Hps : profiles st' = filter (fun p => Profile.id p <> profileId) (profiles st)).
  { unfold st', confirmDeleteProfile. simpl. now case_bool_decide. }
  assert (Hfind : forall id', findProfile (profiles st') id'
                              = if bool_decide (id' = profileId) then None
                                else findProfile (profiles st) id').
  { intros id'. rewrite Hps. apply findProfile_filter. }
  split; [unfold st', confirmDeleteProfile; simpl; now case_bool_decide |].
  split; [exact Hps |].
  split; [rewrite Hfind; now rewrite bool_decide_eq_true_2 |].
  split; [unfold getProfileCharacter; rewrite Hfind; now rewrite bool_decide_eq_true_2 |].
  split; [unfold getProfileVehicle; rewrite Hfind; now rewrite bool_decide_eq_true_2 |].
  split; [unfold st', confirmDeleteProfile; simpl; now case_bool_decide |].
  split; [unfold st', confirmDeleteProfile; simpl; now case_bool_decide |].
  split.
  - intros t Ht. unfold timeEntryToCSV. rewrite Hfind, Ht.
    now rewrite bool_decide_eq_true_2.
  - intros t Ht. unfold timeEntryToCSV. rewrite Hfind.
    now rewrite bool_decide_eq_false_2.
Qed.

Lemma newTimeEntry_profile (now : string) (st : Store) (p : Profile.t) :
  findProfile (profiles st) (selectedProfileId st) = Some p ->
  TimeEntry.character (newTimeEntry now st) = Some (Profile.character p)
  /\ TimeEntry.vehicle (newTimeEntry now st) = Some (Profile.vehicle p).
Proof.
  intros H. unfold newTimeEntry. rewrite H. simpl.
  split; f_equal; unfold orElse; [now destruct (Profile.character p) | now destruct (Profile.vehicle p)].
Qed.

Lemma find_none_intro {A : Type} (f : A -> bool) (l : list A) :
  (forall x, In x l -> f x = false) -> List.find f l = None.
Proof.
  induction l as [| x l IH]; intros H; simpl; [reflexivity |].
  rewrite (H x) by now left. apply IH. intros y Hy. apply H. now right.
Qed.

Lemma findProfile_fresh (ps : list Profile.t) (p : Profile.t) :
  (forall q, In q ps -> Profile.id q <> Profile.id p) ->
  findProfile (ps ++ [p]) (Profile.id p) = Some p.
Proof.
  intros Hfresh. unfold findProfile. rewrite find_app_first.
  replace (List.find (fun q => bool_decide (Profile.id q = Profile.id p)) ps) with (@None Profile.t).
  - simpl. now rewrite bool_decide_eq_true_2.
  - symmetry. apply find_none_intro. intros q Hq.
    apply bool_decide_eq_false_2. now apply Hfresh.
Qed.

(** X19 -- A combo whose three labels pass the check of the form is
    added after the existing profiles, selected and saved.  A time added
    next is recorded under the new combo, with the character and the
    vehicle of the form, provided the id made from the clock is not the
    id of an older profile. *)
Theorem createProfile_then_addTime (now createdAt later : string) (newProfile : NewProfile.t)
    (st : Store) :
  canCreateProfile newProfile = true ->
  (forall q, In q (profiles st) -> Profile.id q <> "profile_" +:+ now) ->
  strictTimeRegex (formTime st) = true ->
  truthy (selectedCircuit st) = true ->
  let st1 := createProfile now createdAt newProfile st in
  profiles st1 = profiles st ++ [newProfileObj now createdAt newProfile]
  /\ selectedProfileId st1 = "profile_" +:+ now
  /\ Storage.profiles (localStorage st1) = Wellformed (profiles st1)
  /\ exists st2 best t,
       addTime later st1 = (st2, Some best)
       /\ times st2 = times st ++ [t]
       /\ TimeEntry.profileId t = "profile_" +:+ now
       /\ TimeEntry.character t = Some (NewProfile.character newProfile)
       /\ TimeEntry.vehicle t = Some (NewProfile.vehicle newProfile)
       /\ TimeEntry.time t = formTime st
       /\ TimeEntry.circuit t = selectedCircuit st.
Proof.
  intros Hcan Hfresh Htime Hcircuit st1.
  assert (Hst1 : st1 = set_selectedProfileId ("profile_" +:+ now)
                         (saveToLocalStorage
                            (set_profiles (profiles st ++ [newProfileObj now createdAt newProfile])
                               st))).
  { unfold st1, createProfile. now rewrite Hcan. }
  clearbody st1.
  split; [now rewrite Hst1 |]. split; [now rewrite Hst1 |]. split; [now rewrite Hst1 |].
  assert (Hacc : addAccepted st1 = true).
  { rewrite Hst1. unfold addAccepted. simpl. now rewrite Htime, Hcircuit. }
  rewrite (addTime_accepted later st1 Hacc).
  destruct (newTimeEntry_profile later st1 (newProfileObj now createdAt newProfile)) as [Hc Hv].
  { rewrite Hst1. simpl. now apply (findProfile_fresh (profiles st)). }
  eexists. eexists. exists (newTimeEntry later st1). split; [reflexivity |]. simpl.
  split; [now rewrite Hst1 |]. split; [now rewrite Hst1 |].
  split; [exact Hc |]. split; [exact Hv |]. now rewrite Hst1.
Qed.

Lemma createProfile_then_addTime_witness :
  let st1 := createProfile "1705312800000" "2024-01-15T10:00:00.000Z"
               (NewProfile.mk "Luigi" "Luigi" "Standard Bike") firstAddStore in
  exists st2 best t,
    addTime "2024-01-15T10:30:00.000Z" st1 = (st2, Some best)
    /\ times st2 = times firstAddStore ++ [t]
    /\ TimeEntry.profileId t = "profile_1705312800000"
    /\ TimeEntry.character t = Some "Luigi"
    /\ TimeEntry.vehicle t = Some "Standard Bike"
    /\ TimeEntry.time t = "1:20.000"
    /\ TimeEntry.circuit t = "Mario Circuit".
Proof.
  intros st1.
  apply (createProfile_then_addTime "1705312800000" "2024-01-15T10:00:00.000Z"
           "2024-01-15T10:30:00.000Z" (NewProfile.mk "Luigi" "Luigi" "Standard Bike")
           firstAddStore); try reflexivity.
  intros q [<- | []]. discriminate.
Defined.

(** * Ranking, again *)

Lemma fold_groupStep_None (l : list TimeEntry.t) : fold_left groupStep l None = None.
Proof. induction l as [| t l IH]; [reflexivity | exact IH]. Qed.

Lemma updateKey_keys {A : Type} (k : string) (f : A -> A) (g : list (string * A)) :
  map fst (updateKey k f g) = map fst g.
Proof.
  induction g as [| [k' v] g IH]; simpl; [reflexivity |].
  destruct (String.eqb k' k); simpl; [reflexivity | now rewrite IH].
Qed.

Lemma groupStep_keys (g g' : list (string * list TimeEntry.t)) (t : TimeEntry.t) :
  List.Forall (fun k => inherited k = false) (map fst g) ->
  groupStep (Some g) t = Some g' ->
  List.Forall (fun k => inherited k = false) (map fst g').
Proof.
  intros Hg. unfold groupStep.
  destruct (lookupKey (TimeEntry.circuit t) g) as [l |].
  - intros [= <-]. now rewrite updateKey_keys.
  - destruct (inherited (TimeEntry.circuit t)) eqn:E; [discriminate |].
    intros [= <-]. rewrite map_app. apply List.Forall_app. split; [assumption |].
    now repeat constructor.
Qed.

Lemma groupStep_inherited (g : list (string * list TimeEntry.t)) (t : TimeEntry.t) :
  List.Forall (fun k => inherited k = false) (map fst g) ->
  inherited (TimeEntry.circuit t) = true ->
  groupStep (Some g) t = None.
Proof.
  intros Hg Ht. unfold groupStep.
  destruct (lookupKey (TimeEntry.circuit t) g) as [l |] eqn:Hl; [| now rewrite Ht].
  apply lookupKey_In in Hl. rewrite List.Forall_forall in Hg.
  rewrite (Hg (TimeEntry.circuit t)) in Ht; [discriminate |].
  apply in_map_iff. now exists (TimeEntry.circuit t, l).
Qed.

Lemma fold_groupStep_inherited (l : list TimeEntry.t) :
  forall g,
    List.Forall (fun k => inherited k = false) (map fst g) ->
    (exists t, In t l /\ inherited (TimeEntry.circuit t) = true) ->
    fold_left groupStep l (Some g) = None.
Proof.
  induction l as [| t l IH]; intros g Hg (t0 & Hin & Ht0); [destruct Hin |].
  change (fold_left groupStep (t :: l) (Some g))
    with (fold_left groupStep l (groupStep (Some g) t)).
  destruct (groupStep (Some g) t) as [g' |] eqn:Hstep.
  - apply IH; [now apply (groupStep_keys g g' t) |].
    destruct Hin as [-> | Hin]; [| now exists t0].
    rewrite groupStep_inherited in Hstep by assumption. discriminate.
  - apply fold_groupStep_None.
Qed.

(** X20 -- The computation of the rankings throws exactly when the
    circuit of some entry of the ledger is the name of a property that
    every object inherits, such as constructor or toString; for every
    other ledger it returns a map. *)
Theorem timeRankings_throws_iff (times : list TimeEntry.t) :
  timeRankings times = None
  <-> exists t, In t times /\ inherited (TimeEntry.circuit t) = true.
Proof.
  split.
  - intros Hnone.
    destruct (List.Exists_dec (fun t => inherited (TimeEntry.circuit t) = true) times)
      as [Hex | Hnex].
    + intros t. destruct (inherited (TimeEntry.circuit t)); [now left | now right].
    + apply List.Exists_exists in Hex. exact Hex.
    + exfalso.
      assert (Hall : List.Forall (fun t => inherited (TimeEntry.circuit t) = false) times).
      { apply List.Forall_forall. intros t Hin.
        destruct (inherited (TimeEntry.circuit t)) eqn:E; [| reflexivity].
        exfalso. apply Hnex. apply List.Exists_exists. now exists t. }
      destruct (circuitGroups_spec times Hall) as (g & Hg & _).
      unfold timeRankings in Hnone. rewrite Hg in Hnone. discriminate.
  - intros Hex. unfold timeRankings, circuitGroups.
    rewrite fold_groupStep_inherited; [reflexivity | constructor | assumption].
Qed.

Lemma timeRankings_throws_iff_witness :
  timeRankings [sampleEntry "1:20.000" "2024-01-15T10:30:00.000Z";
                TimeEntry.mk "1:20.000" "toString" "profile_1" "2024-01-15T10:30:00.000Z"
                             (Some "Standard Kart") (Some "Mario")]
  = None.
Proof.
  apply timeRankings_throws_iff.
  exists (TimeEntry.mk "1:20.000" "toString" "profile_1" "2024-01-15T10:30:00.000Z"
                       (Some "Standard Kart") (Some "Mario")).
  split; [right; left; reflexivity | reflexivity].
Defined.








(** * Reset *)

(** X22 -- The reset empties the ledger, the profiles, the recent
    circuits, both selections and the time field, ends an edit and
    removes the five keys of the storage, so that a reload starts from
    nothing and writes empty lists back.  It leaves the date preference
    in memory and an import that is still staged: confirming that import
    afterwards records its entries, although no profile is left. *)
Theorem confirmResetAllData_clears (getTime : string -> number) (st : Store) :
  let st' := confirmResetAllData st in
  (times st' = [] /\ profiles st' = [] /\ recentCircuitsList st' = []
   /\ selectedProfileId st' = EmptyString /\ selectedCircuit st' = EmptyString
   /\ formTime st' = EmptyString /\ editingTimeId st' = None
   /\ localStorage st' = emptyStorage)
  /\ (showRelativeTime st' = showRelativeTime st
      /\ pendingImportData st' = pendingImportData st
      /\ importErrorCount st' = importErrorCount st
      /\ showImportConfirmation st' = showImportConfirmation st
      /\ editForm st' = editForm st)
  /\ loadFromLocalStorage getTime (freshStore (localStorage st'))
     = Done (saveToLocalStorage emptyStore)
  /\ times (confirmImportAppend st') = pendingImportData st
  /\ profiles (confirmImportAppend st') = []
  /\ Storage.times (localStorage (confirmImportAppend st')) = Wellformed (pendingImportData st).
Proof.
  intros st'. unfold st', confirmResetAllData. now repeat split.
Qed.

(** * Columns *)

Lemma getField_setField (h h' v : string) (row : CSVTimeEntry.t) :
  isExpectedHeader h = true ->
  getField (setField h v row) h' = if String.eqb h' h then v else getField row h'.
Proof.
  intros Hh. unfold isExpectedHeader, expectedHeaders in Hh. simpl in Hh.
  rewrite !orb_true_iff in Hh. destruct row as [e t c o k r].
  destruct Hh as [Hh | [Hh | [Hh | [Hh | [Hh | [Hh | Hh]]]]]]; try discriminate;
    apply String.eqb_eq in Hh; subst h; unfold setField, getField; simpl;
    repeat (match goal with
            | |- context [String.eqb h' ?s] => destruct (String.eqb_spec h' s); subst
            end; try reflexivity; try discriminate).
Qed.

Lemma getField_setField_other (h h' v : string) (row : CSVTimeEntry.t) :
  isExpectedHeader h = false -> getField (setField h v row) h' = getField row h'.
Proof.
  intros Hh. unfold isExpectedHeader, expectedHeaders in Hh. simpl in Hh.
  rewrite !orb_false_iff in Hh. destruct Hh as (H1 & H2 & H3 & H4 & H5 & H6 & _).
  unfold setField. destruct row as [e t c o k r]. now rewrite H1, H2, H3, H4, H5, H6.
Qed.

Lemma mapValues_absent (h : string) (headers : list string) :
  forall (values : list string) (row : CSVTimeEntry.t),
    ~ In h headers ->
    getField (fold_left
                (fun csvEntry '(header, value) =>
                   if isExpectedHeader header
                   then setField header (removeAll quoteChar value) csvEntry
                   else csvEntry)
                (zip headers values) row) h
    = getField row h.
Proof.
  induction headers as [| h0 hs IH]; intros values row Hnot; [reflexivity |].
  destruct values as [| v0 vs]; [reflexivity |]. simpl.
  rewrite IH by (intros Hin; apply Hnot; now right).
  destruct (isExpectedHeader h0) eqn:Hh0; [| reflexivity].
  rewrite getField_setField by assumption.
  destruct (String.eqb_spec h h0) as [-> | Hne]; [| reflexivity].
  exfalso. apply Hnot. now left.
Qed.

(** X23 -- The columns of an imported file are matched by name, not by
    position: with no column name repeated in the header, each of the six
    fields of a row takes the value that stands under its name, double
    quotes removed, wherever that column is; a column with another name
    is ignored, and a field whose column is missing stays empty. *)
Theorem mapValues_by_name (headers values : list string) (h : string) :
  List.NoDup headers ->
  isExpectedHeader h = true ->
  (forall i v,
     headers !! i = Some h -> values !! i = Some v ->
     getField (mapValues headers values) h = removeAll quoteChar v)
  /\ (~ In h headers -> getField (mapValues headers values) h = EmptyString).
Proof.
  intros Hnd Hh. split.
  - unfold mapValues. generalize emptyCSVEntry as row. revert values.
    induction Hnd as [| h0 hs Hh0 Hnd IH]; intros values row i v Hi Hv; [discriminate |].
    destruct values as [| v0 vs]; [discriminate |].
    destruct i as [| i]; simpl in Hi, Hv.
    + inversion Hi; inversion Hv; subst. simpl. rewrite Hh.
      rewrite mapValues_absent by assumption.
      rewrite getField_setField by assumption. now rewrite String.eqb_refl.
    + simpl. now apply (IH vs _ i v).
  - intros Hnot. unfold mapValues. rewrite mapValues_absent by assumption.
    unfold isExpectedHeader, expectedHeaders in Hh. simpl in Hh.
    unfold getField. simpl. now repeat case_match.
Qed.

Lemma mapValues_by_name_witness :
  getField (mapValues ["race_time"; "note"; "track"] ["1:32.456"; "wet"; "Rainbow Road"]) "track"
  = "Rainbow Road".
Proof.
  assert (Hnd : List.NoDup ["race_time"; "note"; "track"])
    by (repeat constructor; simpl; intuition discriminate).
  destruct (mapValues_by_name ["race_time"; "note"; "track"]
              ["1:32.456"; "wet"; "Rainbow Road"] "track" Hnd eq_refl) as [Hname _].
  exact (Hname 2%nat "Rainbow Road" eq_refl eq_refl).
Defined.

(** * A new best time and the gold medal *)



Section LastInserted.
Context {A : Type} (cmp : A -> A -> number) (e : A).



End LastInserted.




(** * Order of the table *)

Lemma byDate_after (getTime : string -> number) (x y : TimeEntry.t) :
  datedEntry getTime x -> datedEntry getTime y ->
  gt (byDate getTime x y) (ofZ 0) = negb (newerOrEqual getTime x y).
Proof.
  intros [qx Hx] [qy Hy]. unfold byDate, newerOrEqual, gt. rewrite Hx, Hy. simpl.
  unfold Qltb. f_equal. apply eq_true_iff_eq. rewrite !Qle_bool_iff. unfold inject_Z. lra.
Qed.

Lemma newerOrEqual_total (getTime : string -> number) (x y : TimeEntry.t) :
  datedEntry getTime x -> datedEntry getTime y ->
  newerOrEqual getTime x y = false -> newerOrEqual getTime y x = true.
Proof.
  intros [qx Hx] [qy Hy]. unfold newerOrEqual. rewrite Hx, Hy. simpl.
  intros H. apply Qle_bool_iff. apply not_true_iff_false in H.
  rewrite Qle_bool_iff in H. lra.
Qed.

Lemma newerOrEqual_trans (getTime : string -> number) (x y z : TimeEntry.t) :
  datedEntry getTime x -> datedEntry getTime y -> datedEntry getTime z ->
  newerOrEqual getTime x y = true -> newerOrEqual getTime y z = true ->
  newerOrEqual getTime x z = true.
Proof. intros _ _ _ Hxy Hyz. unfold newerOrEqual in *. now apply (le_trans _ _ _ Hyz). Qed.

(** X25 -- The table lists the entries of the ledger, each once, the
    most recent first; entries with the same moment keep the order they
    have in the ledger.  This holds when every date parses; whatever the
    dates, the rows are the entries of the ledger in some order. *)
Theorem sortedTimes_recent_first (getTime : string -> number) (st : Store) :
  Permutation (sortedTimes getTime st) (times st)
  /\ (List.Forall (datedEntry getTime) (times st) ->
      StronglySorted (fun a b => newerOrEqual getTime a b = true) (sortedTimes getTime st)
      /\ forall x, In x (times st) ->
           List.filter (fun y => newerOrEqual getTime x y && newerOrEqual getTime y x)
                       (sortedTimes getTime st)
           = List.filter (fun y => newerOrEqual getTime x y && newerOrEqual getTime y x)
                         (times st)).
Proof.
  change (sortedTimes getTime st) with (sortBy (byDate getTime) (times st)).
  split; [apply sortBy_Permutation |].
  intros Hall. split.
  - now apply (sortBy_sorted (byDate getTime) (newerOrEqual getTime) (datedEntry getTime)
                 (byDate_after getTime) (newerOrEqual_total getTime)
                 (newerOrEqual_trans getTime)).
  - intros x Hx.
    apply (sortBy_stable (byDate getTime) (newerOrEqual getTime) (datedEntry getTime)
             (byDate_after getTime) (newerOrEqual_trans getTime)); [| assumption].
    rewrite List.Forall_forall in Hall. now apply Hall.
Qed.

Lemma sortedTimes_recent_first_witness :
  sortedTimes minutesOfDate (set_times podiumLedger emptyStore)
  = [sampleEntry "1:15.000" "2024-01-15T10:40:00.000Z";
     sampleEntry "1:15.000" "2024-01-15T10:35:00.000Z";
     sampleEntry "1:20.000" "2024-01-15T10:30:00.000Z"]
  /\ StronglySorted (fun a b => newerOrEqual minutesOfDate a b = true)
       (sortedTimes minutesOfDate (set_times podiumLedger emptyStore)).
Proof.
  split; [reflexivity |].
  apply (sortedTimes_recent_first minutesOfDate (set_times podiumLedger emptyStore)).
  repeat constructor; eexists; vm_compute; reflexivity.
Defined.

(** * Adding and deleting *)

(** X26 -- Deleting the row of a time that was just added gives back the
    ledger as it was before the time was added, in memory and in the
    storage, when no older entry has the time, circuit, date and profile
    id of the new one. *)
Theorem addTime_then_deleteRow (now : string) (st : Store) :
  addAccepted st = true ->
  (forall t, In t (times st) -> ~ sameRow t (newTimeEntry now st)) ->
  let st1 := fst (addTime now st) in
  times st1 = times st ++ [newTimeEntry now st]
  /\ times (deleteRow (newTimeEntry now st) st1) = times st
  /\ Storage.times (localStorage (deleteRow (newTimeEntry now st) st1))
     = Wellformed (times st)
  /\ profiles (deleteRow (newTimeEntry now st) st1) = profiles st.
Proof.
  intros Hacc Hfresh st1. unfold st1. rewrite (addTime_accepted now st Hacc). simpl fst.
  set (e := newTimeEntry now st) in *.
  assert (Hindex : getActualTimeIndex (times st ++ [e]) e = Some (length (times st))).
  { apply getActualTimeIndex_Some. exists e. split; [| split].
    - rewrite lookup_app_r by lia. now rewrite Nat.sub_diag.
    - apply sameRow_refl.
    - intros j y Hy Hj. rewrite lookup_app_l in Hy by assumption.
      apply Hfresh. apply list_elem_of_In. eapply list_elem_of_lookup_2. eassumption. }
  assert (Hdelete : delete (length (times st)) (times st ++ [e]) = times st).
  { rewrite delete_take_drop, take_app_length, drop_ge; [apply app_nil_r |].
    rewrite length_app. simpl. lia. }
  split; [reflexivity |].
  unfold deleteRow. simpl times. rewrite Hindex. unfold confirmRemoveTime. simpl.
  rewrite Hdelete. now repeat split.
Qed.

Lemma addTime_then_deleteRow_witness :
  times (deleteRow (newTimeEntry "2024-01-15T10:45:00.000Z" (set_formTime "1:19.000" oneTimeStore))
                   (fst (addTime "2024-01-15T10:45:00.000Z"
                           (set_formTime "1:19.000" oneTimeStore))))
  = times oneTimeStore.
Proof.
  apply (addTime_then_deleteRow "2024-01-15T10:45:00.000Z" (set_formTime "1:19.000" oneTimeStore)).
  - reflexivity.
  - intros t [<- | []] (_ & _ & Hdate & _). discriminate Hdate.
Defined.

(** * Filters and pages *)

Lemma filter_filter {A : Type} (f g : A -> bool) (l : list A) :
  List.filter f (List.filter g l) = List.filter (fun x => g x && f x) l.
Proof.
  induction l as [| x l IH]; simpl; [reflexivity |].
  destruct (g x); simpl; [destruct (f x); now rewrite IH | exact IH].
Qed.

Lemma filter_ext_bool {A : Type} (f g : A -> bool) (l : list A) :
  (forall x, f x = g x) -> List.filter f l = List.filter g l.
Proof. intros H. apply List.filter_ext. exact H. Qed.

Lemma filter_true {A : Type} (l : list A) : List.filter (fun _ => true) l = l.
Proof. induction l as [| x l IH]; simpl; [reflexivity | now rewrite IH]. Qed.

Lemma filter_sublist {A : Type} (f : A -> bool) (l : list A) : sublist (List.filter f l) l.
Proof.
  induction l as [| x l IH]; simpl; [constructor |].
  destruct (f x); [now apply sublist_skip | now apply sublist_cons].
Qed.

Lemma filter_step {A : Type} (active : bool) (f g : A -> bool) (l : list A) :
  (if active then List.filter f (List.filter g l) else List.filter g l)
  = List.filter (fun x => g x && (negb active || f x)) l.
Proof.
  destruct active; simpl.
  - apply filter_filter.
  - apply filter_ext_bool. intros x. now rewrite andb_true_r.
Qed.

(** X27 -- The rows that pass the filters are the entries of the sorted
    ledger that satisfy every active filter at once, in the order of the
    sorted ledger: none is added, none that satisfies them is lost, and
    the order in which the four filters are applied does not matter.  A
    filter is active when the search text is not empty, or when a menu
    holds a label other than its placeholder.  With the filters as
    [clearFilters] sets them every row passes. *)
Theorem filteredTimes_passes (toLowerCase : string -> string) (filters : Filters.t)
    (sorted : list TimeEntry.t) :
  filteredTimes toLowerCase filters sorted
  = List.filter (passesFilters toLowerCase filters) sorted
  /\ sublist (filteredTimes toLowerCase filters sorted) sorted
  /\ (forall time, In time (filteredTimes toLowerCase filters sorted)
                   <-> In time sorted /\ passesFilters toLowerCase filters time = true)
  /\ filteredTimes toLowerCase clearedFilters sorted = sorted.
Proof.
  assert (Heq : filteredTimes toLowerCase filters sorted
                = List.filter (passesFilters toLowerCase filters) sorted).
  { unfold filteredTimes, passesFilters.
    set (search := matchesSearch toLowerCase (toLowerCase (Filters.timeSearch filters))).
    assert (H1 : (if truthy (Filters.timeSearch filters)
                  then List.filter search sorted else sorted)
                 = List.filter (fun x => negb (truthy (Filters.timeSearch filters)) || search x)
                               sorted).
    { destruct (truthy (Filters.timeSearch filters)); simpl; [reflexivity |].
      now rewrite filter_true. }
    rewrite H1. cbv zeta. rewrite !filter_step. reflexivity. }
  split; [exact Heq |]. split; [rewrite Heq; apply filter_sublist |]. split.
  - intros time. rewrite Heq. apply List.filter_In.
  - reflexivity.
Qed.

Lemma map_snd_imap_index {A : Type} (l : list A) :
  forall f : nat -> nat, map snd (imap (fun i x => (f i, x)) l) = l.
Proof.
  induction l as [| x l IH]; intros f; simpl; [reflexivity |].
  f_equal. apply (IH (fun i => f (S i))).
Qed.

Lemma paginatedTimes_rows (page itemsPerPage : nat) (filtered : list TimeEntry.t) :
  map snd (paginatedTimes (S page) itemsPerPage filtered)
  = take itemsPerPage (drop (page * itemsPerPage) filtered).
Proof.
  unfold paginatedTimes. cbv zeta.
  apply (map_snd_imap_index _ (fun i => (page * itemsPerPage + i)%nat)).
Qed.

#[local] Arguments paginatedTimes : simpl never.

Lemma pages_take (n itemsPerPage : nat) (filtered : list TimeEntry.t) :
  concat (map (fun currentPage => map snd (paginatedTimes currentPage itemsPerPage filtered))
              (seq 1 n))
  = take (n * itemsPerPage) filtered.
Proof.
  induction n as [| n IH]; [reflexivity |].
  rewrite seq_S, map_app, concat_app, IH. simpl plus. simpl map. simpl concat.
  rewrite app_nil_r, paginatedTimes_rows, take_take_drop. f_equal. lia.
Qed.

(** X28 -- The pages cut the filtered rows into consecutive runs: every
    row of a page carries the index it has among the filtered rows, a
    page has at most as many rows as the page size, and the pages 1 to n
    put one after the other are the first n times the page size rows, so
    that with enough pages every filtered row is shown exactly once, in
    order.  The page 0 is empty. *)
Theorem paginatedTimes_partition (itemsPerPage : nat) (filtered : list TimeEntry.t) :
  (forall currentPage index time,
     In (index, time) (paginatedTimes currentPage itemsPerPage filtered) ->
     filtered !! index = Some time
     /\ ((currentPage - 1) * itemsPerPage <= index < currentPage * itemsPerPage)%nat)
  /\ (forall currentPage,
        (length (paginatedTimes currentPage itemsPerPage filtered) <= itemsPerPage)%nat)
  /\ (forall n,
        (length filtered <= n * itemsPerPage)%nat ->
        concat (map (fun currentPage =>
                       map snd (paginatedTimes currentPage itemsPerPage filtered))
                    (seq 1 n))
        = filtered)
  /\ paginatedTimes 0 itemsPerPage filtered = [].
Proof.
  split; [| split; [| split]].
  - intros [| page] index time Hin; [destruct Hin |].
    unfold paginatedTimes in Hin. cbv zeta in Hin.
    apply list_elem_of_In, elem_of_lookup_imap in Hin as (i & y & Heq & Hi).
    inversion Heq; subst index y. clear Heq.
    assert (Hlt : (i < itemsPerPage)%nat).
    { apply lookup_lt_Some in Hi. rewrite length_take in Hi. lia. }
    rewrite lookup_take_lt, lookup_drop in Hi by assumption.
    split; [exact Hi |]. simpl. rewrite Nat.sub_0_r. lia.
  - intros [| page]; unfold paginatedTimes; simpl; [lia |].
    rewrite length_imap, length_take. lia.
  - intros n Hn. rewrite pages_take. now apply take_ge.
  - reflexivity.
Qed.

Lemma paginatedTimes_partition_witness :
  concat (map (fun currentPage => map snd (paginatedTimes currentPage 2 podiumLedger))
              (seq 1 2))
  = podiumLedger.
Proof.
  apply (paginatedTimes_partition 2 podiumLedger). simpl. lia.
Defined.
